(** * StreamViX addon (src/addon.ts): configuration decoding, channel-link
    cache, provider orchestration and live-TV stream assembly.

    [src/addon.ts] holds revisions of the same file.  Two of them carry the
    code studied here and are embedded in two modules:

    - [VavooRev]: the revision with the Vavoo link cache (the second part of
      the file): the cascading [parseConfigFromArgs], [updateVavooCache],
      [resolveVavooChannelByName] and the stream handler that asks VixSrc
      first;
    - [EpgRev]: the revision with the EPG manager (the third part of the
      file): [isFreeToAirChannel], the live-TV stream assembly with the proxy
      templates, and the stream handler that asks the anime providers first;
    - [WebApp]: what the revision with the link cache does around its stream
      handler: the middleware that merges the settings of the path into
      [configCache], [getChannelCategories], the catalog handler and the meta
      handler.

    Module [JS] models the built-ins of the JavaScript runtime the code
    calls.  Text is held as Rocq [string]s, that is as the sequence of its
    UTF-8 bytes. *)

From Stdlib Require Import ZArith NArith Ascii String.
From stdpp Require Import base option list strings gmap pretty.

Set Warnings "-register-all".
#[local] Arguments String.append !s1 s2 : simpl nomatch.
#[local] Arguments Ascii.eqb : simpl never.

Local Open Scope string_scope.

(* ================================================================== *)
(** * The JavaScript runtime *)
(* ================================================================== *)

Module JS.

(** ** Exceptions *)

Inductive exn : Type :=
| SyntaxError
| URIError
| TypeError
| Rejected (reason : string).

(** The result of evaluating an expression that may throw, or of awaiting a
    promise that may reject. *)
Inductive outcome (A : Type) : Type :=
| Returns (a : A)
| Throws (e : exn).
Arguments Returns {A} a.
Arguments Throws {A} e.

(** [try { m } catch (_) { h }] *)
Definition try_catch {A} (m : outcome A) (h : exn -> outcome A) : outcome A :=
  match m with
  | Returns a => Returns a
  | Throws e => h e
  end.

(** ** Strings *)

Definition code (c : ascii) : N := N_of_ascii c.

Definition in_range (lo hi : N) (c : ascii) : bool :=
  (lo <=? code c)%N && (code c <=? hi)%N.

(** [s.startsWith(p)] *)
Fixpoint startsWith (s p : string) : bool :=
  match p, s with
  | EmptyString, _ => true
  | String a p', String b s' => Ascii.eqb a b && startsWith s' p'
  | String _ _, EmptyString => false
  end.

(** [s.includes(p)] *)
Fixpoint includes (s p : string) : bool :=
  startsWith s p ||
  match s with
  | EmptyString => false
  | String _ s' => includes s' p
  end.

(** [s.endsWith(p)]: some suffix of [s] is [p]. *)
Fixpoint endsWith (s p : string) : bool :=
  String.eqb s p ||
  match s with
  | EmptyString => false
  | String _ s' => endsWith s' p
  end.

(** [s.slice(0, -1)] *)
Fixpoint slice_0_m1 (s : string) : string :=
  match s with
  | EmptyString => EmptyString
  | String _ EmptyString => EmptyString
  | String a s' => String a (slice_0_m1 s')
  end.

Fixpoint dropChars (n : nat) (s : string) : string :=
  match n, s with
  | O, _ => s
  | S n', String _ s' => dropChars n' s'
  | S _, EmptyString => EmptyString
  end.

(** [s.replace(p, r)] for a string pattern [p] and a replacement [r] without
    [$] patterns: the first occurrence only. *)
Fixpoint replace (s p r : string) : string :=
  if startsWith s p then r +:+ dropChars (String.length p) s
  else match s with
       | EmptyString => EmptyString
       | String a s' => String a (replace s' p r)
       end.

(** [s.split(sep)] for a one-character separator. *)
Fixpoint split (sep : ascii) (s : string) : list string :=
  match s with
  | EmptyString => [EmptyString]
  | String a s' =>
      if Ascii.eqb a sep then EmptyString :: split sep s'
      else match split sep s' with
           | h :: t => String a h :: t
           | [] => [String a EmptyString]
           end
  end.

(** ASCII lower-casing; enough to compare [s.toLowerCase()] with an ASCII
    word, since no character outside ASCII lower-cases to an ASCII letter of
    the words compared against here. *)
Definition lowerChar (c : ascii) : ascii :=
  if in_range 65 90 c then ascii_of_N (code c + 32) else c.

Fixpoint toLowerCase (s : string) : string :=
  match s with
  | EmptyString => EmptyString
  | String c r => String (lowerChar c) (toLowerCase r)
  end.

(** Truthiness of an optional string ([undefined] and [''] are falsy). *)
Definition truthy (v : option string) : bool :=
  match v with
  | Some (String _ _) => true
  | _ => false
  end.

(** [a || b] on optional strings. *)
Definition or_else (a b : option string) : option string :=
  if truthy a then a else b.

(** [a || ''] *)
Definition or_empty (a : option string) : string :=
  match a with
  | Some s => s
  | None => EmptyString
  end.

Definition nonEmpty (s : string) : bool :=
  match s with
  | EmptyString => false
  | String _ _ => true
  end.

(** ** Numbers read by [parseInt] *)

(** The value is exact; the rounding of integers beyond 2^53 to the nearest
    double is outside the model. *)
Inductive jsnum : Type :=
| NaN
| Num (z : Z).

Definition hexDigit (c : ascii) : option N :=
  let n := code c in
  if (48 <=? n)%N && (n <=? 57)%N then Some (n - 48)%N
  else if (65 <=? n)%N && (n <=? 70)%N then Some (n - 55)%N
  else if (97 <=? n)%N && (n <=? 102)%N then Some (n - 87)%N
  else None.

Definition isAsciiSpace (c : ascii) : bool :=
  in_range 9 13 c || Ascii.eqb c " "%char.

(** Leading white space and line terminators, as [parseInt] skips them; the
    characters outside ASCII appear as their UTF-8 bytes. *)
Fixpoint trimStart (s : string) : string :=
  match s with
  | EmptyString => EmptyString
  | String c r =>
      if isAsciiSpace c then trimStart r
      else match s with
           | String "194" (String "160" r2) => trimStart r2
           | String "225" (String "154" (String "128" r3)) => trimStart r3
           | String "226" (String "128" (String x r3)) =>
               if in_range 128 138 x || in_range 168 169 x
                  || Ascii.eqb x "175"%char
               then trimStart r3 else s
           | String "226" (String "129" (String "159" r3)) => trimStart r3
           | String "227" (String "128" (String "128" r3)) => trimStart r3
           | String "239" (String "187" (String "191" r3)) => trimStart r3
           | _ => s
           end
  end.

Definition digitVal (radix : Z) (c : ascii) : option Z :=
  match hexDigit c with
  | Some d => if (Z.of_N d <? radix)%Z then Some (Z.of_N d) else None
  | None => None
  end.

(** The number denoted by the longest prefix of digits; [acc] is [None] as
    long as no digit was read. *)
Fixpoint digitsPrefix (radix : Z) (s : string) (acc : option Z) : option Z :=
  match s with
  | EmptyString => acc
  | String c r =>
      match digitVal radix c with
      | Some d => digitsPrefix radix r (Some (radix * default 0 acc + d)%Z)
      | None => acc
      end
  end.

(** [parseInt(s)], no radix given. *)
Definition parseInt (s : string) : jsnum :=
  let s1 := trimStart s in
  let '(neg, s2) :=
    match s1 with
    | String "-" r => (true, r)
    | String "+" r => (false, r)
    | _ => (false, s1)
    end in
  let '(radix, s3) :=
    match s2 with
    | String "0" (String "x" r) => (16%Z, r)
    | String "0" (String "X" r) => (16%Z, r)
    | _ => (10%Z, s2)
    end in
  match digitsPrefix radix s3 None with
  | None => NaN
  | Some v => Num (if neg : bool then (- v)%Z else v)
  end.

(** ** UTF-8 *)

Inductive utf8_lead : Type :=
| Lead1
| Lead (more : nat) (lo hi : N)
| LeadBad.

(** What may follow a first byte: how many bytes and the range of the
    second one (Unicode, table 3-7). *)
Definition utf8_classify (b : N) : utf8_lead :=
  if (b <=? 0x7F)%N then Lead1
  else if (0xC2 <=? b)%N && (b <=? 0xDF)%N then Lead 1 0x80 0xBF
  else if (b =? 0xE0)%N then Lead 2 0xA0 0xBF
  else if (b =? 0xED)%N then Lead 2 0x80 0x9F
  else if (0xE1 <=? b)%N && (b <=? 0xEF)%N then Lead 2 0x80 0xBF
  else if (b =? 0xF0)%N then Lead 3 0x90 0xBF
  else if (0xF1 <=? b)%N && (b <=? 0xF3)%N then Lead 3 0x80 0xBF
  else if (b =? 0xF4)%N then Lead 3 0x80 0x8F
  else LeadBad.

Definition isCont (c : ascii) : bool := in_range 0x80 0xBF c.

(** U+FFFD as bytes. *)
Definition REPLACEMENT : string :=
  String "239" (String "191" (String "189" EmptyString)).

(** [buf.toString('utf-8')]: well-formed sequences are kept and every
    maximal ill-formed part becomes U+FFFD. *)
Fixpoint toString_utf8 (s : string) : string :=
  match s with
  | EmptyString => EmptyString
  | String b0 r0 =>
      match utf8_classify (code b0) with
      | Lead1 => String b0 (toString_utf8 r0)
      | LeadBad => REPLACEMENT +:+ toString_utf8 r0
      | Lead more lo hi =>
          match r0 with
          | EmptyString => REPLACEMENT
          | String b1 r1 =>
              if negb (in_range lo hi b1) then REPLACEMENT +:+ toString_utf8 r0
              else
                match more with
                | 1 => String b0 (String b1 (toString_utf8 r1))
                | _ =>
                    match r1 with
                    | EmptyString => REPLACEMENT
                    | String b2 r2 =>
                        if negb (isCont b2)
                        then REPLACEMENT +:+ toString_utf8 r1
                        else
                          match more with
                          | 2 => String b0 (String b1 (String b2
                                   (toString_utf8 r2)))
                          | _ =>
                              match r2 with
                              | EmptyString => REPLACEMENT
                              | String b3 r3 =>
                                  if negb (isCont b3)
                                  then REPLACEMENT +:+ toString_utf8 r2
                                  else String b0 (String b1 (String b2
                                         (String b3 (toString_utf8 r3))))
                              end
                          end
                    end
                end
          end
      end
  end.

(** The octets are one well-formed UTF-8 sequence. *)
Definition utf8_valid_seq (l : list ascii) : bool :=
  match l with
  | [] => false
  | b0 :: rest =>
      match utf8_classify (code b0), rest with
      | Lead1, [] => true
      | Lead more lo hi, b1 :: rest' =>
          Nat.eqb (S (length rest')) more && in_range lo hi b1
          && forallb isCont rest'
      | _, _ => false
      end
  end.

(** ** Percent-encoding *)

(** Number of bytes announced by the leading one bits of the first byte of
    an escaped sequence; [None] when [decodeURIComponent] rejects it. *)
Definition pctSeqLength (b : ascii) : option nat :=
  let n := code b in
  if (n <? 0x80)%N then Some 1
  else if (n <? 0xC0)%N then None
  else if (n <? 0xE0)%N then Some 2
  else if (n <? 0xF0)%N then Some 3
  else if (n <? 0xF8)%N then Some 4
  else None.

Definition hexByte (h l : ascii) : option ascii :=
  match hexDigit h, hexDigit l with
  | Some a, Some b => Some (ascii_of_N (16 * a + b))
  | _, _ => None
  end.

(** State of the decoding loop: between characters, or inside an escaped
    multi-byte sequence with [pending] bytes read and [missing] to come. *)
Inductive pctMode : Type :=
| PctPlain
| PctSeq (pending : list ascii) (missing : nat).

Fixpoint decodeURI_loop (mode : pctMode) (s : string) : outcome string :=
  match s with
  | EmptyString =>
      match mode with
      | PctPlain => Returns EmptyString
      | PctSeq _ _ => Throws URIError
      end
  | String c r =>
      match mode with
      | PctPlain =>
          if Ascii.eqb c "%"%char then
            match r with
            | String h (String l r') =>
                match hexByte h l with
                | None => Throws URIError
                | Some b =>
                    match pctSeqLength b with
                    | None => Throws URIError
                    | Some 1 =>
                        match decodeURI_loop PctPlain r' with
                        | Returns t => Returns (String b t)
                        | Throws e => Throws e
                        end
                    | Some n => decodeURI_loop (PctSeq [b] (Nat.pred n)) r'
                    end
                end
            | _ => Throws URIError
            end
          else
            match decodeURI_loop PctPlain r with
            | Returns t => Returns (String c t)
            | Throws e => Throws e
            end
      | PctSeq pending missing =>
          if Ascii.eqb c "%"%char then
            match r with
            | String h (String l r') =>
                match hexByte h l with
                | None => Throws URIError
                | Some b =>
                    let octets := (pending ++ [b])%list in
                    match missing with
                    | 1 =>
                        if utf8_valid_seq octets then
                          match decodeURI_loop PctPlain r' with
                          | Returns t =>
                              Returns (string_of_list_ascii octets +:+ t)
                          | Throws e => Throws e
                          end
                        else Throws URIError
                    | _ => decodeURI_loop (PctSeq octets (Nat.pred missing)) r'
                    end
                end
            | _ => Throws URIError
            end
          else Throws URIError
      end
  end.

(** [decodeURIComponent(s)] *)
Definition decodeURIComponent (s : string) : outcome string :=
  decodeURI_loop PctPlain s.

Definition hexChar (n : N) : ascii :=
  if (n <? 10)%N then ascii_of_N (48 + n) else ascii_of_N (55 + n).

Definition uriUnreserved (c : ascii) : bool :=
  in_range 65 90 c || in_range 97 122 c || in_range 48 57 c
  || includes "-_.!~*'()" (String c EmptyString).

(** [encodeURIComponent(s)] on the UTF-8 bytes of [s], for a text without
    a lone surrogate.  On a lone surrogate the built-in throws [URIError];
    that is outside this function, and a statement that depends on the
    built-in returning asks for a text that it takes. *)
Fixpoint encodeURIComponent (s : string) : string :=
  match s with
  | EmptyString => EmptyString
  | String c r =>
      if uriUnreserved c then String c (encodeURIComponent r)
      else String "%" (String (hexChar (code c / 16))
             (String (hexChar (code c mod 16)) (encodeURIComponent r)))
  end.

(** ** Base64 *)

(** Six bits, most significant first. *)
Record sextet : Type := Sextet { x5 : bool; x4 : bool; x3 : bool;
                                 x2 : bool; x1 : bool; x0 : bool }.

Definition sextetIndex (x : sextet) : N :=
  let w (b : bool) (n : N) : N := if b then n else 0%N in
  (w (x5 x) 32 + w (x4 x) 16 + w (x3 x) 8 + w (x2 x) 4 + w (x1 x) 2
   + w (x0 x) 1)%N.

Definition sextetOfIndex (n : N) : sextet :=
  Sextet (N.testbit n 5) (N.testbit n 4) (N.testbit n 3)
         (N.testbit n 2) (N.testbit n 1) (N.testbit n 0).

(** The character of a sextet in the standard alphabet. *)
Definition base64Char (x : sextet) : ascii :=
  let n := sextetIndex x in
  if (n <? 26)%N then ascii_of_N (65 + n)
  else if (n <? 52)%N then ascii_of_N (71 + n)
  else if (n <? 62)%N then ascii_of_N (n - 4)
  else if (n =? 62)%N then "+"%char
  else "/"%char.

(** The sextet of a character of the standard or of the URL-safe alphabet,
    both of which [Buffer.from(_, 'base64')] reads. *)
Definition base64Value (c : ascii) : option sextet :=
  if in_range 65 90 c then Some (sextetOfIndex (code c - 65))
  else if in_range 97 122 c then Some (sextetOfIndex (code c - 71))
  else if in_range 48 57 c then Some (sextetOfIndex (code c + 4))
  else if Ascii.eqb c "+"%char || Ascii.eqb c "-"%char
  then Some (sextetOfIndex 62)
  else if Ascii.eqb c "/"%char || Ascii.eqb c "_"%char
  then Some (sextetOfIndex 63)
  else None.

(** The four sextets of three bytes, and the groups cut short by the end of
    the data. *)
Definition sextets3 (a b c : ascii) : list sextet :=
  let '(Ascii a0 a1 a2 a3 a4 a5 a6 a7) := a in
  let '(Ascii b0 b1 b2 b3 b4 b5 b6 b7) := b in
  let '(Ascii c0 c1 c2 c3 c4 c5 c6 c7) := c in
  [Sextet a7 a6 a5 a4 a3 a2; Sextet a1 a0 b7 b6 b5 b4;
   Sextet b3 b2 b1 b0 c7 c6; Sextet c5 c4 c3 c2 c1 c0].

Definition sextets2 (a b : ascii) : list sextet :=
  let '(Ascii a0 a1 a2 a3 a4 a5 a6 a7) := a in
  let '(Ascii b0 b1 b2 b3 b4 b5 b6 b7) := b in
  [Sextet a7 a6 a5 a4 a3 a2; Sextet a1 a0 b7 b6 b5 b4;
   Sextet b3 b2 b1 b0 false false].

Definition sextets1 (a : ascii) : list sextet :=
  let '(Ascii a0 a1 a2 a3 a4 a5 a6 a7) := a in
  [Sextet a7 a6 a5 a4 a3 a2; Sextet a1 a0 false false false false].

(** The sextets that encode a byte string. *)
Fixpoint base64Sextets (s : string) : list sextet :=
  match s with
  | EmptyString => []
  | String a EmptyString => sextets1 a
  | String a (String b EmptyString) => sextets2 a b
  | String a (String b (String c r)) => sextets3 a b c ++ base64Sextets r
  end.

Definition base64Text (l : list sextet) : string :=
  string_of_list_ascii (map base64Char l).

(** Padding of an encoding of [n] sextets. *)
Definition base64Padding (n : nat) : string :=
  match n mod 4 with
  | 2 => "=="
  | 3 => "="
  | _ => EmptyString
  end.

(** [Buffer.from(s).toString('base64')]: the standard encoding, padded. *)
Definition base64_encode (s : string) : string :=
  let l := base64Sextets s in
  base64Text l +:+ base64Padding (length l).

(** The sextets read from a text: characters outside the alphabets are
    skipped and the first [=] ends the data. *)
Fixpoint readSextets (s : string) : list sextet :=
  match s with
  | EmptyString => []
  | String c r =>
      if Ascii.eqb c "="%char then []
      else match base64Value c with
           | Some x => x :: readSextets r
           | None => readSextets r
           end
  end.

Definition byteA (p q : sextet) : ascii :=
  Ascii (x4 q) (x5 q) (x0 p) (x1 p) (x2 p) (x3 p) (x4 p) (x5 p).
Definition byteB (q r : sextet) : ascii :=
  Ascii (x2 r) (x3 r) (x4 r) (x5 r) (x0 q) (x1 q) (x2 q) (x3 q).
Definition byteC (r t : sextet) : ascii :=
  Ascii (x0 t) (x1 t) (x2 t) (x3 t) (x4 t) (x5 t) (x0 r) (x1 r).

Fixpoint sextetsToBytes (l : list sextet) : string :=
  match l with
  | p :: q :: r :: t :: rest =>
      String (byteA p q) (String (byteB q r) (String (byteC r t)
        (sextetsToBytes rest)))
  | [p; q; r] => String (byteA p q) (String (byteB q r) EmptyString)
  | [p; q] => String (byteA p q) EmptyString
  | _ => EmptyString
  end.

(** [Buffer.from(s, 'base64')], as bytes. *)
Definition Buffer_from_base64 (s : string) : string :=
  sextetsToBytes (readSextets s).

(** ** JSON *)

(** A number is kept as the literal that denotes it; the double it rounds
    to is outside the model.  The members of an object are kept in the order
    of the text. *)
Inductive json : Type :=
| JNull
| JBool (b : bool)
| JNum (literal : string)
| JStr (s : string)
| JArr (elems : list json)
| JObj (members : list (string * json)).

Definition emptyObject : json := JObj [].

(** Defining a property: an existing key keeps its place and takes the new
    value. *)
Fixpoint setMember (l : list (string * json)) (k : string) (v : json)
  : list (string * json) :=
  match l with
  | [] => [(k, v)]
  | (k', v') :: r =>
      if String.eqb k' k then (k, v) :: r else (k', v') :: setMember r k v
  end.

Fixpoint getMember (l : list (string * json)) (k : string) : option json :=
  match l with
  | [] => None
  | (k', v) :: r => if String.eqb k' k then Some v else getMember r k
  end.

(** *** Lexer *)

Inductive token : Type :=
| TLBrace | TRBrace | TLBracket | TRBracket | TColon | TComma
| TScalar (v : json).

(** The pieces of a string literal: a byte of the text, or the code unit of
    a [\uXXXX] escape. *)
Inductive strItem : Type :=
| Raw (c : ascii)
| Unit (u : N).

Definition utf8_encode (cp : N) : string :=
  if (cp <? 0x80)%N then String (ascii_of_N cp) EmptyString
  else if (cp <? 0x800)%N then
    String (ascii_of_N (0xC0 + cp / 64))
      (String (ascii_of_N (0x80 + cp mod 64)) EmptyString)
  else if (cp <? 0x10000)%N then
    String (ascii_of_N (0xE0 + cp / 4096))
      (String (ascii_of_N (0x80 + (cp / 64) mod 64))
        (String (ascii_of_N (0x80 + cp mod 64)) EmptyString))
  else
    String (ascii_of_N (0xF0 + cp / 262144))
      (String (ascii_of_N (0x80 + (cp / 4096) mod 64))
        (String (ascii_of_N (0x80 + (cp / 64) mod 64))
          (String (ascii_of_N (0x80 + cp mod 64)) EmptyString))).

Definition isHighSurrogate (u : N) : bool := (0xD800 <=? u)%N && (u <=? 0xDBFF)%N.
Definition isLowSurrogate (u : N) : bool := (0xDC00 <=? u)%N && (u <=? 0xDFFF)%N.

(** The bytes of a string literal.  A surrogate pair of escapes is one
    character; a lone surrogate is written with the three-byte pattern. *)
Fixpoint itemsToString (l : list strItem) : string :=
  match l with
  | [] => EmptyString
  | Raw c :: r => String c (itemsToString r)
  | Unit u :: r =>
      match r with
      | Unit v :: r' =>
          if isHighSurrogate u && isLowSurrogate v
          then utf8_encode (0x10000 + (u - 0xD800) * 1024 + (v - 0xDC00))
               +:+ itemsToString r'
          else utf8_encode u +:+ itemsToString r
      | _ => utf8_encode u +:+ itemsToString r
      end
  end.

Inductive numState : Type :=
| NSign | NZero | NInt | NDot | NFrac | NExp | NExpSign | NExpDigits.

Definition isDigit (c : ascii) : bool := in_range 48 57 c.
Definition isExpMark (c : ascii) : bool :=
  Ascii.eqb c "e"%char || Ascii.eqb c "E"%char.

Definition numStart (c : ascii) : option numState :=
  if Ascii.eqb c "-"%char then Some NSign
  else if Ascii.eqb c "0"%char then Some NZero
  else if isDigit c then Some NInt
  else None.

Definition numNext (st : numState) (c : ascii) : option numState :=
  match st with
  | NSign => if Ascii.eqb c "0"%char then Some NZero
             else if isDigit c then Some NInt else None
  | NZero => if Ascii.eqb c "."%char then Some NDot
             else if isExpMark c then Some NExp else None
  | NInt => if isDigit c then Some NInt
            else if Ascii.eqb c "."%char then Some NDot
            else if isExpMark c then Some NExp else None
  | NDot => if isDigit c then Some NFrac else None
  | NFrac => if isDigit c then Some NFrac
             else if isExpMark c then Some NExp else None
  | NExp => if isDigit c then Some NExpDigits
            else if Ascii.eqb c "+"%char || Ascii.eqb c "-"%char
            then Some NExpSign else None
  | NExpSign => if isDigit c then Some NExpDigits else None
  | NExpDigits => if isDigit c then Some NExpDigits else None
  end.

Definition numAccepting (st : numState) : bool :=
  match st with
  | NZero | NInt | NFrac | NExpDigits => true
  | _ => false
  end.

Definition isNumChar (c : ascii) : bool :=
  isDigit c || isExpMark c || Ascii.eqb c "."%char
  || Ascii.eqb c "+"%char || Ascii.eqb c "-"%char.

(** Does the text go on with a character of a number? *)
Definition numContinues (r : string) : bool :=
  match r with
  | EmptyString => false
  | String c _ => isNumChar c
  end.

Inductive numDecision : Type := NumMore | NumEmit | NumFail.

Definition numDecide (st : numState) (r : string) : numDecision :=
  if numContinues r then NumMore
  else if numAccepting st then NumEmit else NumFail.

Definition isJsonSpace (c : ascii) : bool :=
  Ascii.eqb c " "%char || Ascii.eqb c "009"%char
  || Ascii.eqb c "010"%char || Ascii.eqb c "013"%char.

Definition punctuation (c : ascii) : option token :=
  if Ascii.eqb c "{"%char then Some TLBrace
  else if Ascii.eqb c "}"%char then Some TRBrace
  else if Ascii.eqb c "["%char then Some TLBracket
  else if Ascii.eqb c "]"%char then Some TRBracket
  else if Ascii.eqb c ":"%char then Some TColon
  else if Ascii.eqb c ","%char then Some TComma
  else None.

(** The character a one-letter escape stands for. *)
Definition escapeChar (c : ascii) : option ascii :=
  if Ascii.eqb c "034"%char then Some "034"%char
  else if Ascii.eqb c "\"%char then Some "\"%char
  else if Ascii.eqb c "/"%char then Some "/"%char
  else if Ascii.eqb c "b"%char then Some "008"%char
  else if Ascii.eqb c "f"%char then Some "012"%char
  else if Ascii.eqb c "n"%char then Some "010"%char
  else if Ascii.eqb c "r"%char then Some "013"%char
  else if Ascii.eqb c "t"%char then Some "009"%char
  else None.

Inductive lexMode : Type :=
| LexNormal
| LexNum (literal : string) (st : numState)
| LexStr (items : list strItem)
| LexEsc (items : list strItem)
| LexHex (items : list strItem) (digits : list N).

Definition snoc (s : string) (c : ascii) : string :=
  s +:+ String c EmptyString.

Fixpoint lex (mode : lexMode) (s : string) : option (list token) :=
  match s with
  | EmptyString =>
      match mode with
      | LexNormal => Some []
      | _ => None
      end
  | String c r =>
      match mode with
      | LexNormal =>
          if isJsonSpace c then lex LexNormal r
          else
            match punctuation c with
            | Some t => cons t <$> lex LexNormal r
            | None =>
                if Ascii.eqb c "034"%char then lex (LexStr []) r
                else
                  match numStart c with
                  | Some st =>
                      match numDecide st r with
                      | NumMore => lex (LexNum (String c EmptyString) st) r
                      | NumEmit =>
                          cons (TScalar (JNum (String c EmptyString)))
                            <$> lex LexNormal r
                      | NumFail => None
                      end
                  | None =>
                      match s with
                      | String "t" (String "r" (String "u" (String "e" r'))) =>
                          cons (TScalar (JBool true)) <$> lex LexNormal r'
                      | String "f" (String "a" (String "l" (String "s"
                          (String "e" r')))) =>
                          cons (TScalar (JBool false)) <$> lex LexNormal r'
                      | String "n" (String "u" (String "l" (String "l" r'))) =>
                          cons (TScalar JNull) <$> lex LexNormal r'
                      | _ => None
                      end
                  end
            end
      | LexNum literal st =>
          match numNext st c with
          | None => None
          | Some st' =>
              match numDecide st' r with
              | NumMore => lex (LexNum (snoc literal c) st') r
              | NumEmit =>
                  cons (TScalar (JNum (snoc literal c))) <$> lex LexNormal r
              | NumFail => None
              end
          end
      | LexStr items =>
          if Ascii.eqb c "034"%char
          then cons (TScalar (JStr (itemsToString items))) <$> lex LexNormal r
          else if Ascii.eqb c "\"%char then lex (LexEsc items) r
          else if (code c <? 0x20)%N then None
          else lex (LexStr (items ++ [Raw c])%list) r
      | LexEsc items =>
          match escapeChar c with
          | Some x => lex (LexStr (items ++ [Raw x])%list) r
          | None =>
              if Ascii.eqb c "u"%char then lex (LexHex items []) r else None
          end
      | LexHex items digits =>
          match hexDigit c with
          | None => None
          | Some d =>
              match digits with
              | [d1; d2; d3] =>
                  lex (LexStr (items ++
                         [Unit (((d1 * 16 + d2) * 16 + d3) * 16 + d)%N])%list) r
              | _ => lex (LexHex items (digits ++ [d])%list) r
              end
          end
      end
  end.

(** *** Parser: a pushdown automaton over the tokens *)

(** An enclosing container whose next value is awaited. *)
Inductive frame : Type :=
| FArr (elems : list json)
| FObj (members : list (string * json)) (key : string).

Inductive pstate : Type :=
| ExpValue (stk : list frame)
| ExpValueOrClose (stk : list frame)
| ExpKeyOrClose (stk : list frame)
| ExpKey (members : list (string * json)) (stk : list frame)
| ExpColon (members : list (string * json)) (key : string) (stk : list frame)
| AfterElem (elems : list json) (stk : list frame)
| AfterMember (members : list (string * json)) (stk : list frame)
| Done (v : json).

(** A value is complete: it goes into the innermost container. *)
Definition pushValue (v : json) (stk : list frame) : pstate :=
  match stk with
  | [] => Done v
  | FArr elems :: stk' => AfterElem (elems ++ [v])%list stk'
  | FObj members key :: stk' => AfterMember (setMember members key v) stk'
  end.

Definition startValue (t : token) (stk : list frame) : option pstate :=
  match t with
  | TScalar v => Some (pushValue v stk)
  | TLBracket => Some (ExpValueOrClose stk)
  | TLBrace => Some (ExpKeyOrClose stk)
  | _ => None
  end.

Definition startKey (t : token) (members : list (string * json))
    (stk : list frame) : option pstate :=
  match t with
  | TScalar (JStr k) => Some (ExpColon members k stk)
  | _ => None
  end.

Definition step (st : pstate) (t : token) : option pstate :=
  match st with
  | ExpValue stk => startValue t stk
  | ExpValueOrClose stk =>
      match t with
      | TRBracket => Some (pushValue (JArr []) stk)
      | _ => startValue t (FArr [] :: stk)
      end
  | ExpKeyOrClose stk =>
      match t with
      | TRBrace => Some (pushValue (JObj []) stk)
      | _ => startKey t [] stk
      end
  | ExpKey members stk => startKey t members stk
  | ExpColon members key stk =>
      match t with
      | TColon => Some (ExpValue (FObj members key :: stk))
      | _ => None
      end
  | AfterElem elems stk =>
      match t with
      | TComma => Some (ExpValue (FArr elems :: stk))
      | TRBracket => Some (pushValue (JArr elems) stk)
      | _ => None
      end
  | AfterMember members stk =>
      match t with
      | TComma => Some (ExpKey members stk)
      | TRBrace => Some (pushValue (JObj members) stk)
      | _ => None
      end
  | Done _ => None
  end.

Fixpoint run (st : pstate) (toks : list token) : option json :=
  match toks with
  | [] =>
      match st with
      | Done v => Some v
      | _ => None
      end
  | t :: rest =>
      match step st t with
      | Some st' => run st' rest
      | None => None
      end
  end.

(** [JSON.parse(s)] *)
Definition JSON_parse (s : string) : outcome json :=
  match lex LexNormal s with
  | None => Throws SyntaxError
  | Some toks =>
      match run (ExpValue []) toks with
      | Some v => Returns v
      | None => Throws SyntaxError
      end
  end.

(** *** Printer *)

Definition hexLower (n : N) : ascii :=
  if (n <? 10)%N then ascii_of_N (48 + n) else ascii_of_N (87 + n).

Definition quoteChar (c : ascii) : string :=
  if Ascii.eqb c "034"%char then String "\" (String "034" EmptyString)
  else if Ascii.eqb c "\"%char then "\\"
  else if Ascii.eqb c "008"%char then "\b"
  else if Ascii.eqb c "012"%char then "\f"
  else if Ascii.eqb c "010"%char then "\n"
  else if Ascii.eqb c "013"%char then "\r"
  else if Ascii.eqb c "009"%char then "\t"
  else if (code c <? 0x20)%N then
    "\u00" +:+ String (hexLower (code c / 16))
                 (String (hexLower (code c mod 16)) EmptyString)
  else String c EmptyString.

Fixpoint quoteBody (s : string) : string :=
  match s with
  | EmptyString => EmptyString
  | String c r => quoteChar c +:+ quoteBody r
  end.

Definition quote (s : string) : string :=
  String "034" (quoteBody s +:+ String "034" EmptyString).

Definition joinComma (l : list string) : string := String.concat "," l.

(** [JSON.stringify(v)] without indentation. *)
Fixpoint JSON_stringify (v : json) : string :=
  match v with
  | JNull => "null"
  | JBool true => "true"
  | JBool false => "false"
  | JNum literal => literal
  | JStr s => quote s
  | JArr elems => "[" +:+ joinComma (map JSON_stringify elems) +:+ "]"
  | JObj members =>
      "{" +:+ joinComma (map (fun kv => quote (fst kv) +:+ ":"
                                          +:+ JSON_stringify (snd kv)) members)
      +:+ "}"
  end.

(** *** Values at run time *)

(** The mantissa of a number literal is zero. *)
Fixpoint zeroLiteral (s : string) : bool :=
  match s with
  | EmptyString => true
  | String c r =>
      if isExpMark c then true
      else if isDigit c then Ascii.eqb c "0"%char && zeroLiteral r
      else zeroLiteral r
  end.

(** Truthiness of a value; [None] is [undefined].  A number is falsy when
    its literal denotes zero; a literal too small for a double, which rounds
    to zero, is outside the model. *)
Definition jsTruthy (v : option json) : bool :=
  match v with
  | None | Some JNull | Some (JBool false) | Some (JStr EmptyString) => false
  | Some (JNum literal) => negb (zeroLiteral literal)
  | Some _ => true
  end.

(** [v.k] for a value that is neither [null] nor [undefined]: only objects
    made by [JSON.parse] have the properties read here. *)
Definition getProperty (v : json) (k : string) : option json :=
  match v with
  | JObj members => getMember members k
  | _ => None
  end.

(** ** Sequencing of computations that may throw *)

Definition bind {A B} (m : outcome A) (k : A -> outcome B) : outcome B :=
  match m with
  | Returns a => k a
  | Throws e => Throws e
  end.

End JS.

Notation "'let*' x ':=' m 'in' k" := (JS.bind m (fun x => k))
  (at level 10, x name, m at level 100, k at level 200).

(* ================================================================== *)
(** * The stream providers, as the handlers see them *)
(* ================================================================== *)

Module Providers.
Import JS.

Record BehaviorHints : Type :=
  { notWebReady : bool; referer : option string }.

Record Stream : Type :=
  { name : option string;
    title : option string;
    url : option string;
    behaviorHints : option BehaviorHints }.

Definition withName (label : string) (s : Stream) : Stream :=
  {| name := Some label; title := title s; url := url s;
     behaviorHints := behaviorHints s |}.

(** What [getStreamContent] of ./extractor yields. *)
Record VixCloudStreamInfo : Type :=
  { vixName : option string;
    streamUrl : option string;
    vixReferer : option string }.

Record ExtractorConfig : Type :=
  { tmdbApiKey : option string;
    mfpUrl : option string;
    mfpPsw : option string;
    bothLink : bool }.

(** The configuration handed to an anime provider; the two proxy fields are
    set for AnimeSaturn in the cache revision only. *)
Record AnimeConfig : Type :=
  { enabled : bool;
    animeMfpUrl : string;
    animeMfpPassword : string;
    mfpProxyUrl : option string;
    mfpProxyPassword : option string;
    animeBothLink : bool;
    animeTmdbApiKey : string }.

(** The object an anime provider answers with, when it answers with one. *)
Record ProviderResult : Type := { streams : option (list Stream) }.

Inductive provider : Type := AnimeUnity | AnimeSaturn.

Inductive request : Type :=
| KitsuRequest (id : string)
| MalRequest (id : string)
| ImdbRequest (id : string) (season episode : option jsnum) (isMovie : bool)
| TmdbRequest (id : string) (season episode : option jsnum) (isMovie : bool).

(** The calls that leave the handler. *)
Inductive call : Type :=
| VixSrcCall (id type : string)
| AnimeCall (p : provider) (r : request)
| VavooCall (channelName : string).

(** The collaborators: what each call answers, or that it throws.  For an
    anime provider the answer covers the import of its module, the
    construction of the provider and the request, which the handlers put
    in one [try]. *)
Record World : Type :=
  { env : gmap string string;
    getStreamContent :
      string -> string -> ExtractorConfig ->
      outcome (option (list VixCloudStreamInfo));
    animeRequest :
      provider -> AnimeConfig -> request -> outcome (option ProviderResult);
    vavooResolver : string -> outcome (option string) }.

(** Computations of a handler: they may throw and they record the calls
    made. *)
Definition M (A : Type) : Type := list call -> outcome A * list call.

Definition ret {A} (a : A) : M A := fun log => (Returns a, log).

Definition lift {A} (o : outcome A) : M A := fun log => (o, log).

Definition bindM {A B} (m : M A) (k : A -> M B) : M B :=
  fun log =>
    match m log with
    | (Returns a, log') => k a log'
    | (Throws e, log') => (Throws e, log')
    end.

Notation "'let!' x ':=' m 'in' k" := (bindM m (fun x => k))
  (at level 10, x name, m at level 100, k at level 200).

(** [await c], the call being recorded. *)
Definition invoke {A} (c : call) (answer : outcome A) : M A :=
  fun log => (answer, (log ++ [c])%list).

(** [try { m } catch (error) { h }] *)
Definition tryM {A} (m : M A) (h : exn -> M A) : M A :=
  fun log =>
    match m log with
    | (Returns a, log') => (Returns a, log')
    | (Throws e, log') => h e log'
    end.

(** A request as its caller sees it: what the promise settles to, and the
    calls that were made. *)
Definition handle {A} (m : M A) : outcome A * list call := m [].

(** [process.env.K?.toLowerCase() === 'true'] *)
Definition envFlag (w : World) (k : string) : bool :=
  match env w !! k with
  | Some v => String.eqb (toLowerCase v) "true"
  | None => false
  end.

(** [config.k === 'on'] *)
Definition isOn (config : gmap string string) (k : string) : bool :=
  match config !! k with
  | Some v => String.eqb v "on"
  | None => false
  end.

(** [config.k || process.env.K || ''] *)
Definition configOrEnvOrEmpty (w : World) (config : gmap string string)
    (k envKey : string) : string :=
  or_empty (or_else (config !! k) (env w !! envKey)).

(** [config.k || process.env.K] *)
Definition configOrEnv (w : World) (config : gmap string string)
    (k envKey : string) : option string :=
  or_else (config !! k) (env w !! envKey).

(** The loop over the answer of VixSrc: entries without a stream URL are
    skipped. *)
Definition vixStream (st : VixCloudStreamInfo) : list Stream :=
  match streamUrl st with
  | None => []
  | Some u =>
      [{| name := Some "StreamViX Vx"; title := vixName st; url := Some u;
          behaviorHints := Some {| notWebReady := true;
                                   referer := vixReferer st |} |}]
  end.

Definition vixStreamsOf (res : option (list VixCloudStreamInfo))
  : list Stream :=
  match res with
  | None => []
  | Some l => concat (map vixStream l)
  end.

(** [result && result.streams], each stream renamed. *)
Definition taggedStreams (label : string) (result : option ProviderResult)
  : list Stream :=
  match result with
  | Some {| streams := Some l |} => map (withName label) l
  | _ => []
  end.

Definition labelOf (p : provider) : string :=
  match p with
  | AnimeUnity => "StreamViX AU"
  | AnimeSaturn => "StreamViX AS"
  end.

(** The statements that read season and episode off an IMDB or TMDB id
    (the same in both revisions): [(seasonNumber, episodeNumber, isMovie)]. *)
Definition parseSeasonEpisode (id : string)
  : option jsnum * option jsnum * bool :=
  let parts := split ":" id in
  if Nat.eqb (length parts) 1 then (None, None, true)
  else if Nat.eqb (length parts) 2
  then (None, Some (parseInt (default EmptyString (parts !! 1))), false)
  else if Nat.eqb (length parts) 3
  then (Some (parseInt (default EmptyString (parts !! 1))),
        Some (parseInt (default EmptyString (parts !! 2))), false)
  else (None, None, false).

(** One provider asked inside its own [try]: its streams are appended, and
    when anything throws the error is logged and the list stays as it was. *)
Definition askProvider (w : World) (p : provider) (cfg : AnimeConfig)
    (r : option request) (allStreams : list Stream) : M (list Stream) :=
  tryM
    (match r with
     | Some r =>
         let! result := invoke (AnimeCall p r) (animeRequest w p cfg r) in
         ret (allStreams ++ taggedStreams (labelOf p) result)%list
     | None => ret allStreams
     end)
    (fun _ => ret allStreams).

(** An entry of config/tv_channels.json. *)
Record Channel : Type :=
  { channelId : string;
    channelName : option string;
    staticUrl : option string;
    staticUrl2 : option string;
    staticUrlD : option string }.

(** [tvChannels.find(c => c.id === cleanId)] *)
Definition findChannel (tvChannels : list Channel) (cleanId : string)
  : option Channel :=
  List.find (fun c => String.eqb (channelId c) cleanId) tvChannels.

End Providers.



(* ================================================================== *)
(** * The revision with the Vavoo link cache *)
(* ================================================================== *)

Module VavooRev.
Import JS Providers.

(** ** parseConfigFromArgs *)

(** [/^[A-Za-z0-9+\/=]+$/.test(s)] *)
Definition isBase64Char (c : ascii) : bool :=
  in_range 65 90 c || in_range 97 122 c || in_range 48 57 c
  || Ascii.eqb c "+"%char || Ascii.eqb c "/"%char || Ascii.eqb c "="%char.

Fixpoint allBase64Chars (s : string) : bool :=
  match s with
  | EmptyString => true
  | String c r => isBase64Char c && allBase64Chars r
  end.

Definition looksBase64 (s : string) : bool :=
  nonEmpty s && allBase64Chars s.

(** [s.replace(/%3D/g, '=')] *)
Fixpoint replacePct3D (s : string) : string :=
  match s with
  | EmptyString => EmptyString
  | String "%" (String "3" (String "D" r)) => String "=" (replacePct3D r)
  | String c r => String c (replacePct3D r)
  end.

Fixpoint allEqualSigns (s : string) : bool :=
  match s with
  | EmptyString => true
  | String c r => Ascii.eqb c "="%char && allEqualSigns r
  end.

(** [s.replace(/=+$/, '')] *)
Fixpoint stripTrailingEq (s : string) : string :=
  match s with
  | EmptyString => EmptyString
  | String c r =>
      if allEqualSigns s then EmptyString else String c (stripTrailingEq r)
  end.

(** [while (padded.length % 4 !== 0) padded += '='], for at most [fuel]
    rounds; three are enough ([padBase64_length]). *)
Fixpoint padLoop (fuel : nat) (padded : string) : string :=
  match fuel with
  | O => padded
  | S fuel' =>
      if Nat.eqb (String.length padded mod 4) 0 then padded
      else padLoop fuel' (padded +:+ "=")
  end.

Definition padBase64 (base64Fixed : string) : string :=
  padLoop 3 base64Fixed.

Definition isLineBreak (c : ascii) : bool :=
  Ascii.eqb c "010"%char || Ascii.eqb c "013"%char.

(** The text up to the first line terminator (LF, CR, U+2028, U+2029),
    which [.] does not match. *)
Fixpoint lineOf (s : string) : string :=
  match s with
  | EmptyString => EmptyString
  | String c r =>
      if isLineBreak c then EmptyString
      else match s with
           | String "226" (String "128" (String x _)) =>
               if in_range 168 169 x then EmptyString
               else String c (lineOf r)
           | _ => String c (lineOf r)
           end
  end.

(** The longest prefix that ends with a closing brace. *)
Fixpoint upToLastBrace (s : string) : option string :=
  match s with
  | EmptyString => None
  | String c r =>
      match upToLastBrace r with
      | Some t => Some (String c t)
      | None => if Ascii.eqb c "}"%char then Some (String c EmptyString)
                else None
      end
  end.

(** The group of [decoded.match(/({.*})/)]: from the first opening brace
    that has a closing brace on its line, to the last such brace. *)
Fixpoint matchBraces (s : string) : option string :=
  match s with
  | EmptyString => None
  | String c r =>
      if Ascii.eqb c "{"%char then
        match upToLastBrace (lineOf r) with
        | Some t => Some (String c t)
        | None => matchBraces r
        end
      else matchBraces r
  end.

(** STEP 1: direct JSON. *)
Definition directJson (args : string) : option json :=
  match JSON_parse args with
  | Returns parsed => Some parsed
  | Throws _ => None
  end.

(** STEP 2: URL-encoded text.  The result is the value returned, if any, and
    [decodedArgs] as the step leaves it. *)
Definition urlDecodedJson (args : string) : option json * string :=
  if includes args "%" then
    match decodeURIComponent args with
    | Returns decodedArgs =>
        match JSON_parse decodedArgs with
        | Returns parsed => (Some parsed, decodedArgs)
        | Throws _ => (None, decodedArgs)
        end
    | Throws _ => (None, args)
    end
  else (None, args).

(** The text that STEP 3 decodes from [decodedArgs]. *)
Definition base64Decoded (decodedArgs : string) : string :=
  let base64Fixed := stripTrailingEq (replacePct3D decodedArgs) in
  let paddedBase64 := padBase64 base64Fixed in
  toString_utf8 (Buffer_from_base64 paddedBase64).

(** STEP 3: Base64, inside its own [try]. *)
Definition base64Json (decodedArgs : string) : outcome (option json) :=
  if startsWith decodedArgs "eyJ" || looksBase64 decodedArgs then
    try_catch
      (let decoded := base64Decoded decodedArgs in
       if includes decoded "{" && includes decoded "}" then
         try_catch
           (let* parsed := JSON_parse decoded in Returns (Some parsed))
           (fun _ =>
              match matchBraces decoded with
              | Some extractedJson =>
                  try_catch
                    (let* parsed := JSON_parse extractedJson in
                     Returns (Some parsed))
                    (fun _ => Returns None)
              | None => Returns None
              end)
       else Returns None)
      (fun _ => Returns None)
  else Returns None.

(** The block for [typeof args === 'string']: the three steps in turn,
    the empty [config] when none returns. *)
Definition parseConfigString (args : string) : outcome json :=
  match directJson args with
  | Some parsed => Returns parsed
  | None =>
      match urlDecodedJson args with
      | (Some parsed, _) => Returns parsed
      | (None, decodedArgs) =>
          let* found := base64Json decodedArgs in
          match found with
          | Some parsed => Returns parsed
          | None => Returns emptyObject
          end
      end
  end.

(** [args === s] *)
Definition isString (args : option json) (s : string) : bool :=
  match args with
  | Some (JStr a) => String.eqb a s
  | _ => false
  end.

(** [parseConfigFromArgs(args)]; [None] is [undefined].  The calls of
    [debugLog] are left out: it catches what its file write throws. *)
Definition parseConfigFromArgs (args : option json) : outcome json :=
  let config := emptyObject in
  if negb (jsTruthy args) || isString args EmptyString
     || isString args "undefined" || isString args "null"
  then Returns config
  else
    match args with
    | Some (JObj members) => Returns (JObj members)
    | Some (JArr elems) => Returns (JArr elems)
    | Some (JStr args) => parseConfigString args
    | _ => Returns config
    end.

(** ** The Vavoo link cache *)

(** A [Map] in insertion order.  Keys are whatever [ch.name] was. *)
Definition sameKey (a b : json) : bool :=
  match a, b with
  | JStr x, JStr y => String.eqb x y
  | JNum x, JNum y => String.eqb x y
  | JBool x, JBool y => Bool.eqb x y
  | JNull, JNull => true
  | _, _ => false
  end.

(** [m.set(k, v)].  An object or an array is a key of its own: every parse
    makes new ones. *)
Fixpoint mapSet (m : list (json * json)) (k v : json) : list (json * json) :=
  match m with
  | [] => [(k, v)]
  | (k', v') :: r =>
      if sameKey k' k then (k', v) :: r else (k', v') :: mapSet r k v
  end.

Fixpoint mapGet (m : list (json * json)) (k : json) : option json :=
  match m with
  | [] => None
  | (k', v) :: r => if sameKey k' k then Some v else mapGet r k
  end.

Record VavooCache : Type :=
  { timestamp : Z;
    links : list (json * json);
    updating : bool }.

Definition setUpdating (b : bool) (c : VavooCache) : VavooCache :=
  {| timestamp := timestamp c; links := links c; updating := b |}.

Definition setLinks (l : list (json * json)) (c : VavooCache) : VavooCache :=
  {| timestamp := timestamp c; links := l; updating := updating c |}.

(** The body of the loop over the channels. *)
Definition addChannel (updatedLinks : list (json * json)) (ch : json)
  : outcome (list (json * json)) :=
  match ch with
  | JNull => Throws TypeError
  | _ =>
      if jsTruthy (getProperty ch "name") && jsTruthy (getProperty ch "url")
      then
        match getProperty ch "name", getProperty ch "url" with
        | Some name, Some url => Returns (mapSet updatedLinks name url)
        | _, _ => Returns updatedLinks
        end
      else Returns updatedLinks
  end.

Fixpoint forEachChannel (chs : list json) (updatedLinks : list (json * json))
  : outcome (list (json * json)) :=
  match chs with
  | [] => Returns updatedLinks
  | ch :: r =>
      let* updatedLinks' := addChannel updatedLinks ch in
      forEachChannel r updatedLinks'
  end.

(** What [for (const ch of channels)] goes through, once [channels.length]
    has been read: [null] has no length, an array gives its elements, a
    string its characters (here byte by byte; none has a name), and nothing
    else made by [JSON.parse] can be iterated. *)
Definition channelsOf (channels : json) : outcome (list json) :=
  match channels with
  | JArr elems => Returns elems
  | JStr s =>
      Returns (map (fun c => JStr (String c EmptyString))
                 (list_ascii_of_string s))
  | _ => Throws TypeError
  end.

(** The inner [try] up to the assignment of the new map. *)
Definition parseChannels (stdout : string) : outcome (list (json * json)) :=
  let* channels := JSON_parse stdout in
  let* elems := channelsOf channels in
  forEachChannel elems [].

(** [updateVavooCache] up to its [await]: [None] when an update is running
    and the call returns [false] at once, otherwise the cache with the flag
    set, the resolver process being started. *)
Definition updateVavooCache_enter (c : VavooCache) : option VavooCache :=
  if updating c then None else Some (setUpdating true c).

(** [updateVavooCache] from its [await] on: [result] is what
    [execFilePromise] settled to (its [stdout], or a rejection on error,
    time-out or exit code) and [now] what [Date.now()] reads.
    [saveVavooCache] writes the file and catches what the writing throws; it
    leaves [vavooCache] as it is. *)
Definition updateVavooCache_resume (result : outcome string) (now : Z)
    (c : VavooCache) : bool * VavooCache :=
  let '(answer, c') :=
    match result with
    | Throws _ => (false, c)
    | Returns stdout =>
        if nonEmpty stdout then
          match parseChannels stdout with
          | Returns updatedLinks =>
              (true, {| timestamp := now; links := updatedLinks;
                        updating := updating c |})
          | Throws _ => (false, c)
          end
        else (false, c)
    end in
  (answer, setUpdating false c').

(** A call of [updateVavooCache] with nothing running in between. *)
Definition updateVavooCache (result : outcome string) (now : Z)
    (c : VavooCache) : bool * VavooCache :=
  match updateVavooCache_enter c with
  | None => (false, c)
  | Some c' => updateVavooCache_resume result now c'
  end.

(** *** The cache among concurrent requests *)

(** The cache, the updates suspended at their [await], the number of bulk
    dumps started so far and the single look-ups under way. *)
Record System : Type :=
  { cache : VavooCache;
    refreshing : nat;
    dumps : nat;
    lookups : list string }.

Definition withCache (c : VavooCache) (s : System) : System :=
  {| cache := c; refreshing := refreshing s; dumps := dumps s;
     lookups := lookups s |}.

(** A call of [updateVavooCache], run to its first [await]: the value
    returned at once, if any, and the system it leaves. *)
Definition callUpdate (s : System) : option bool * System :=
  match updateVavooCache_enter (cache s) with
  | None => (Some false, s)
  | Some c =>
      (None, {| cache := c; refreshing := S (refreshing s);
                dumps := S (dumps s); lookups := lookups s |})
  end.

Definition CACHE_MAX_AGE : Z := 12 * 60 * 60 * 1000.

(** [cachedUrl] for the entry found. *)
Definition cachedUrlOf (cachedUrlRaw : json) : option json :=
  match cachedUrlRaw with
  | JArr elems =>
      match elems with
      | first :: _ => if jsTruthy (Some first) then Some first else None
      | [] => None
      end
  | JStr u => Some (JStr u)
  | _ => None
  end.

(** What [resolveVavooChannelByName] resolves to before any [await], that
    its promise rejects, or that it waits for the resolver. *)
Inductive resolution : Type :=
| Resolved (cachedUrl : option json)
| Rejects (e : exn)
| Waiting.

(** The entry found is logged and resolved: the log line reads
    [cachedUrl.substring(0, 50)] when [cachedUrl] is truthy, so a first
    element of an array that is truthy and no string throws inside the
    executor of the promise, which rejects. *)
Definition settleCached (cachedUrl : option json) : resolution :=
  match cachedUrl with
  | None => Resolved None
  | Some (JStr u) => Resolved (Some (JStr u))
  | Some _ => Rejects TypeError
  end.

Definition resolveVavooChannelByName (channelName : string) (now : Z)
    (s : System) : resolution * System :=
  let cacheAge := (now - timestamp (cache s))%Z in
  let s1 :=
    if (CACHE_MAX_AGE <? cacheAge)%Z || Nat.eqb (length (links (cache s))) 0
    then snd (callUpdate s) else s in
  match (if nonEmpty channelName
         then mapGet (links (cache s1)) (JStr channelName) else None) with
  | Some cachedUrlRaw => (settleCached (cachedUrlOf cachedUrlRaw), s1)
  | None =>
      if (0 <? timestamp (cache s1))%Z then
        (Resolved None,
         if negb (updating (cache s1)) then snd (callUpdate s1) else s1)
      else
        (Waiting, {| cache := cache s1; refreshing := refreshing s1;
                     dumps := dumps s1;
                     lookups := channelName :: lookups s1 |})
  end.

(** [s.trim()] *)
Fixpoint trimEnd (s : string) : string :=
  match s with
  | EmptyString => EmptyString
  | String c r =>
      match trimStart s with
      | EmptyString => EmptyString
      | _ => String c (trimEnd r)
      end
  end.

Definition trim (s : string) : string := trimEnd (trimStart s).

(** The callback of the single look-up: [result] is [stdout], or the error
    the process ended with. *)
Definition lookupCallback (channelName : string) (result : outcome string)
    (c : VavooCache) : option string * VavooCache :=
  match result with
  | Throws _ => (None, c)
  | Returns stdout =>
      match trim stdout with
      | EmptyString => (None, c)
      | found =>
          (Some found,
           setLinks (mapSet (links c) (JStr channelName) (JStr found)) c)
      end
  end.

Fixpoint removeFirst (x : string) (l : list string) : list string :=
  match l with
  | [] => []
  | y :: r => if String.eqb y x then r else y :: removeFirst x r
  end.

(** What can happen next: a timer or a request calls [updateVavooCache];
    the dump of the update under way settles; a request resolves a channel;
    a look-up under way settles. *)
Inductive Step : System -> System -> Prop :=
| StepCallUpdate s :
    Step s (snd (callUpdate s))
| StepDumpSettles s result now :
    (0 < refreshing s)%nat ->
    Step s {| cache := snd (updateVavooCache_resume result now (cache s));
              refreshing := Nat.pred (refreshing s);
              dumps := dumps s; lookups := lookups s |}
| StepResolve s channelName now :
    Step s (snd (resolveVavooChannelByName channelName now s))
| StepLookupSettles s channelName result :
    In channelName (lookups s) ->
    Step s {| cache := snd (lookupCallback channelName result (cache s));
              refreshing := refreshing s; dumps := dumps s;
              lookups := removeFirst channelName (lookups s) |}.

(** The process starts with the cache as [loadVavooCache] left it, no update
    running. *)
Definition initial (s : System) : Prop :=
  updating (cache s) = false /\ refreshing s = 0%nat /\ dumps s = 0%nat
  /\ lookups s = [].

Inductive Reachable : System -> Prop :=
| ReachInitial s : initial s -> Reachable s
| ReachStep s s' : Reachable s -> Step s s' -> Reachable s'.

(** The flag is set exactly while one update is suspended. *)
Definition flagMatches (s : System) : Prop :=
  (updating (cache s) = true /\ refreshing s = 1)
  \/ (updating (cache s) = false /\ refreshing s = 0).

(** ** normalizeProxyUrl *)

Definition normalizeProxyUrl (url : string) : string :=
  if endsWith url "/" then slice_0_m1 url else url.

(** ** The stream handler *)

Definition cleanTvId (id : string) : outcome string :=
  if startsWith id "tv:" then Returns (replace id "tv:" EmptyString)
  else if startsWith id "tv%3A" then Returns (replace id "tv%3A" EmptyString)
  else if includes id "%3A" then
    let* cleanId := decodeURIComponent id in
    Returns (if startsWith cleanId "tv:"
             then replace cleanId "tv:" EmptyString else cleanId)
  else Returns id.

Definition animeUnityConfig (w : World) (config : gmap string string)
    (animeUnityEnabled bothLinkValue : bool) : AnimeConfig :=
  {| enabled := animeUnityEnabled;
     animeMfpUrl := configOrEnvOrEmpty w config "mediaFlowProxyUrl" "MFP_URL";
     animeMfpPassword :=
       configOrEnvOrEmpty w config "mediaFlowProxyPassword" "MFP_PSW";
     mfpProxyUrl := None;
     mfpProxyPassword := None;
     animeBothLink := bothLinkValue;
     animeTmdbApiKey := configOrEnvOrEmpty w config "tmdbApiKey" "TMDB_API_KEY" |}.

Definition animeSaturnConfig (w : World) (config : gmap string string)
    (animeSaturnEnabled bothLinkValue : bool) : AnimeConfig :=
  {| enabled := animeSaturnEnabled;
     animeMfpUrl := configOrEnvOrEmpty w config "mediaFlowProxyUrl" "MFP_URL";
     animeMfpPassword :=
       configOrEnvOrEmpty w config "mediaFlowProxyPassword" "MFP_PSW";
     mfpProxyUrl :=
       Some (configOrEnvOrEmpty w config "mediaFlowProxyUrl" "MFP_URL");
     mfpProxyPassword :=
       Some (configOrEnvOrEmpty w config "mediaFlowProxyPassword" "MFP_PSW");
     animeBothLink := bothLinkValue;
     animeTmdbApiKey := configOrEnvOrEmpty w config "tmdbApiKey" "TMDB_API_KEY" |}.

(** The request made to an anime provider for an IMDB or TMDB id. *)
Definition imdbOrTmdbRequest (id : string) : option request :=
  let '(seasonNumber, episodeNumber, isMovie) := parseSeasonEpisode id in
  if startsWith id "tt"
  then Some (ImdbRequest id seasonNumber episodeNumber isMovie)
  else if startsWith id "tmdb:"
  then Some (TmdbRequest (replace id "tmdb:" EmptyString)
               seasonNumber episodeNumber isMovie)
  else None.

Definition extractorConfig (w : World) (config : gmap string string)
    (bothLinkValue : bool) : ExtractorConfig :=
  {| tmdbApiKey := configOrEnv w config "tmdbApiKey" "TMDB_API_KEY";
     mfpUrl := configOrEnv w config "mediaFlowProxyUrl" "MFP_URL";
     mfpPsw := configOrEnv w config "mediaFlowProxyPassword" "MFP_PSW";
     bothLink := bothLinkValue |}.

(** The function given to [builder.defineStreamHandler]; [configCache] and
    [tvChannels] are the globals it reads. *)
Definition defineStreamHandler (w : World) (configCache : gmap string string)
    (tvChannels : list Channel) (id type : string) : M (list Stream) :=
  if String.eqb type "tv" then
    let! cleanId := lift (cleanTvId id) in
    match findChannel tvChannels cleanId with
    | None => ret []
    | Some channel =>
        ret (if truthy (staticUrl channel)
             then [{| name := None; title := channelName channel;
                      url := staticUrl channel; behaviorHints := None |}]
             else [])
    end
  else
    let config := configCache in
    let bothLinkValue := isOn config "bothLinks" in
    let animeUnityEnabled :=
      isOn config "animeunityEnabled" || envFlag w "ANIMEUNITY_ENABLED" in
    let animeSaturnEnabled :=
      isOn config "animesaturnEnabled" || envFlag w "ANIMESATURN_ENABLED" in
    let unityConfig :=
      animeUnityConfig w config animeUnityEnabled bothLinkValue in
    let saturnConfig :=
      animeSaturnConfig w config animeSaturnEnabled bothLinkValue in
    if (startsWith id "kitsu:" || startsWith id "mal:")
       && (animeUnityEnabled || animeSaturnEnabled)
    then
      let! allStreams :=
        (if animeUnityEnabled
         then askProvider w AnimeUnity unityConfig (Some (KitsuRequest id)) []
         else ret []) in
      let! allStreams :=
        (if animeSaturnEnabled
         then askProvider w AnimeSaturn saturnConfig (Some (KitsuRequest id))
                allStreams
         else ret allStreams) in
      ret allStreams
    else if startsWith id "tt" || startsWith id "tmdb:" then
      let finalConfig := extractorConfig w config bothLinkValue in
      let! res :=
        invoke (VixSrcCall id type) (getStreamContent w id type finalConfig) in
      let vixStreams := vixStreamsOf res in
      if negb (Nat.eqb (length vixStreams) 0) then ret vixStreams
      else if animeUnityEnabled || animeSaturnEnabled then
        let! allStreams :=
          (if animeUnityEnabled
           then askProvider w AnimeUnity unityConfig (imdbOrTmdbRequest id) []
           else ret []) in
        let! allStreams :=
          (if animeSaturnEnabled
           then askProvider w AnimeSaturn saturnConfig (imdbOrTmdbRequest id)
                  allStreams
           else ret allStreams) in
        ret allStreams
      else ret []
    else ret [].

End VavooRev.

(* ================================================================== *)
(** * The revision with the EPG manager *)
(* ================================================================== *)

Module EpgRev.
Import JS Providers.

(** ** parseConfigFromArgs *)

Definition parseConfigFromArgs (args : option json) : outcome json :=
  let config := emptyObject in
  match args with
  | Some (JStr args) =>
      try_catch
        (let* decoded := decodeURIComponent args in
         let* parsed := JSON_parse decoded in
         Returns parsed)
        (fun _ => Returns emptyObject)
  | Some (JObj members) => Returns (JObj members)
  | Some (JArr elems) => Returns (JArr elems)
  | _ => Returns config
  end.

(** ** isFreeToAirChannel *)

Definition freeToAirIds : list string :=
  ["rai1"; "rai2"; "rai3"; "rai4"; "rai5"; "raimovie"; "raipremium";
   "raigulp"; "raiyoyo"; "rainews24"; "raistoria"; "raiscuola"; "raisport";
   "rai4k";
   "rete4"; "canale5"; "italia1"; "20mediaset"; "iris"; "la5"; "twentyseven";
   "cine34"; "focus"; "topcrime"; "boing"; "cartoonito"; "super"; "italia2";
   "tgcom24"; "mediasetextra";
   "la7"; "la7d"; "tv8"; "nove"; "cielo"; "tv2000"; "realtime"; "qvc";
   "foodnetwork"; "warnertv"; "giallo"; "k2"; "frisbee"; "dmax"; "hgtv";
   "motortrend"; "rtl1025tv";
   "sportitalia"; "donnatv"; "supertennis"].

Definition isFreeToAirChannel (channelId : string) : bool :=
  existsb (String.eqb channelId) freeToAirIds.

(** ** normalizeProxyUrl *)

Definition normalizeProxyUrl (url : string) : string :=
  if endsWith url "/" then slice_0_m1 url else url.

(** ** The stream handler *)

(** A template literal prints a missing name as [undefined]. *)
Definition shown (v : option string) : string :=
  match v with
  | Some s => s
  | None => "undefined"
  end.

(** The generic proxy: manifest template for an MPD, stream template
    otherwise. *)
Definition mfpProxied (mfpUrl mfpPsw target : string) : string :=
  if includes target ".mpd"
  then mfpUrl +:+ "/proxy/mpd/manifest.m3u8?api_password="
       +:+ encodeURIComponent mfpPsw +:+ "&d=" +:+ target
  else mfpUrl +:+ "/proxy/stream/?api_password="
       +:+ encodeURIComponent mfpPsw +:+ "&d=" +:+ target.

(** The TV proxy. *)
Definition tvProxied (tvProxyUrl target : string) : string :=
  tvProxyUrl +:+ "/proxy/m3u?url=" +:+ encodeURIComponent target.

Definition mfpUrlOf (config : gmap string string) : string :=
  if truthy (config !! "mfpProxyUrl")
  then normalizeProxyUrl (or_empty (config !! "mfpProxyUrl"))
  else if truthy (config !! "mediaFlowProxyUrl")
  then normalizeProxyUrl (or_empty (config !! "mediaFlowProxyUrl"))
  else EmptyString.

Definition mfpPswOf (config : gmap string string) : string :=
  or_empty (or_else (config !! "mfpProxyPassword")
              (config !! "mediaFlowProxyPassword")).

Definition tvProxyUrlOf (config : gmap string string) : string :=
  if truthy (config !! "tvProxyUrl")
  then normalizeProxyUrl (or_empty (config !! "tvProxyUrl"))
  else EmptyString.

(** Steps 1 and 2: a static link of a channel, with the mark and the tags
    of its titles. *)
Definition staticStream (isFreeToAir : bool) (mfpUrl mfpPsw : string)
    (channelName : option string) (mark directTag proxyTag : string)
    (link : option string) : list (string * string) :=
  match link with
  | Some (String c r) =>
      let staticUrl := String c r in
      if isFreeToAir then
        [(staticUrl, mark +:+ " " +:+ shown channelName +:+ directTag)]
      else if nonEmpty mfpUrl && nonEmpty mfpPsw then
        [(mfpProxied mfpUrl mfpPsw staticUrl,
          mark +:+ " " +:+ shown channelName +:+ proxyTag)]
      else
        [(staticUrl, mark +:+ " " +:+ shown channelName +:+ directTag)]
  | _ => []
  end.

(** Step 3. *)
Definition daddyStream (tvProxyUrl : string) (channelName : option string)
    (link : option string) : list (string * string) :=
  match link with
  | Some (String c r) =>
      let staticUrlD := String c r in
      [(if nonEmpty tvProxyUrl then tvProxied tvProxyUrl staticUrlD
        else staticUrlD,
        "📱 " +:+ shown channelName +:+ " (D)")]
  | _ => []
  end.

(** Step 4: the look-up of the Vavoo link, inside its own [try]. *)
Definition vavooStream (w : World) (tvProxyUrl : string)
    (channelName : option string) : M (list (string * string)) :=
  if truthy channelName && nonEmpty tvProxyUrl then
    tryM
      (let! vavooOriginalLink :=
         invoke (VavooCall (or_empty channelName))
           (vavooResolver w (or_empty channelName)) in
       ret (if truthy vavooOriginalLink
            then [(tvProxied tvProxyUrl (or_empty vavooOriginalLink),
                   "🌟 " +:+ shown channelName +:+ " (Vavoo)")]
            else []))
      (fun _ => ret [])
  else ret [].

Definition toTvStream (s : string * string) : Stream :=
  {| name := Some "StreamViX TV"; title := Some (snd s); url := Some (fst s);
     behaviorHints := None |}.

(** The live-TV branch for the channel found. *)
Definition tvStreams (w : World) (config : gmap string string)
    (cleanId : string) (channel : Channel) : M (list Stream) :=
  let mfpUrl := mfpUrlOf config in
  let mfpPsw := mfpPswOf config in
  let tvProxyUrl := tvProxyUrlOf config in
  let isFreeToAir := isFreeToAirChannel cleanId in
  let streams1 :=
    staticStream isFreeToAir mfpUrl mfpPsw (channelName channel)
      "🔴" " (Direct)" " (Proxy)" (staticUrl channel) in
  let streams2 :=
    staticStream isFreeToAir mfpUrl mfpPsw (channelName channel)
      "🎬" " (HD)" " (HD)" (staticUrl2 channel) in
  let streams3 :=
    daddyStream tvProxyUrl (channelName channel) (staticUrlD channel) in
  let! streams4 := vavooStream w tvProxyUrl (channelName channel) in
  ret (map toTvStream (streams1 ++ streams2 ++ streams3 ++ streams4)%list).

Definition animeConfig (w : World) (config : gmap string string)
    (isEnabled bothLinkValue : bool) : AnimeConfig :=
  {| enabled := isEnabled;
     animeMfpUrl := configOrEnvOrEmpty w config "mediaFlowProxyUrl" "MFP_URL";
     animeMfpPassword :=
       configOrEnvOrEmpty w config "mediaFlowProxyPassword" "MFP_PSW";
     mfpProxyUrl := None;
     mfpProxyPassword := None;
     animeBothLink := bothLinkValue;
     animeTmdbApiKey := configOrEnvOrEmpty w config "tmdbApiKey" "TMDB_API_KEY" |}.

(** The request made to an anime provider, by the prefix of the id. *)
Definition animeRequestFor (id : string) : option request :=
  let '(seasonNumber, episodeNumber, isMovie) :=
    if startsWith id "tt" || startsWith id "tmdb:"
    then parseSeasonEpisode id else (None, None, false) in
  if startsWith id "kitsu:" then Some (KitsuRequest id)
  else if startsWith id "mal:" then Some (MalRequest id)
  else if startsWith id "tt"
  then Some (ImdbRequest id seasonNumber episodeNumber isMovie)
  else if startsWith id "tmdb:"
  then Some (TmdbRequest (replace id "tmdb:" EmptyString)
               seasonNumber episodeNumber isMovie)
  else None.

(** The block that asks AnimeUnity, then AnimeSaturn. *)
Definition askAnimeProviders (w : World) (config : gmap string string)
    (animeUnityEnabled animeSaturnEnabled : bool) (id : string)
  : M (list Stream) :=
  if (startsWith id "kitsu:" || startsWith id "mal:"
      || startsWith id "tt" || startsWith id "tmdb:")
     && (animeUnityEnabled || animeSaturnEnabled)
  then
    let bothLinkValue := isOn config "bothLinks" in
    let! allStreams :=
      (if animeUnityEnabled
       then askProvider w AnimeUnity
              (animeConfig w config animeUnityEnabled bothLinkValue)
              (animeRequestFor id) []
       else ret []) in
    if animeSaturnEnabled
    then askProvider w AnimeSaturn
           (animeConfig w config animeSaturnEnabled bothLinkValue)
           (animeRequestFor id) allStreams
    else ret allStreams
  else ret [].

Definition extractorConfig (w : World) (config : gmap string string)
  : ExtractorConfig :=
  let bothLinkValue :=
    match config !! "bothLinks" with
    | Some v => String.eqb v "on"
    | None => envFlag w "BOTHLINK"
    end in
  {| tmdbApiKey := configOrEnv w config "tmdbApiKey" "TMDB_API_KEY";
     mfpUrl := configOrEnv w config "mediaFlowProxyUrl" "MFP_URL";
     mfpPsw := configOrEnv w config "mediaFlowProxyPassword" "MFP_PSW";
     bothLink := bothLinkValue |}.

(** The function given to [builder.defineStreamHandler]; [config] is the
    argument of [createBuilder] and [tvChannels] the global it reads. *)
Definition defineStreamHandler (w : World) (config : gmap string string)
    (tvChannels : list Channel) (id type : string) : M (list Stream) :=
  tryM
    (if String.eqb type "tv" then
       let cleanId :=
         if startsWith id "tv:" then replace id "tv:" EmptyString else id in
       match findChannel tvChannels cleanId with
       | None => ret []
       | Some channel => tvStreams w config cleanId channel
       end
     else
       let animeUnityEnabled :=
         isOn config "animeunityEnabled" || envFlag w "ANIMEUNITY_ENABLED" in
       let animeSaturnEnabled :=
         isOn config "animesaturnEnabled" || envFlag w "ANIMESATURN_ENABLED" in
       let! allStreams :=
         askAnimeProviders w config animeUnityEnabled animeSaturnEnabled id in
       if negb (startsWith id "kitsu:") && negb (startsWith id "mal:")
          && negb (startsWith id "tv:")
       then
         let! res :=
           invoke (VixSrcCall id type)
             (getStreamContent w id type (extractorConfig w config)) in
         ret (allStreams ++ vixStreamsOf res)%list
       else ret allStreams)
    (fun _ => ret []).

End EpgRev.

(* ================================================================== *)
(** * The properties stated of the addon *)
(* ================================================================== *)

Module Properties.
Import JS Providers.

(** The type of both stream handlers. *)
Definition Handler : Type :=
  World -> gmap string string -> list Channel -> string -> string ->
  M (list Stream).

(** An IMDB or TMDB id. *)
Definition movieOrSeriesId (id : string) : bool :=
  startsWith id "tt" || startsWith id "tmdb:".

(** "The primary provider is asked first, and when it has a usable
    candidate no other provider is asked and its candidates are the
    answer." *)
Definition primaryFirst (handler : Handler) : Prop :=
  forall w config tvChannels id type res,
    movieOrSeriesId id = true ->
    type <> "tv" ->
    (forall cfg, getStreamContent w id type cfg = Returns res) ->
    vixStreamsOf res <> [] ->
    handle (handler w config tvChannels id type)
    = (Returns (vixStreamsOf res), [VixSrcCall id type]).


(** What a request to an anime provider adds to the answer: its streams
    under the label of the provider, nothing when it throws. *)
Definition answerOf (w : World) (p : provider) (cfg : AnimeConfig)
    (q : request) : list Stream :=
  match animeRequest w p cfg q with
  | Returns result => taggedStreams (labelOf p) result
  | Throws _ => []
  end.

(** The anime calls of a request [q], by the providers enabled. *)
Definition animeCalls (unity saturn : bool) (q : request) : list call :=
  ((if unity then [AnimeCall AnimeUnity q] else [])
   ++ (if saturn then [AnimeCall AnimeSaturn q] else []))%list.

(** *** Settings that can be written as JSON text *)

Fixpoint numRun (st : numState) (s : string) : option numState :=
  match s with
  | EmptyString => Some st
  | String c r =>
      match numNext st c with
      | Some st' => numRun st' r
      | None => None
      end
  end.

(** The literal is a number of the JSON grammar. *)
Definition validNumber (literal : string) : bool :=
  match literal with
  | EmptyString => false
  | String c r =>
      match numStart c with
      | Some st =>
          match numRun st r with
          | Some st' => numAccepting st'
          | None => false
          end
      | None => false
      end
  end.

Definition allOf (l : list Prop) : Prop := fold_right and True l.

(** A value as [JSON.stringify] can be given one: its numbers are number
    literals and no object has a key twice. *)
Fixpoint wellFormed (v : json) : Prop :=
  match v with
  | JNum literal => validNumber literal = true
  | JArr elems => allOf (map wellFormed elems)
  | JObj members =>
      NoDup (map fst members)
      /\ allOf (map (fun kv => wellFormed (snd kv)) members)
  | _ => True
  end.

(** The text is well-formed UTF-8: decoding it changes nothing. *)
Definition wellFormedUtf8 (text : string) : Prop :=
  toString_utf8 text = text.

(** Token lists with a comma between them. *)
Fixpoint joinTokens (l : list (list token)) : list token :=
  match l with
  | [] => []
  | x :: r =>
      (x ++ match r with
            | [] => []
            | _ :: _ => TComma :: joinTokens r
            end)%list
  end.

(** The tokens of the text of a value. *)
Fixpoint tokensOf (v : json) : list token :=
  match v with
  | JArr elems =>
      TLBracket :: (joinTokens (map tokensOf elems) ++ [TRBracket])%list
  | JObj members =>
      TLBrace ::
      (joinTokens
         (map (fun kv => TScalar (JStr (fst kv)) :: TColon :: tokensOf (snd kv))
            members) ++ [TRBrace])%list
  | _ => [TScalar v]
  end.

(** The lexer reads the text of a value back as its tokens. *)
Definition lexesBack (v : json) : Prop :=
  forall tail, numContinues tail = false ->
    lex LexNormal (JSON_stringify v +:+ tail)
    = app (tokensOf v) <$> lex LexNormal tail.

(** The parser turns the tokens of a value into the value. *)
Definition parsesBack (v : json) : Prop :=
  forall stk rest,
    run (ExpValue stk) (tokensOf v ++ rest)%list = run (pushValue v stk) rest.

(** The piece of a string literal that the lexer reads back for the text
    [quoteChar c]. *)
Definition itemOf (c : ascii) : strItem :=
  if (code c <? 0x20)%N
     && negb (Ascii.eqb c "008"%char || Ascii.eqb c "009"%char
              || Ascii.eqb c "010"%char || Ascii.eqb c "012"%char
              || Ascii.eqb c "013"%char)
  then Unit (code c) else Raw c.

(** Every step of the decoding of a configuration string fails. *)
Definition everyStageFails (args : string) : Prop :=
  VavooRev.directJson args = None /\
  fst (VavooRev.urlDecodedJson args) = None /\
  VavooRev.base64Json (snd (VavooRev.urlDecodedJson args)) = Returns None.

(** Season and episode are both there or both missing. *)
Definition bothOrNeither (r : option jsnum * option jsnum * bool) : Prop :=
  is_Some (fst (fst r)) <-> is_Some (snd (fst r)).

End Properties.


(* ================================================================== *)
(** * Scenarios used as examples *)
(* ================================================================== *)

Module Scenarios.
Import JS Providers.

Definition rai1 : Channel :=
  {| channelId := "rai1"; channelName := Some "Rai 1";
     staticUrl := Some "https://example.org/rai1.mpd";
     staticUrl2 := None; staticUrlD := None |}.

(** No provider has anything. *)
Definition quietWorld : World :=
  {| env := ∅;
     getStreamContent := fun _ _ _ => Returns None;
     animeRequest := fun _ _ _ => Returns None;
     vavooResolver := fun _ => Returns None |}.

Definition vixCandidate : VixCloudStreamInfo :=
  {| vixName := Some "The Shawshank Redemption";
     streamUrl := Some "https://vixsrc.example/playlist/1.m3u8";
     vixReferer := Some "https://vixsrc.example/" |}.

Definition animeCandidate : Stream :=
  {| name := Some "AnimeUnity"; title := Some "Episode 1";
     url := Some "https://anime.example/1.mp4"; behaviorHints := None |}.

(** VixSrc and the anime providers all have one candidate. *)
Definition busyWorld : World :=
  {| env := ∅;
     getStreamContent := fun _ _ _ => Returns (Some [vixCandidate]);
     animeRequest :=
       fun _ _ _ => Returns (Some {| streams := Some [animeCandidate] |});
     vavooResolver := fun _ => Returns None |}.

(** The call of VixSrc rejects; the anime providers have one candidate. *)
Definition vixDownWorld : World :=
  {| env := ∅;
     getStreamContent := fun _ _ _ => Throws (Rejected "vixsrc unreachable");
     animeRequest :=
       fun _ _ _ => Returns (Some {| streams := Some [animeCandidate] |});
     vavooResolver := fun _ => Returns None |}.

(** AnimeUnity throws; AnimeSaturn has one candidate; VixSrc has none. *)
Definition unityDownWorld : World :=
  {| env := ∅;
     getStreamContent := fun _ _ _ => Returns None;
     animeRequest :=
       fun p _ _ =>
         match p with
         | AnimeUnity => Throws (Rejected "animeunity unreachable")
         | AnimeSaturn => Returns (Some {| streams := Some [animeCandidate] |})
         end;
     vavooResolver := fun _ => Returns None |}.

(** A cache filled by an earlier update. *)
Definition warmCache : VavooRev.VavooCache :=
  {| VavooRev.timestamp := 1700000000000;
     VavooRev.links := [(JStr "Rai 1", JStr "https://vavoo.example/rai1")];
     VavooRev.updating := false |}.

(** The process at its start, no cache file found. *)
Definition coldSystem : VavooRev.System :=
  {| VavooRev.cache := {| VavooRev.timestamp := 0; VavooRev.links := [];
                          VavooRev.updating := false |};
     VavooRev.refreshing := 0; VavooRev.dumps := 0;
     VavooRev.lookups := [] |}.

Definition animeOn : gmap string string :=
  <["animeunityEnabled" := "on"]> (<["animesaturnEnabled" := "on"]> ∅).

End Scenarios.

(* ================================================================== *)
(** * The cache revision beyond its stream handler *)
(* ================================================================== *)

Module WebApp.
Import JS Providers.

(** ** Texts as sequences of UTF-16 code units *)

Definition contBits (c : ascii) : N := N.land (code c) 0x3F.

(** The two surrogates of a character of four bytes, each with the
    three-byte pattern that [itemsToString] gives a lone surrogate. *)
Definition surrogatePair (b0 b1 b2 b3 : ascii) : list string :=
  let cp := (N.land (code b0) 7 * 262144 + contBits b1 * 4096
             + contBits b2 * 64 + contBits b3)%N in
  [utf8_encode (0xD800 + (cp - 0x10000) / 1024);
   utf8_encode (0xDC00 + (cp - 0x10000) mod 1024)].

(** [s[0], s[1], ...]: the code units of a text, each as a text of its
    own. *)
Fixpoint codeUnits (s : string) : list string :=
  match s with
  | EmptyString => []
  | String b0 r0 =>
      match utf8_classify (code b0), r0 with
      | Lead 1 _ _, String b1 r1 =>
          String b0 (String b1 EmptyString) :: codeUnits r1
      | Lead 2 _ _, String b1 (String b2 r2) =>
          String b0 (String b1 (String b2 EmptyString)) :: codeUnits r2
      | Lead 3 _ _, String b1 (String b2 (String b3 r3)) =>
          (surrogatePair b0 b1 b2 b3 ++ codeUnits r3)%list
      | _, _ => String b0 EmptyString :: codeUnits r0
      end
  end.

(** [s.length] *)
Definition jsLength (s : string) : nat := length (codeUnits s).

(** ** The settings kept between requests *)

(** [configCache]: its own properties, and its prototype once an
    assignment to [__proto__] has replaced [Object.prototype]. *)
Record ConfigCache : Type :=
  { own : list (string * json);
    prototype : option json }.

Definition indexed {A} (l : list A) : list (string * A) :=
  imap (fun i x => (pretty i, x)) l.

(** The own enumerable properties that [Object.keys] lists and
    [Object.assign] copies; [null] has none to list. *)
Definition ownEntries (v : json) : outcome (list (string * json)) :=
  match v with
  | JNull => Throws TypeError
  | JBool _ | JNum _ => Returns []
  | JStr s => Returns (indexed (map JStr (codeUnits s)))
  | JArr elems => Returns (indexed elems)
  | JObj members => Returns members
  end.

(** Whether [target.__proto__ = v] reaches the setter that
    [Object.prototype] has for that name.  It does not when the target has
    a property [__proto__] of its own, and not when the search along the
    prototypes ends before [Object.prototype]: at a prototype that is
    [null], or at one that was made by [JSON.parse] with a member
    [__proto__], which is a property of its own there. *)
Definition reachesProtoSetter (target : ConfigCache) : bool :=
  match getMember (own target) "__proto__" with
  | Some _ => false
  | None =>
      match prototype target with
      | None => true
      | Some JNull => false
      | Some (JObj members) =>
          match getMember members "__proto__" with
          | Some _ => false
          | None => true
          end
      | Some _ => true
      end
  end.

(** [target[k] = v] on [configCache].  The key [__proto__], when it reaches
    the setter, gives the target an object, an array or [null] as its new
    prototype and does nothing with any other value; every other assignment
    writes a property of the target's own. *)
Definition assignEntry (target : ConfigCache) (kv : string * json)
  : ConfigCache :=
  if String.eqb (fst kv) "__proto__" && reachesProtoSetter target then
    match snd kv with
    | JObj _ | JArr _ | JNull =>
        {| own := own target; prototype := Some (snd kv) |}
    | _ => target
    end
  else {| own := setMember (own target) (fst kv) (snd kv);
          prototype := prototype target |}.

(** [Object.assign(target, source)], given the properties of the source. *)
Definition Object_assign (target : ConfigCache)
    (entries : list (string * json)) : ConfigCache :=
  fold_left assignEntry entries target.

(** The test both blocks of the middleware make on the first segment of
    the path. *)
Definition isConfigSegment (configString : option string) : bool :=
  match configString with
  | Some s =>
      nonEmpty s && (10 <? jsLength s)%nat
      && negb (startsWith s "stream") && negb (startsWith s "meta")
      && negb (startsWith s "manifest")
  | None => false
  end.

(** One of the two blocks that read the settings off the path. *)
Definition mergeSegment (configString : option string)
    (configCache : ConfigCache) : outcome ConfigCache :=
  if isConfigSegment configString then
    let* parsedConfig :=
      VavooRev.parseConfigFromArgs (JStr <$> configString) in
    let* keys := ownEntries parsedConfig in
    if (0 <? length keys)%nat
    then Returns (Object_assign configCache keys)
    else Returns configCache
  else Returns configCache.

(** The middleware up to the call of the router: the block runs twice. *)
Definition configMiddleware (path : string) (configCache : ConfigCache)
  : outcome ConfigCache :=
  let configString := split "/" path !! 1 in
  let* configCache := mergeSegment configString configCache in
  mergeSegment configString configCache.

(** [config = { ...configCache }] *)
Definition snapshot (configCache : ConfigCache) : list (string * json) :=
  own configCache.

(** ** The channels of the catalog *)

(** [channel.category]: missing, one name or a list of names. *)
Inductive CategoryField : Type :=
| NoCategory
| OneCategory (c : string)
| ManyCategories (l : list string).

(** An entry of config/tv_channels.json with the fields that the catalog
    and the meta handler read. *)
Record TvChannel : Type :=
  { channel : Channel;
    description : option string;
    poster : option string;
    logo : option string;
    background : option string;
    categories : option (list string);
    category : CategoryField }.

(** [s.toLowerCase()] as far as a search for an ASCII word can tell: the
    Kelvin sign becomes [k] and the dotted capital I becomes [i] followed by
    a combining dot; every other character outside ASCII stays outside
    ASCII and is left as it is. *)
Fixpoint toLowerCase (s : string) : string :=
  match s with
  | EmptyString => EmptyString
  | String c r =>
      match s with
      | String "226" (String "132" (String "170" r3)) =>
          String "k" (toLowerCase r3)
      | String "196" (String "176" r2) =>
          String "i" (String "204" (String "135" (toLowerCase r2)))
      | _ => String (lowerChar c) (toLowerCase r)
      end
  end.

(** The categories a channel declares. *)
Definition declaredCategories (ch : TvChannel) : list string :=
  match categories ch with
  | Some l => l
  | None =>
      match category ch with
      | ManyCategories l => l
      | OneCategory c => if nonEmpty c then [c] else []
      | NoCategory => []
      end
  end.

Definition tagIf (b : bool) (tag : string) : list string :=
  if b then [tag] else [].

(** The categories read off the name and the description. *)
Definition keywordCategories (name description : string) : list string :=
  (tagIf (includes name "rai" || includes description "rai") "rai"
   ++ tagIf (includes name "mediaset" || includes description "mediaset"
             || includes name "canale 5" || includes name "italia"
             || includes name "rete 4") "mediaset"
   ++ tagIf (includes name "sky" || includes description "sky") "sky"
   ++ tagIf (includes name "gulp" || includes name "yoyo"
             || includes name "boing" || includes name "cartoonito") "kids"
   ++ tagIf (includes name "news" || includes name "tg"
             || includes name "focus") "news"
   ++ tagIf (includes name "sport" || includes name "tennis"
             || includes name "eurosport") "sport"
   ++ tagIf (includes name "cinema" || includes name "movie"
             || includes name "warner") "movies")%list.

(** [getChannelCategories(channel)]; a missing name or description has no
    [toLowerCase]. *)
Definition getChannelCategories (ch : TvChannel) : outcome (list string) :=
  let categories := declaredCategories ch in
  if Nat.eqb (length categories) 0 then
    match channelName (channel ch), description ch with
    | Some name, Some description =>
        let found :=
          keywordCategories (toLowerCase name) (toLowerCase description) in
        Returns (if Nat.eqb (length found) 0 then ["general"] else found)
    | _, _ => Throws TypeError
    end
  else Returns categories.

(** ** The catalog handler *)

Definition genreNames : list (string * string) :=
  [("RAI", "rai"); ("Mediaset", "mediaset"); ("Sky", "sky");
   ("Bambini", "kids"); ("News", "news"); ("Sport", "sport");
   ("Cinema", "movies"); ("Generali", "general");
   ("Documentari", "documentari")].

(** The names that every object literal inherits from [Object.prototype]. *)
Definition inheritedNames : list string :=
  ["constructor"; "__defineGetter__"; "__defineSetter__"; "hasOwnProperty";
   "__lookupGetter__"; "__lookupSetter__"; "isPrototypeOf";
   "propertyIsEnumerable"; "toString"; "valueOf"; "__proto__";
   "toLocaleString"].

(** [genreMap[genre]]: nothing, the name of a category, or something
    inherited, which is truthy and equal to no category. *)
Inductive genreTarget : Type :=
| NoTarget
| Category (c : string)
| Inherited.

Fixpoint lookupName (table : list (string * string)) (k : string)
  : option string :=
  match table with
  | [] => None
  | (k', v) :: r => if String.eqb k' k then Some v else lookupName r k
  end.

Definition genreMap (genre : string) : genreTarget :=
  match lookupName genreNames genre with
  | Some c => Category c
  | None =>
      if existsb (String.eqb genre) inheritedNames then Inherited
      else NoTarget
  end.

(** [categories.includes(targetCategory)] *)
Definition inCategory (target : genreTarget) (categories : list string)
  : bool :=
  match target with
  | Category c => existsb (String.eqb c) categories
  | _ => false
  end.

(** [tvChannels.filter(...)]: the categories of every channel are read, and
    what one of them throws leaves the handler. *)
Fixpoint filterChannels (target : genreTarget) (l : list TvChannel)
  : outcome (list TvChannel) :=
  match l with
  | [] => Returns []
  | ch :: r =>
      let* categories := getChannelCategories ch in
      let* kept := filterChannels target r in
      Returns (if inCategory target categories then ch :: kept else kept)
  end.

(** An entry of the catalog: the channel, with the fields written over
    it. *)
Record Meta : Type :=
  { source : TvChannel;
    metaId : string;
    posterShape : string;
    metaPoster : string;
    metaLogo : string;
    metaBackground : string }.

Definition toMeta (ch : TvChannel) : Meta :=
  {| source := ch;
     metaId := "tv:" +:+ channelId (channel ch);
     posterShape := "landscape";
     metaPoster := or_empty (or_else (poster ch) (logo ch));
     metaLogo := or_empty (or_else (logo ch) (poster ch));
     metaBackground := or_empty (or_else (background ch) (poster ch)) |}.

(** The function given to [builder.defineCatalogHandler]; [genre] is
    [extra.genre], missing also when [extra] is. *)
Definition defineCatalogHandler (tvChannels : list TvChannel)
    (type : string) (genre : option string) : outcome (list Meta) :=
  if String.eqb type "tv" then
    let* filteredChannels :=
      (if truthy genre then
         match genreMap (or_empty genre) with
         | NoTarget => Returns tvChannels
         | targetCategory => filterChannels targetCategory tvChannels
         end
       else Returns tvChannels) in
    Returns (map toMeta filteredChannels)
  else Returns [].

(** ** The meta handler *)

Record DetailedMeta : Type :=
  { summary : Meta;
    genre : list string;
    genres : list string;
    year : string;
    imdbRating : option string;
    releaseInfo : string;
    country : string;
    language : string }.

(** [Array.isArray(channel.category) ? channel.category
     : [channel.category || 'general']] *)
Definition genreOf (ch : TvChannel) : list string :=
  match category ch with
  | ManyCategories l => l
  | OneCategory c => [if nonEmpty c then c else "general"]
  | NoCategory => ["general"]
  end.

(** The function given to [builder.defineMetaHandler]; [thisYear] is what
    [new Date().getFullYear().toString()] reads. *)
Definition defineMetaHandler (tvChannels : list TvChannel) (thisYear : string)
    (type id : string) : outcome (option DetailedMeta) :=
  if String.eqb type "tv" then
    let* cleanId := VavooRev.cleanTvId id in
    match List.find (fun c => String.eqb (channelId (channel c)) cleanId)
            tvChannels with
    | Some ch =>
        Returns (Some {| summary := toMeta ch;
                         genre := genreOf ch;
                         genres := genreOf ch;
                         year := thisYear;
                         imdbRating := None;
                         releaseInfo := "Live TV";
                         country := "IT";
                         language := "it" |})
    | None => Returns None
    end
  else Returns None.

End WebApp.

(* ================================================================== *)
(** * Notions used to state further properties *)
(* ================================================================== *)

Module Notions.
Import JS Providers.

(** The escape [%XX] of a byte, before the text [r]. *)
Definition escaped (b : ascii) (r : string) : string :=
  String "%" (String (hexChar (code b / 16))
    (String (hexChar (code b mod 16)) r)).

(** [n] copies of a text. *)
Fixpoint copies (n : nat) (s : string) : string :=
  match n with
  | O => EmptyString
  | S n' => s +:+ copies n' s
  end.

(** The Base64 characters of a text, without padding. *)
Definition base64Body (text : string) : string :=
  base64Text (base64Sextets text).

(** The value that the last of the entries with the key [k] gives it. *)
Fixpoint lastValue (entries : list (string * json)) (k : string)
  : option json :=
  match entries with
  | [] => None
  | (k', v) :: r =>
      match lastValue r k with
      | Some w => Some w
      | None => if String.eqb k' k then Some v else None
      end
  end.

(** Two states of the settings give every setting the same value: they
    agree on the properties of their own that have another name than
    [__proto__], the ones that a handler reads from its copy. *)
Definition sameSettings (a b : WebApp.ConfigCache) : Prop :=
  forall k, k <> "__proto__" ->
    getMember (WebApp.own a) k = getMember (WebApp.own b) k.

(** The link that the last usable entry with the name [name] gives, among
    the channels of a dump: an entry is usable when its name and its link
    are truthy. *)
Fixpoint lastLink (elems : list json) (name : string) : option json :=
  match elems with
  | [] => None
  | ch :: r =>
      match lastLink r name with
      | Some u => Some u
      | None =>
          match getProperty ch "name", getProperty ch "url" with
          | Some (JStr n), Some u =>
              if String.eqb n name && nonEmpty n && jsTruthy (Some u)
              then Some u else None
          | _, _ => None
          end
      end
  end.

(** How a call that finds [cachedUrl] for its channel ends: with [null]
    when there is none, with the link when it is a string, and with a
    rejection when it is anything else, which has no [substring]. *)
Definition answersCached (answer : VavooRev.resolution)
    (cachedUrl : option json) : Prop :=
  (cachedUrl = None -> answer = VavooRev.Resolved None) /\
  (forall u, cachedUrl = Some (JStr u) ->
     answer = VavooRev.Resolved (Some (JStr u))) /\
  (forall v, cachedUrl = Some v -> (forall u, v <> JStr u) ->
     answer = VavooRev.Rejects TypeError).

(** The cache is older than twelve hours at the time [now]. *)
Definition stale (now : Z) (c : VavooRev.VavooCache) : bool :=
  (VavooRev.CACHE_MAX_AGE <? now - VavooRev.timestamp c)%Z.

(** The stream has the label of one of the three providers of films,
    series and anime. *)
Definition labelled (s : Stream) : Prop :=
  name s = Some "StreamViX Vx" \/ name s = Some "StreamViX AU"
  \/ name s = Some "StreamViX AS".

(** What VixSrc adds to the answer: nothing when the call throws. *)
Definition vixAnswer (o : outcome (option (list VixCloudStreamInfo)))
  : list Stream :=
  match o with
  | Returns res => vixStreamsOf res
  | Throws _ => []
  end.

(** The world with a Vavoo resolver that finds no channel. *)
Definition withoutVavoo (w : World) : World :=
  {| env := env w;
     getStreamContent := getStreamContent w;
     animeRequest := animeRequest w;
     vavooResolver := fun _ => Returns None |}.

(** A stream of the live-TV branch of the EPG revision. *)
Definition tvStream (s : Stream) : Prop :=
  name s = Some "StreamViX TV" /\ is_Some (title s) /\ is_Some (url s)
  /\ behaviorHints s = None.

(** A text, when there is one, that [encodeURIComponent] takes: a lone
    surrogate makes it throw. *)
Definition encodable (o : option string) : Prop :=
  forall s, o = Some s -> Properties.wellFormedUtf8 s.

(** [id] without its prefix [tv:], as the EPG revision cleans it. *)
Definition epgCleanId (id : string) : string :=
  if startsWith id "tv:" then replace id "tv:" EmptyString else id.

(** The channel is in the category, as far as its categories can be
    read. *)
Definition hasCategory (c : string) (ch : WebApp.TvChannel) : bool :=
  match WebApp.getChannelCategories ch with
  | Returns categories => existsb (String.eqb c) categories
  | Throws _ => false
  end.

(** The one stream that the cache revision gives for a channel. *)
Definition plainStream (channel : Channel) : list Stream :=
  if truthy (staticUrl channel)
  then [{| name := None; title := channelName channel;
           url := staticUrl channel; behaviorHints := None |}]
  else [].

End Notions.

(* ================================================================== *)
(** * Further scenarios *)
(* ================================================================== *)

Module Examples.
Import JS Providers.

(** An entry of a dump of the resolver. *)
Definition dumpEntry (name url : string) : json :=
  JObj [("name", JStr name); ("url", JStr url)].

(** A dump that names a channel twice. *)
Definition dump : list json :=
  [dumpEntry "Rai 1" "https://vavoo.example/a";
   dumpEntry "Rai 2" "https://vavoo.example/b";
   dumpEntry "Rai 1" "https://vavoo.example/c"].

(** A dump with an entry whose link is an array that holds a number. *)
Definition oddDump : list json :=
  [JObj [("name", JStr "Rai 3"); ("url", JArr [JNum "5"])]].

(** A cache that such a dump filled. *)
Definition oddCache : VavooRev.VavooCache :=
  {| VavooRev.timestamp := 1700000000000;
     VavooRev.links := [(JStr "Rai 3", JArr [JNum "5"])];
     VavooRev.updating := false |}.

(** The same dump with a [null] at its end. *)
Definition brokenDump : list json := (dump ++ [JNull])%list.

(** Settings that name [__proto__]. *)
Definition protoSettings : list (string * json) :=
  [("__proto__", JNull); ("k", JStr "v")].

(** The Vavoo resolver throws; the other providers have nothing. *)
Definition vavooDownWorld : World :=
  {| env := ∅;
     getStreamContent := fun _ _ _ => Returns None;
     animeRequest := fun _ _ _ => Returns None;
     vavooResolver := fun _ => Throws (Rejected "resolver timed out") |}.

(** A channel with the three static links. *)
Definition sportChannel : Channel :=
  {| channelId := "skysport"; channelName := Some "Sky Sport";
     staticUrl := Some "https://example.org/sport.m3u8";
     staticUrl2 := Some "https://example.org/sport-hd.m3u8";
     staticUrlD := Some "https://example.org/d?id=7&q=a b" |}.

Definition tvProxyOn : gmap string string :=
  <["tvProxyUrl" := "http://tvproxy/"]> ∅.



(** Two entries of the catalog: one with declared categories, one whose
    category is read off its name. *)
Definition rai1Entry : WebApp.TvChannel :=
  {| WebApp.channel := Scenarios.rai1;
     WebApp.description := Some "Primo canale";
     WebApp.poster := None;
     WebApp.logo := Some "https://example.org/rai1.png";
     WebApp.background := None;
     WebApp.categories := None;
     WebApp.category := WebApp.NoCategory |}.

Definition sportEntry : WebApp.TvChannel :=
  {| WebApp.channel := sportChannel;
     WebApp.description := Some "Sport";
     WebApp.poster := None;
     WebApp.logo := None;
     WebApp.background := None;
     WebApp.categories := Some ["sport"; "sky"];
     WebApp.category := WebApp.NoCategory |}.

End Examples.

(* ================================================================== *)
(** * Facts about the runtime *)
(* ================================================================== *)

Module StringFacts.
Import JS.

Lemma append_assoc (a b c : string) : (a +:+ b) +:+ c = a +:+ (b +:+ c).
Proof. induction a as [|x a IH]; simpl; [reflexivity | by rewrite IH]. Qed.

Lemma append_empty_r (a : string) : a +:+ EmptyString = a.
Proof. induction a as [|x a IH]; simpl; [reflexivity | by rewrite IH]. Qed.

Lemma endsWith_app (v p : string) : endsWith (v +:+ p) p = true.
Proof.
  induction v as [|x v IH]; simpl.
  - destruct p; simpl; [reflexivity|].
    rewrite Ascii.eqb_refl, String.eqb_refl. reflexivity.
  - rewrite IH. apply orb_true_r.
Qed.

Lemma endsWith_slash_inv (u : string) :
  endsWith u "/" = true -> exists v, u = v +:+ "/".
Proof.
  induction u as [|x u IH]; simpl; [discriminate|].
  destruct u as [|y u].
  - simpl. destruct (Ascii.eqb_spec x "/"%char) as [->|]; [|discriminate].
    intros _. by exists EmptyString.
  - intros H. destruct IH as [v ->].
    + destruct (Ascii.eqb x "/"); simpl in H; exact H.
    + by exists (String x v).
Qed.

Lemma slice_snoc (u : string) (c : ascii) :
  slice_0_m1 (u +:+ String c EmptyString) = u.
Proof.
  induction u as [|x u IH]; [reflexivity|].
  change (String x u +:+ String c EmptyString)
    with (String x (u +:+ String c EmptyString)).
  simpl. rewrite IH. destruct u; reflexivity.
Qed.

End StringFacts.

Module NormalizeFacts.
Import JS StringFacts.

Lemma normalize_strips (u : string) : EpgRev.normalizeProxyUrl (u +:+ "/") = u.
Proof.
  unfold EpgRev.normalizeProxyUrl. rewrite endsWith_app. apply slice_snoc.
Qed.

Lemma normalize_keeps (u : string) :
  endsWith u "/" = false -> EpgRev.normalizeProxyUrl u = u.
Proof. unfold EpgRev.normalizeProxyUrl. by intros ->. Qed.

Lemma normalize_same_in_both (u : string) :
  VavooRev.normalizeProxyUrl u = EpgRev.normalizeProxyUrl u.
Proof. reflexivity. Qed.

Lemma normalize_idempotent_unless_double_slash (u : string) :
  endsWith u "//" = false ->
  EpgRev.normalizeProxyUrl (EpgRev.normalizeProxyUrl u)
  = EpgRev.normalizeProxyUrl u.
Proof.
  intros Hd. destruct (endsWith u "/") eqn:E.
  - apply endsWith_slash_inv in E as [v ->].
    rewrite normalize_strips.
    apply normalize_keeps.
    destruct (endsWith v "/") eqn:Ev; [|reflexivity].
    apply endsWith_slash_inv in Ev as [v' ->].
    rewrite append_assoc in Hd. simpl in Hd.
    rewrite endsWith_app in Hd. discriminate.
  - rewrite (normalize_keeps u E). by apply normalize_keeps.
Qed.

End NormalizeFacts.

(* ================================================================== *)
(** * Season and episode of a content id *)
(* ================================================================== *)

Module ContentIdFacts.
Import JS Providers Properties.

Lemma movie_id_starts_with_t (id : string) :
  startsWith id "tt" || startsWith id "tmdb:" = true ->
  exists r, id = String "t" r.
Proof.
  destruct id as [|a id]; [discriminate|].
  simpl. destruct (Ascii.eqb_spec "t" a) as [<-|]; [eauto | simpl; discriminate].
Qed.

(** Both handlers hand the triple read by [parseSeasonEpisode] to the anime
    providers. *)
Lemma requests_carry_season_episode (id : string) :
  movieOrSeriesId id = true ->
  let '(season, episode, isMovie) := parseSeasonEpisode id in
  VavooRev.imdbOrTmdbRequest id = EpgRev.animeRequestFor id /\
  (VavooRev.imdbOrTmdbRequest id = Some (ImdbRequest id season episode isMovie)
   \/ VavooRev.imdbOrTmdbRequest id
      = Some (TmdbRequest (replace id "tmdb:" EmptyString)
                season episode isMovie)).
Proof.
  unfold movieOrSeriesId, VavooRev.imdbOrTmdbRequest, EpgRev.animeRequestFor.
  intros H. rewrite H.
  destruct (parseSeasonEpisode id) as [[season episode] isMovie].
  destruct (movie_id_starts_with_t id H) as [r ->].
  change (startsWith (String "t" r) "kitsu:") with false.
  change (startsWith (String "t" r) "mal:") with false.
  destruct (startsWith (String "t" r) "tt"); simpl in *; [auto|].
  rewrite H. auto.
Qed.

(** C7. An IMDB or TMDB id is cut at its colons: one segment is a movie,
    without season and episode; two segments are the id and an episode,
    without season; three segments are the id, a season and an episode. *)
Theorem season_episode_by_segments (id : string) :
  (length (split ":" id) = 1 ->
   parseSeasonEpisode id = (None, None, true)) /\
  (length (split ":" id) = 2 ->
   exists e, split ":" id !! 1 = Some e /\
     parseSeasonEpisode id = (None, Some (parseInt e), false)) /\
  (length (split ":" id) = 3 ->
   exists s e, split ":" id !! 1 = Some s /\ split ":" id !! 2 = Some e /\
     parseSeasonEpisode id = (Some (parseInt s), Some (parseInt e), false)).
Proof.
  unfold parseSeasonEpisode.
  destruct (split ":" id) as [|p0 [|p1 [|p2 [|p3 l]]]]; simpl;
    repeat split; intros H; try discriminate H; eauto.
Qed.

Lemma season_episode_by_segments_witness :
  parseSeasonEpisode "tt0111161" = (None, None, true) /\
  (exists e, split ":" "tt0944947:5" !! 1 = Some e /\
     parseSeasonEpisode "tt0944947:5" = (None, Some (parseInt e), false)) /\
  (exists s e, split ":" "tt0944947:1:2" !! 1 = Some s /\
     split ":" "tt0944947:1:2" !! 2 = Some e /\
     parseSeasonEpisode "tt0944947:1:2"
     = (Some (parseInt s), Some (parseInt e), false)).
Proof.
  split; [|split].
  - apply (proj1 (season_episode_by_segments "tt0111161")). reflexivity.
  - apply (proj1 (proj2 (season_episode_by_segments "tt0944947:5"))).
    reflexivity.
  - apply (proj2 (proj2 (season_episode_by_segments "tt0944947:1:2"))).
    reflexivity.
Defined.

(** C8, as stated, fails: an id of two segments has an episode and no
    season. *)
Lemma season_without_episode_counterexample :
  ~ (forall id, bothOrNeither (parseSeasonEpisode id)).
Proof.
  intros H. specialize (H "tt0944947:5").
  destruct H as [_ H]. destruct H as [x Hx]; [by eexists|]. discriminate Hx.
Qed.

(** C8, amended. Whenever the season is there the episode is there too; the
    season is there exactly for three segments, and the episode alone
    exactly for two. *)
Theorem season_implies_episode (id : string) :
  let '(season, episode, _) := parseSeasonEpisode id in
  (is_Some season -> is_Some episode) /\
  (is_Some season <-> length (split ":" id) = 3) /\
  (season = None /\ is_Some episode <-> length (split ":" id) = 2).
Proof.
  unfold parseSeasonEpisode.
  destruct (split ":" id) as [|p0 [|p1 [|p2 [|p3 l]]]]; simpl;
    repeat split;
    try (intros [x Hx]; discriminate Hx);
    try (intros [_ [x Hx]]; discriminate Hx);
    try (intros [Hx _]; discriminate Hx);
    try discriminate; eauto.
Qed.

Lemma season_implies_episode_witness :
  is_Some (snd (fst (parseSeasonEpisode "tt0944947:1:2"))).
Proof.
  pose proof (season_implies_episode "tt0944947:1:2") as H.
  simpl in H. destruct H as [H _]. apply H. by eexists.
Defined.

End ContentIdFacts.

(* ================================================================== *)
(** * Live-TV stream assembly *)
(* ================================================================== *)

Module TvFacts.
Import JS Providers Properties Notions Scenarios Examples.
Import StringFacts NormalizeFacts.






(** The proxy settings read by the live-TV branch do not see one trailing
    slash of a base URL. *)
Lemma proxy_settings_trailing_slash (config : gmap string string)
    (key u : string) :
  key ∈ ["mfpProxyUrl"; "mediaFlowProxyUrl"; "tvProxyUrl"] ->
  u <> EmptyString ->
  endsWith u "/" = false ->
  EpgRev.mfpUrlOf (<[key := u +:+ "/"]> config)
  = EpgRev.mfpUrlOf (<[key := u]> config) /\
  EpgRev.mfpPswOf (<[key := u +:+ "/"]> config)
  = EpgRev.mfpPswOf (<[key := u]> config) /\
  EpgRev.tvProxyUrlOf (<[key := u +:+ "/"]> config)
  = EpgRev.tvProxyUrlOf (<[key := u]> config).
Proof.
  intros Hkey Hu Hslash.
  assert (Ht : truthy (Some u) = true) by (destruct u; done).
  assert (Ht' : truthy (Some (u +:+ "/")) = true) by (destruct u; done).
  unfold EpgRev.mfpUrlOf, EpgRev.mfpPswOf, EpgRev.tvProxyUrlOf.
  rewrite !elem_of_cons, elem_of_nil in Hkey.
  destruct Hkey as [->|[->|[->|[]]]];
    rewrite ?lookup_insert_eq, ?lookup_insert_ne by done;
    rewrite ?Ht, ?Ht'; simpl or_empty;
    rewrite ?normalize_strips, ?(normalize_keeps u Hslash); done.
Qed.

(** The live-TV answer is the same with and without one trailing slash on
    a proxy base URL. *)
Lemma tv_answer_trailing_slash (w : World) (config : gmap string string)
    (tvChannels : list Channel) (id key u : string) :
  key ∈ ["mfpProxyUrl"; "mediaFlowProxyUrl"; "tvProxyUrl"] ->
  u <> EmptyString ->
  endsWith u "/" = false ->
  EpgRev.defineStreamHandler w (<[key := u +:+ "/"]> config) tvChannels id "tv"
  = EpgRev.defineStreamHandler w (<[key := u]> config) tvChannels id "tv".
Proof.
  intros Hkey Hu Hslash.
  destruct (proxy_settings_trailing_slash config key u Hkey Hu Hslash)
    as (H1 & H2 & H3).
  unfold EpgRev.defineStreamHandler.
  change (String.eqb "tv" "tv") with true. cbv iota.
  unfold EpgRev.tvStreams. rewrite H1, H2, H3. reflexivity.
Qed.

(** C10, as stated, fails: normalizing twice takes two slashes away. *)
Lemma normalize_not_idempotent_counterexample :
  ~ (forall u, EpgRev.normalizeProxyUrl (EpgRev.normalizeProxyUrl u)
               = EpgRev.normalizeProxyUrl u).
Proof. intros H. specialize (H "http://mfp//"). discriminate H. Qed.

(** C10, amended. [normalizeProxyUrl] takes exactly one trailing slash
    away and leaves a URL without one as it is; it is idempotent on every
    URL that does not end with two slashes; and for a base URL that is not
    empty and has no trailing slash, the live-TV answer is the same whether
    the setting holds it with or without one more slash. *)
Theorem normalize_one_trailing_slash :
  (forall u, EpgRev.normalizeProxyUrl (u +:+ "/") = u) /\
  (forall u, endsWith u "/" = false -> EpgRev.normalizeProxyUrl u = u) /\
  (forall u, endsWith u "//" = false ->
     EpgRev.normalizeProxyUrl (EpgRev.normalizeProxyUrl u)
     = EpgRev.normalizeProxyUrl u) /\
  (forall w config tvChannels id key u,
     key ∈ ["mfpProxyUrl"; "mediaFlowProxyUrl"; "tvProxyUrl"] ->
     u <> EmptyString ->
     endsWith u "/" = false ->
     EpgRev.defineStreamHandler w (<[key := u +:+ "/"]> config)
       tvChannels id "tv"
     = EpgRev.defineStreamHandler w (<[key := u]> config) tvChannels id "tv").
Proof.
  split; [exact normalize_strips|].
  split; [exact normalize_keeps|].
  split; [exact normalize_idempotent_unless_double_slash|].
  exact tv_answer_trailing_slash.
Qed.

Lemma normalize_one_trailing_slash_witness :
  EpgRev.normalizeProxyUrl "http://mfp" = "http://mfp" /\
  EpgRev.normalizeProxyUrl (EpgRev.normalizeProxyUrl "http://mfp/")
  = EpgRev.normalizeProxyUrl "http://mfp/" /\
  EpgRev.defineStreamHandler quietWorld
    (<["tvProxyUrl" := "http://tv" +:+ "/"]> ∅) [rai1] "tv:rai1" "tv"
  = EpgRev.defineStreamHandler quietWorld
      (<["tvProxyUrl" := "http://tv"]> ∅) [rai1] "tv:rai1" "tv".
Proof.
  destruct normalize_one_trailing_slash as (_ & Hkeep & Hidem & Htv).
  split; [apply Hkeep; reflexivity|].
  split; [apply Hidem; reflexivity|].
  apply Htv; [| discriminate | reflexivity].
  rewrite !elem_of_cons. auto.
Defined.

End TvFacts.

(* ================================================================== *)
(** * Provider orchestration *)
(* ================================================================== *)

Module OrchestratorFacts.
Import JS Providers Properties Scenarios ContentIdFacts.

(** A provider asked through [askProvider] never makes the handler throw:
    the list comes back, longer or as it was, and the call is recorded. *)
Lemma askProvider_returns (w : World) (p : provider) (cfg : AnimeConfig)
    (r : option request) (allStreams : list Stream) (log : list call) :
  exists more,
    askProvider w p cfg r allStreams log
    = (Returns (allStreams ++ more)%list,
       (log ++ match r with
               | Some q => [AnimeCall p q]
               | None => []
               end)%list).
Proof.
  unfold askProvider, tryM, bindM, invoke, ret.
  destruct r as [q|].
  - destruct (animeRequest w p cfg q) as [result|e].
    + by exists (taggedStreams (labelOf p) result).
    + exists []. by rewrite app_nil_r.
  - exists []. by rewrite !app_nil_r.
Qed.

(** A provider that throws adds nothing and the error stops there. *)
Lemma secondary_failure_isolated (w : World) (p : provider)
    (cfg : AnimeConfig) (q : request) (allStreams : list Stream)
    (log : list call) (e : exn) :
  animeRequest w p cfg q = Throws e ->
  askProvider w p cfg (Some q) allStreams log
  = (Returns allStreams, (log ++ [AnimeCall p q])%list).
Proof.
  intros H. unfold askProvider, tryM, bindM, invoke, ret. by rewrite H.
Qed.

Lemma secondary_failure_isolated_witness :
  askProvider unityDownWorld AnimeUnity
    (VavooRev.animeUnityConfig unityDownWorld animeOn true false)
    (Some (KitsuRequest "kitsu:1")) [] []
  = (Returns [], [AnimeCall AnimeUnity (KitsuRequest "kitsu:1")]).
Proof.
  apply (secondary_failure_isolated unityDownWorld AnimeUnity _
           (KitsuRequest "kitsu:1") [] []
           (Rejected "animeunity unreachable")).
  reflexivity.
Defined.

Lemma movie_id_other_prefixes (id : string) :
  movieOrSeriesId id = true ->
  startsWith id "kitsu:" = false /\ startsWith id "mal:" = false
  /\ startsWith id "tv:" = false.
Proof.
  unfold movieOrSeriesId.
  destruct id as [|a [|b r]]; try discriminate; simpl;
    destruct (Ascii.eqb_spec "t" a) as [<-|]; try (simpl; discriminate).
  intros H.
  change (Ascii.eqb "k" "t") with false.
  change (Ascii.eqb "m" "t") with false. change (Ascii.eqb "t" "t") with true.
  simpl in *. split; [done|]. split; [done|].
  destruct (Ascii.eqb_spec "v" b) as [<-|]; [|done].
  exfalso. revert H.
  change (Ascii.eqb "t" "v") with false. change (Ascii.eqb "m" "v") with false.
  simpl. discriminate.
Qed.

(** The block of the EPG revision that asks the anime providers returns,
    having called those that are enabled, AnimeUnity first. *)
Lemma askAnimeProviders_returns (w : World) (config : gmap string string)
    (unity saturn : bool) (id : string) (log : list call) :
  movieOrSeriesId id = true ->
  exists secondary q,
    EpgRev.animeRequestFor id = Some q /\
    EpgRev.askAnimeProviders w config unity saturn id log
    = (Returns secondary, (log ++ animeCalls unity saturn q)%list).
Proof.
  intros Hid. unfold EpgRev.askAnimeProviders.
  assert (Hreq : exists q, EpgRev.animeRequestFor id = Some q).
  { pose proof (requests_carry_season_episode id Hid) as H.
    destruct (parseSeasonEpisode id) as [[s e] m].
    destruct H as [<- [H|H]]; eauto. }
  destruct Hreq as [q Hq]. rewrite Hq.
  unfold movieOrSeriesId in Hid.
  replace (startsWith id "kitsu:" || startsWith id "mal:"
           || startsWith id "tt" || startsWith id "tmdb:") with true
    by (rewrite <- !orb_assoc, Hid; by rewrite !orb_true_r).
  unfold bindM, ret, animeCalls.
  destruct unity, saturn; simpl.
  - destruct (askProvider_returns w AnimeUnity
                (EpgRev.animeConfig w config true (isOn config "bothLinks"))
                (Some q) [] log) as (m1 & ->).
    destruct (askProvider_returns w AnimeSaturn
                (EpgRev.animeConfig w config true (isOn config "bothLinks"))
                (Some q) ([] ++ m1) (log ++ [AnimeCall AnimeUnity q]))
      as (m2 & ->).
    exists (([] ++ m1) ++ m2)%list, q. by rewrite <- (app_assoc log).
  - destruct (askProvider_returns w AnimeUnity
                (EpgRev.animeConfig w config true (isOn config "bothLinks"))
                (Some q) [] log) as (m1 & ->).
    by exists ([] ++ m1)%list, q.
  - destruct (askProvider_returns w AnimeSaturn
                (EpgRev.animeConfig w config true (isOn config "bothLinks"))
                (Some q) [] log) as (m2 & ->).
    by exists ([] ++ m2)%list, q.
  - exists [], q. by rewrite app_nil_r.
Qed.

(** What asking a provider gives: its streams after the ones collected,
    and the call. *)
Lemma askProvider_answer (w : World) (p : provider) (cfg : AnimeConfig)
    (q : request) (allStreams : list Stream) (log : list call) :
  askProvider w p cfg (Some q) allStreams log
  = (Returns (allStreams ++ answerOf w p cfg q)%list,
     (log ++ [AnimeCall p q])%list).
Proof.
  unfold askProvider, tryM, bindM, invoke, ret, answerOf.
  destruct (animeRequest w p cfg q); [done|].
  by rewrite app_nil_r.
Qed.




(** In the cache revision VixSrc is asked first and its candidates, when
    there are any, are the answer. *)
Lemma vavoo_primary_first : primaryFirst VavooRev.defineStreamHandler.
Proof.
  intros w config tvChannels id type res Hid Htype Hvix Hsome.
  destruct (movie_id_other_prefixes id Hid) as (Hk & Hm & _).
  unfold handle, VavooRev.defineStreamHandler.
  destruct (String.eqb_spec type "tv") as [->|_]; [done|].
  rewrite Hk, Hm. simpl.
  unfold movieOrSeriesId in Hid. rewrite Hid.
  unfold bindM, invoke, ret. rewrite Hvix.
  destruct (vixStreamsOf res); [done|]. reflexivity.
Qed.

(** In the EPG revision the enabled anime providers are asked before
    VixSrc, and the candidates of VixSrc come after theirs. *)
Lemma epg_secondary_first (w : World) (config : gmap string string)
    (tvChannels : list Channel) (id type : string)
    (res : option (list VixCloudStreamInfo)) :
  movieOrSeriesId id = true ->
  type <> "tv" ->
  (forall cfg, getStreamContent w id type cfg = Returns res) ->
  exists secondary q,
    EpgRev.animeRequestFor id = Some q /\
    handle (EpgRev.defineStreamHandler w config tvChannels id type)
    = (Returns (secondary ++ vixStreamsOf res)%list,
       (animeCalls
          (isOn config "animeunityEnabled" || envFlag w "ANIMEUNITY_ENABLED")
          (isOn config "animesaturnEnabled" || envFlag w "ANIMESATURN_ENABLED")
          q ++ [VixSrcCall id type])%list).
Proof.
  intros Hid Htype Hvix.
  destruct (movie_id_other_prefixes id Hid) as (Hk & Hm & Htv).
  destruct (askAnimeProviders_returns w config
              (isOn config "animeunityEnabled"
               || envFlag w "ANIMEUNITY_ENABLED")
              (isOn config "animesaturnEnabled"
               || envFlag w "ANIMESATURN_ENABLED") id [] Hid)
    as (secondary & q & Hq & Hask).
  exists secondary, q. split; [exact Hq|].
  unfold handle, EpgRev.defineStreamHandler, tryM.
  destruct (String.eqb_spec type "tv") as [->|_]; [done|].
  unfold bindM. rewrite Hask, Hk, Hm, Htv. simpl.
  unfold invoke, ret. rewrite Hvix. reflexivity.
Qed.




(** Two providers asked one after the other return. *)
Lemma askBoth_returns (w : World) (unity saturn : bool)
    (unityConfig saturnConfig : AnimeConfig) (r : option request)
    (log : list call) :
  exists l calls,
    (let! allStreams :=
       (if unity then askProvider w AnimeUnity unityConfig r [] else ret []) in
     let! allStreams :=
       (if saturn then askProvider w AnimeSaturn saturnConfig r allStreams
        else ret allStreams) in
     ret allStreams) log
    = (Returns l, calls).
Proof.
  unfold bindM, ret.
  destruct unity.
  - destruct (askProvider_returns w AnimeUnity unityConfig r [] log)
      as (m1 & ->).
    destruct saturn; [|eauto].
    destruct (askProvider_returns w AnimeSaturn saturnConfig r ([] ++ m1)
                (log ++ match r with
                        | Some q => [AnimeCall AnimeUnity q]
                        | None => []
                        end)) as (m2 & ->).
    eauto.
  - destruct saturn; [|eauto].
    destruct (askProvider_returns w AnimeSaturn saturnConfig r [] log)
      as (m2 & ->).
    eauto.
Qed.

(** In the cache revision, as long as the call of VixSrc returns, no
    failure of an anime provider leaves the handler. *)
Lemma vavoo_handler_returns (w : World) (config : gmap string string)
    (tvChannels : list Channel) (id type : string) :
  type <> "tv" ->
  (forall cfg, exists res, getStreamContent w id type cfg = Returns res) ->
  exists l calls,
    handle (VavooRev.defineStreamHandler w config tvChannels id type)
    = (Returns l, calls).
Proof.
  intros Htype Hvix. unfold handle, VavooRev.defineStreamHandler.
  destruct (String.eqb_spec type "tv") as [->|_]; [done|].
  destruct ((startsWith id "kitsu:" || startsWith id "mal:")
            && (isOn config "animeunityEnabled"
                || envFlag w "ANIMEUNITY_ENABLED"
                || (isOn config "animesaturnEnabled"
                    || envFlag w "ANIMESATURN_ENABLED"))).
  - apply askBoth_returns.
  - destruct (startsWith id "tt" || startsWith id "tmdb:");
      [|unfold ret; eauto].
    unfold bindM at 1. unfold invoke at 1.
    destruct (Hvix (VavooRev.extractorConfig w config
                      (isOn config "bothLinks"))) as [res ->].
    destruct (negb (Nat.eqb (length (vixStreamsOf res)) 0));
      [unfold ret; eauto|].
    destruct (isOn config "animeunityEnabled"
              || envFlag w "ANIMEUNITY_ENABLED"
              || (isOn config "animesaturnEnabled"
                  || envFlag w "ANIMESATURN_ENABLED"));
      [|unfold ret; eauto].
    apply askBoth_returns.
Qed.

(** In the EPG revision nothing leaves the handler. *)
Lemma epg_handler_returns (w : World) (config : gmap string string)
    (tvChannels : list Channel) (id type : string) :
  exists l calls,
    handle (EpgRev.defineStreamHandler w config tvChannels id type)
    = (Returns l, calls).
Proof.
  unfold handle, EpgRev.defineStreamHandler, tryM.
  match goal with
  | |- context [match ?m with (_, _) => _ end] =>
      destruct m as [[l|e] calls]
  end; unfold ret; eauto.
Qed.

(** C2 at the failing input: the call of VixSrc rejects for an IMDB id.
    In the cache revision the rejection leaves the handler; in the EPG
    revision it is caught around the whole body and the candidates already
    collected from the anime providers are dropped. *)
Theorem primary_failure_not_isolated :
  handle (VavooRev.defineStreamHandler vixDownWorld animeOn []
            "tt0111161" "movie")
  = (Throws (Rejected "vixsrc unreachable"),
     [VixSrcCall "tt0111161" "movie"]) /\
  handle (EpgRev.defineStreamHandler vixDownWorld animeOn []
            "tt0111161" "movie")
  = (Returns [],
     [AnimeCall AnimeUnity (ImdbRequest "tt0111161" None None true);
      AnimeCall AnimeSaturn (ImdbRequest "tt0111161" None None true);
      VixSrcCall "tt0111161" "movie"]).
Proof. split; vm_compute; reflexivity. Qed.

End OrchestratorFacts.

(* ================================================================== *)
(** * The Vavoo link cache *)
(* ================================================================== *)

Module CacheFacts.
Import JS VavooRev Scenarios.

(** ** A failed update *)

(** What the continuation of an update does to the cache it finds. *)
Lemma resume_spec (result : outcome string) (now : Z) (c : VavooCache) :
  (exists stdout updatedLinks,
     result = Returns stdout /\ stdout <> EmptyString /\
     parseChannels stdout = Returns updatedLinks /\
     updateVavooCache_resume result now c
     = (true, {| timestamp := now; links := updatedLinks;
                 updating := false |}))
  \/ (updateVavooCache_resume result now c = (false, setUpdating false c)
      /\ forall stdout, result = Returns stdout ->
           stdout = EmptyString \/ exists e, parseChannels stdout = Throws e).
Proof.
  unfold updateVavooCache_resume.
  destruct result as [stdout|e].
  - destruct stdout as [|ch r]; simpl nonEmpty; cbv iota.
    + right. split; [reflexivity|]. intros ? [= <-]. by left.
    + destruct (parseChannels (String ch r)) as [updatedLinks|e] eqn:E.
      * left. exists (String ch r), updatedLinks. by repeat split.
      * right. split; [reflexivity|]. intros ? [= <-]. right. by exists e.
  - right. split; [reflexivity|]. intros ? [=].
Qed.

(** C6. When [updateVavooCache] fails it answers [false] and the link map
    and the time stamp are what they were before the call; it fails when
    the resolver process rejects (error, time-out), when its output is empty
    and when its output is not JSON.  When it answers [true] the link map is
    the one made from the output alone and the time stamp is the current
    time. *)
Theorem failed_update_keeps_cache (result : outcome string) (now : Z)
    (c : VavooCache) :
  (fst (updateVavooCache result now c) = false ->
   links (snd (updateVavooCache result now c)) = links c /\
   timestamp (snd (updateVavooCache result now c)) = timestamp c) /\
  ((exists e, result = Throws e) \/ result = Returns EmptyString
   \/ (exists stdout e, result = Returns stdout /\
                        JSON_parse stdout = Throws e) ->
   fst (updateVavooCache result now c) = false) /\
  (fst (updateVavooCache result now c) = true ->
   exists stdout updatedLinks,
     result = Returns stdout /\
     parseChannels stdout = Returns updatedLinks /\
     links (snd (updateVavooCache result now c)) = updatedLinks /\
     timestamp (snd (updateVavooCache result now c)) = now).
Proof.
  unfold updateVavooCache, updateVavooCache_enter.
  destruct (updating c) eqn:Hu.
  - simpl. split; [auto|]. split; [auto|]. discriminate.
  - destruct (resume_spec result now (setUpdating true c))
      as [(stdout & l & -> & Hne & Hparse & ->)|[-> Hfail]]; simpl.
    + split; [discriminate|]. split; [|eauto 6].
      intros [[e [=]]|[[= ->]|(stdout' & e & [= <-] & He)]]; [done|].
      unfold parseChannels in Hparse. rewrite He in Hparse. discriminate.
    + split; [auto|]. split; [auto|]. discriminate.
Qed.

Lemma failed_update_keeps_cache_witness :
  links (snd (updateVavooCache (Returns "<html>busy</html>") 1700000600000
                warmCache)) = links warmCache /\
  timestamp (snd (updateVavooCache (Returns "<html>busy</html>")
                    1700000600000 warmCache)) = timestamp warmCache.
Proof.
  apply (proj1 (failed_update_keeps_cache (Returns "<html>busy</html>")
                  1700000600000 warmCache)).
  reflexivity.
Defined.

(** ** Single flight *)

Lemma callUpdate_flagMatches (s : System) :
  flagMatches s -> flagMatches (snd (callUpdate s)).
Proof.
  unfold flagMatches, callUpdate, updateVavooCache_enter.
  intros [[Hu Hr]|[Hu Hr]]; rewrite Hu; simpl; auto.
Qed.

Lemma resume_clears_flag (result : outcome string) (now : Z)
    (c : VavooCache) :
  updating (snd (updateVavooCache_resume result now c)) = false.
Proof.
  destruct (resume_spec result now c)
    as [(stdout & l & _ & _ & _ & ->)|[-> _]]; reflexivity.
Qed.

Lemma lookupCallback_flag (channelName : string) (result : outcome string)
    (c : VavooCache) :
  updating (snd (lookupCallback channelName result c)) = updating c.
Proof.
  unfold lookupCallback. destruct result as [stdout|e]; [|reflexivity].
  destruct (trim stdout); reflexivity.
Qed.

Lemma resolve_flagMatches (channelName : string) (now : Z) (s : System) :
  flagMatches s ->
  flagMatches (snd (resolveVavooChannelByName channelName now s)).
Proof.
  intros Hinv. unfold resolveVavooChannelByName.
  assert (H1 : forall b : bool,
             flagMatches (if b then snd (callUpdate s) else s))
    by (intros []; [by apply callUpdate_flagMatches | done]).
  specialize (H1 ((CACHE_MAX_AGE <? now - timestamp (cache s))%Z
                  || Nat.eqb (length (links (cache s))) 0)).
  revert H1.
  generalize (if (CACHE_MAX_AGE <? now - timestamp (cache s))%Z
                 || Nat.eqb (length (links (cache s))) 0
              then snd (callUpdate s) else s).
  intros s1 H1.
  destruct (if nonEmpty channelName
            then mapGet (links (cache s1)) (JStr channelName) else None);
    simpl; [done|].
  destruct (0 <? timestamp (cache s1))%Z; simpl; [|done].
  destruct (negb (updating (cache s1)));
    [by apply callUpdate_flagMatches | done].
Qed.

Lemma step_flagMatches (s s' : System) :
  Step s s' -> flagMatches s -> flagMatches s'.
Proof.
  intros Hstep Hinv. destruct Hstep as [s|s result now Hpos|s name now|s name result Hin].
  - by apply callUpdate_flagMatches.
  - unfold flagMatches in *. simpl. rewrite resume_clears_flag.
    right. split; [reflexivity|].
    destruct Hinv as [[_ ->]|[_ Hr]]; [reflexivity|]. rewrite Hr in Hpos. lia.
  - apply resolve_flagMatches, Hinv.
  - unfold flagMatches in *. simpl. by rewrite lookupCallback_flag.
Qed.

Lemma reachable_flagMatches (s : System) : Reachable s -> flagMatches s.
Proof.
  induction 1 as [s (Hu & Hr & _)|s s' _ IH Hstep].
  - right. auto.
  - by apply (step_flagMatches s s').
Qed.

(** C5. In every state the cache can reach, at most one update is under
    way, and the flag is set exactly then; a call of [updateVavooCache] made
    meanwhile returns [false] at once and leaves everything as it is: the
    cache, and the number of resolver processes started. *)
Theorem single_flight (s : System) :
  Reachable s ->
  refreshing s <= 1
  /\ (updating (cache s) = true <-> refreshing s = 1)
  /\ (refreshing s = 1 -> callUpdate s = (Some false, s)).
Proof.
  intros Hreach. apply reachable_flagMatches in Hreach.
  destruct Hreach as [[Hu Hr]|[Hu Hr]]; rewrite Hr.
  - split; [lia|]. split; [done|]. intros _.
    unfold callUpdate, updateVavooCache_enter. by rewrite Hu.
  - split; [lia|]. split; [|done]. rewrite Hu. split; discriminate.
Qed.

Lemma single_flight_witness :
  callUpdate (snd (callUpdate coldSystem))
  = (Some false, snd (callUpdate coldSystem)).
Proof.
  apply (single_flight (snd (callUpdate coldSystem))).
  - apply (ReachStep coldSystem).
    + apply ReachInitial. repeat split.
    + apply StepCallUpdate.
  - reflexivity.
Defined.

End CacheFacts.

(* ================================================================== *)
(** * Decoding of the configuration *)
(* ================================================================== *)

Module ConfigFacts.
Import JS Providers Properties.

Lemma try_catch_returns {A} (m : outcome A) (h : exn -> outcome A) :
  (forall e, exists a, h e = Returns a) ->
  exists a, try_catch m h = Returns a.
Proof. intros Hh. destruct m as [a|e]; simpl; eauto. Qed.

(** The three rounds of the padding loop are enough. *)
Lemma padBase64_length (s : string) :
  String.length (VavooRev.padBase64 s) mod 4 = 0.
Proof.
  assert (Hlen : forall t, String.length (t +:+ "=") = S (String.length t)).
  { induction t as [|c t IH]; simpl; [reflexivity | by rewrite IH]. }
  unfold VavooRev.padBase64, VavooRev.padLoop.
  destruct (Nat.eqb_spec (String.length s mod 4) 0) as [E|E]; [exact E|].
  destruct (Nat.eqb_spec (String.length (s +:+ "=") mod 4) 0) as [E1|E1];
    [exact E1|].
  destruct (Nat.eqb_spec (String.length ((s +:+ "=") +:+ "=") mod 4) 0)
    as [E2|E2]; [exact E2|].
  rewrite !Hlen in *.
  clear Hlen. revert E E1 E2. generalize (String.length s). intros n E E1 E2.
  replace (S (S (S n))) with (n + 3) by lia.
  replace (S (S n)) with (n + 2) in E2 by lia.
  replace (S n) with (n + 1) in E1 by lia.
  rewrite <- Nat.Div0.add_mod_idemp_l in E1, E2 |- *.
  pose proof (Nat.mod_upper_bound n 4 ltac:(lia)) as Hb.
  destruct (n mod 4) as [|[|[|[|m]]]]; [| | | |lia];
    vm_compute in E, E1, E2 |- *; congruence.
Qed.

(** The Base64 step never throws. *)
Lemma base64Json_returns (decodedArgs : string) :
  exists found, VavooRev.base64Json decodedArgs = Returns found.
Proof.
  unfold VavooRev.base64Json.
  destruct (startsWith decodedArgs "eyJ" || VavooRev.looksBase64 decodedArgs);
    [|eauto].
  apply try_catch_returns. eauto.
Qed.

Lemma parseConfigString_returns (args : string) :
  exists v, VavooRev.parseConfigString args = Returns v.
Proof.
  unfold VavooRev.parseConfigString.
  destruct (VavooRev.directJson args); [eauto|].
  destruct (VavooRev.urlDecodedJson args) as [[parsed|] decodedArgs]; [eauto|].
  destruct (base64Json_returns decodedArgs) as [[parsed|] ->]; simpl; eauto.
Qed.

(** What [parseConfigFromArgs] returns for a string is the value of the
    first step that has one, and otherwise the empty configuration. *)
Lemma parseConfigString_cascade (args : string) (v : json) :
  VavooRev.parseConfigString args = Returns v ->
  VavooRev.directJson args = Some v
  \/ fst (VavooRev.urlDecodedJson args) = Some v
  \/ VavooRev.base64Json (snd (VavooRev.urlDecodedJson args))
     = Returns (Some v)
  \/ v = emptyObject.
Proof.
  unfold VavooRev.parseConfigString.
  destruct (VavooRev.directJson args); [intros [= ->]; auto|].
  destruct (VavooRev.urlDecodedJson args) as [[parsed|] decodedArgs];
    [intros [= ->]; auto|].
  simpl. destruct (VavooRev.base64Json decodedArgs) as [[parsed|]|e]; simpl;
    intros [= ->]; auto.
Qed.

(** C3. [parseConfigFromArgs] returns for every argument, and so for every
    string; when every step of the decoding fails it returns the empty
    configuration. *)
Theorem parseConfigFromArgs_total (args : option json) :
  (exists v, VavooRev.parseConfigFromArgs args = Returns v) /\
  (forall s, args = Some (JStr s) -> everyStageFails s ->
     VavooRev.parseConfigFromArgs args = Returns emptyObject).
Proof.
  unfold VavooRev.parseConfigFromArgs. split.
  - destruct (negb (jsTruthy args) || VavooRev.isString args EmptyString
              || VavooRev.isString args "undefined"
              || VavooRev.isString args "null"); [eauto|].
    destruct args as [[| | |s| |]|]; eauto using parseConfigString_returns.
  - intros s -> (H1 & H2 & H3).
    destruct (negb (jsTruthy (Some (JStr s)))
              || VavooRev.isString (Some (JStr s)) EmptyString
              || VavooRev.isString (Some (JStr s)) "undefined"
              || VavooRev.isString (Some (JStr s)) "null"); [reflexivity|].
    unfold VavooRev.parseConfigString. rewrite H1.
    destruct (VavooRev.urlDecodedJson s) as [o decodedArgs]. simpl in *.
    subst o. by rewrite H3.
Qed.

Lemma parseConfigFromArgs_total_witness :
  VavooRev.parseConfigFromArgs (Some (JStr "%%%not-a-config%%%"))
  = Returns emptyObject.
Proof.
  apply (proj2 (parseConfigFromArgs_total
                  (Some (JStr "%%%not-a-config%%%")))
           "%%%not-a-config%%%"); [reflexivity|].
  repeat split; vm_compute; reflexivity.
Defined.

(** The decoder of the EPG revision returns for every argument as well. *)
Lemma epg_parseConfigFromArgs_total (args : option json) :
  exists v, EpgRev.parseConfigFromArgs args = Returns v.
Proof.
  unfold EpgRev.parseConfigFromArgs.
  destruct args as [[| | |s| |]|]; eauto.
  apply try_catch_returns. eauto.
Qed.

End ConfigFacts.

(* ================================================================== *)
(** * JSON text read back *)
(* ================================================================== *)

Module JsonFacts.
Import JS Properties StringFacts.

(** ** String literals *)

Ltac each_char c :=
  destruct c as [[] [] [] [] [] [] [] []].

Lemma lex_quoteChar (c : ascii) (items : list strItem) (rest : string) :
  lex (LexStr items) (quoteChar c +:+ rest)
  = lex (LexStr (items ++ [itemOf c])) rest.
Proof. each_char c; reflexivity. Qed.

Lemma itemsToString_itemOf (c : ascii) (l : list strItem) :
  itemsToString (itemOf c :: l) = String c (itemsToString l).
Proof. each_char c; try reflexivity; destruct l as [|[] l]; reflexivity. Qed.

Lemma itemsToString_map_itemOf (s : string) :
  itemsToString (map itemOf (list_ascii_of_string s)) = s.
Proof.
  induction s as [|c s IH]; [reflexivity|].
  simpl map. rewrite itemsToString_itemOf. by rewrite IH.
Qed.

Lemma lex_quoteBody (s : string) (items : list strItem) (tail : string) :
  lex (LexStr items) (quoteBody s +:+ String "034" tail)
  = cons (TScalar (JStr (itemsToString
                           (items ++ map itemOf (list_ascii_of_string s)))))
      <$> lex LexNormal tail.
Proof.
  revert items. induction s as [|c s IH]; intros items.
  - simpl. by rewrite app_nil_r.
  - simpl quoteBody. rewrite append_assoc, lex_quoteChar, IH.
    simpl map. by rewrite <- app_assoc.
Qed.

Lemma lex_quote (s tail : string) :
  lex LexNormal (quote s +:+ tail)
  = cons (TScalar (JStr s)) <$> lex LexNormal tail.
Proof.
  unfold quote. simpl. rewrite append_assoc. simpl.
  change (lex LexNormal (String "034" (quoteBody s +:+ String "034" tail)))
    with (lex (LexStr []) (quoteBody s +:+ String "034" tail)).
  rewrite lex_quoteBody. simpl app. by rewrite itemsToString_map_itemOf.
Qed.

(** ** Number literals *)

Lemma numNext_isNumChar (st st' : numState) (c : ascii) :
  numNext st c = Some st' -> isNumChar c = true.
Proof.
  unfold isNumChar.
  destruct (isDigit c) eqn:Hd; [reflexivity|].
  destruct (isExpMark c) eqn:He; [reflexivity|].
  destruct (Ascii.eqb c ".") eqn:Hp; [reflexivity|].
  destruct (Ascii.eqb c "+") eqn:Hplus; [reflexivity|].
  destruct (Ascii.eqb c "-") eqn:Hm; [reflexivity|].
  assert (H0 : Ascii.eqb c "0" = false).
  { destruct (Ascii.eqb_spec c "0") as [->|]; [discriminate Hd | reflexivity]. }
  destruct st; simpl; rewrite ?H0, ?Hd, ?He, ?Hp, ?Hplus, ?Hm; simpl;
    discriminate.
Qed.

Lemma numStart_first (c : ascii) (st : numState) :
  numStart c = Some st ->
  isJsonSpace c = false /\ punctuation c = None
  /\ Ascii.eqb c "034" = false.
Proof. each_char c; vm_compute; intros; try discriminate; auto. Qed.

Lemma numDecide_more (st st' : numState) (c : ascii) (r tail : string) :
  numNext st c = Some st' ->
  numDecide st (String c r +:+ tail) = NumMore.
Proof.
  intros H. unfold numDecide. simpl.
  by rewrite (numNext_isNumChar st st' c H).
Qed.

(** One step of the lexer inside and at the start of a number. *)
Lemma lex_num_step (literal : string) (st : numState) (c : ascii)
    (rest : string) :
  lex (LexNum literal st) (String c rest)
  = match numNext st c with
    | None => None
    | Some st' =>
        match numDecide st' rest with
        | NumMore => lex (LexNum (snoc literal c) st') rest
        | NumEmit =>
            cons (TScalar (JNum (snoc literal c))) <$> lex LexNormal rest
        | NumFail => None
        end
    end.
Proof. reflexivity. Qed.

Lemma lex_normal_number (c : ascii) (st : numState) (rest : string) :
  numStart c = Some st ->
  lex LexNormal (String c rest)
  = match numDecide st rest with
    | NumMore => lex (LexNum (String c EmptyString) st) rest
    | NumEmit =>
        cons (TScalar (JNum (String c EmptyString))) <$> lex LexNormal rest
    | NumFail => None
    end.
Proof.
  intros H. destruct (numStart_first c st H) as (Hsp & Hpu & Hdq).
  simpl. by rewrite Hsp, Hpu, Hdq, H.
Qed.

(** A number literal followed by a text that does not go on with a
    character of a number. *)
Section NumberThenTail.

Variable tail : string.
Hypothesis tail_stops : numContinues tail = false.

Lemma numDecide_emit (st : numState) :
  numAccepting st = true -> numDecide st tail = NumEmit.
Proof. intros Ha. unfold numDecide. by rewrite tail_stops, Ha. Qed.

Lemma lex_number_rest (r : string) (literal : string) (st st' : numState)
    (c : ascii) :
  numNext st c = Some st' ->
  (exists st'', numRun st' r = Some st'' /\ numAccepting st'' = true) ->
  lex (LexNum literal st) (String c r +:+ tail)
  = cons (TScalar (JNum (literal +:+ String c r))) <$> lex LexNormal tail.
Proof.
  revert literal st st' c.
  induction r as [|c' r IH]; intros literal st st' c Hnext (st'' & Hrun & Hacc).
  - simpl in Hrun. injection Hrun as <-.
    simpl. rewrite Hnext, (numDecide_emit st' Hacc).
    reflexivity.
  - simpl in Hrun. destruct (numNext st' c') as [st1|] eqn:Hn1; [|done].
    change (String c (String c' r) +:+ tail)
      with (String c (String c' r +:+ tail)).
    rewrite lex_num_step.
    rewrite Hnext, (numDecide_more st' st1 c' r tail Hn1).
    rewrite (IH (snoc literal c) st' st1 c' Hn1); [|eauto].
    unfold snoc. by rewrite append_assoc.
Qed.

Lemma lex_number (literal : string) :
  validNumber literal = true ->
  lex LexNormal (literal +:+ tail)
  = cons (TScalar (JNum literal)) <$> lex LexNormal tail.
Proof.
  intros Hvalid. destruct literal as [|c r]; [done|].
  unfold validNumber in Hvalid.
  destruct (numStart c) as [st|] eqn:Hstart; [|done].
  destruct (numRun st r) as [st'|] eqn:Hrun; [|done].
  destruct r as [|c' r].
  - simpl in Hrun. injection Hrun as <-.
    change (String c EmptyString +:+ tail) with (String c tail).
    rewrite (lex_normal_number c st _ Hstart).
    by rewrite (numDecide_emit st Hvalid).
  - simpl in Hrun. destruct (numNext st c') as [st1|] eqn:Hn1; [|done].
    change (String c (String c' r) +:+ tail)
      with (String c (String c' r +:+ tail)).
    rewrite (lex_normal_number c st _ Hstart).
    rewrite (numDecide_more st st1 c' r tail Hn1).
    rewrite (lex_number_rest r (String c EmptyString) st st1 c' Hn1);
      [reflexivity | eauto].
Qed.

End NumberThenTail.

(** ** Values *)

Lemma json_nested_ind (P : json -> Prop) :
  P JNull ->
  (forall b, P (JBool b)) ->
  (forall literal, P (JNum literal)) ->
  (forall s, P (JStr s)) ->
  (forall elems, Forall P elems -> P (JArr elems)) ->
  (forall members, Forall (fun kv => P (snd kv)) members -> P (JObj members)) ->
  forall v, P v.
Proof.
  intros Hnull Hbool Hnum Hstr Harr Hobj.
  fix IH 1.
  intros [|b|literal|s|elems|members];
    [apply Hnull | apply Hbool | apply Hnum | apply Hstr | |].
  - apply Harr. induction elems as [|x l IHl]; constructor; [apply IH | exact IHl].
  - apply Hobj. induction members as [|[k x] l IHl]; constructor;
      [apply IH | exact IHl].
Qed.

Lemma allOf_Forall {A} (Q : A -> Prop) (l : list A) :
  allOf (map Q l) <-> Forall Q l.
Proof.
  induction l as [|x l IH]; simpl.
  - split; [constructor | done].
  - rewrite Forall_cons, <- IH. reflexivity.
Qed.

Lemma fmap_cons_app (t : token) (l : list token) (x : option (list token)) :
  cons t <$> (app l <$> x) = app (t :: l) <$> x.
Proof. by destruct x. Qed.

Lemma fmap_app_app (l1 l2 : list token) (x : option (list token)) :
  app l1 <$> (app l2 <$> x) = app (l1 ++ l2) <$> x.
Proof. destruct x; simpl; [by rewrite app_assoc | done]. Qed.

Lemma fmap_app_cons (l : list token) (t : token) (x : option (list token)) :
  app l <$> (cons t <$> x) = app (l ++ [t]) <$> x.
Proof. destruct x; simpl; [by rewrite <- app_assoc | done]. Qed.

Lemma fmap_cons_is_app (t : token) (x : option (list token)) :
  cons t <$> x = app [t] <$> x.
Proof. by destruct x. Qed.

Lemma fmap_app_nil (x : option (list token)) : app [] <$> x = x.
Proof. by destruct x. Qed.

(** One step of the lexer on a punctuation character. *)
Lemma lex_punctuation (c : ascii) (t : token) (rest : string) :
  punctuation c = Some t ->
  lex LexNormal (String c rest) = cons t <$> lex LexNormal rest.
Proof.
  intros H.
  assert (Hsp : isJsonSpace c = false)
    by (revert H; each_char c; vm_compute; intros; try discriminate; auto).
  simpl. by rewrite Hsp, H.
Qed.

Lemma lex_joined (texts : list string) (toks : list (list token))
    (tail : string) :
  Forall2 (fun text ts =>
             forall tail, numContinues tail = false ->
               lex LexNormal (text +:+ tail) = app ts <$> lex LexNormal tail)
    texts toks ->
  numContinues tail = false ->
  lex LexNormal (joinComma texts +:+ tail)
  = app (joinTokens toks) <$> lex LexNormal tail.
Proof.
  intros H Htail. induction H as [|text ts texts toks Hhead Hrest IH].
  - simpl. by rewrite fmap_app_nil.
  - destruct Hrest as [|text' ts' texts' toks' Hhead' Hrest'].
    + simpl. rewrite app_nil_r. by apply Hhead.
    + change (joinComma (text :: text' :: texts'))
        with (text +:+ "," +:+ joinComma (text' :: texts')).
      rewrite !append_assoc.
      change ("," +:+ joinComma (text' :: texts') +:+ tail)
        with (String "," (joinComma (text' :: texts') +:+ tail)).
      rewrite Hhead by reflexivity.
      rewrite (lex_punctuation "," TComma) by reflexivity.
      rewrite IH, fmap_cons_app, fmap_app_app. reflexivity.
Qed.

Lemma stringify_lexes_back (v : json) : wellFormed v -> lexesBack v.
Proof.
  induction v as [|b|literal|s|elems IH|members IH] using json_nested_ind;
    intros Hwf tail Htail.
  - reflexivity.
  - destruct b; reflexivity.
  - change (JSON_stringify (JNum literal)) with literal.
    change (tokensOf (JNum literal)) with [TScalar (JNum literal)].
    by rewrite (lex_number tail Htail literal Hwf), fmap_cons_is_app.
  - change (JSON_stringify (JStr s)) with (quote s).
    change (tokensOf (JStr s)) with [TScalar (JStr s)].
    by rewrite lex_quote, fmap_cons_is_app.
  - simpl in Hwf. rewrite allOf_Forall in Hwf.
    change (JSON_stringify (JArr elems))
      with ("[" +:+ joinComma (map JSON_stringify elems) +:+ "]").
    change (tokensOf (JArr elems))
      with (TLBracket :: (joinTokens (map tokensOf elems) ++ [TRBracket])%list).
    rewrite !append_assoc.
    change ("[" +:+ joinComma (map JSON_stringify elems) +:+ "]" +:+ tail)
      with (String "[" (joinComma (map JSON_stringify elems)
                        +:+ String "]" tail)).
    rewrite (lex_punctuation "[" TLBracket) by reflexivity.
    rewrite (lex_joined _ (map tokensOf elems)); [|clear tail Htail|reflexivity].
    + rewrite (lex_punctuation "]" TRBracket) by reflexivity.
      by rewrite fmap_app_cons, fmap_cons_app.
    + induction elems as [|x l IHl]; [constructor|].
      rewrite !map_cons. constructor.
      * intros tail Htail. apply (Forall_inv IH); [|exact Htail].
        exact (Forall_inv Hwf).
      * apply IHl; [exact (Forall_inv_tail IH) | exact (Forall_inv_tail Hwf)].
  - simpl in Hwf. destruct Hwf as [_ Hwf]. rewrite allOf_Forall in Hwf.
    change (JSON_stringify (JObj members))
      with ("{" +:+ joinComma
                      (map (fun kv => quote (fst kv) +:+ ":"
                                        +:+ JSON_stringify (snd kv)) members)
            +:+ "}").
    change (tokensOf (JObj members))
      with (TLBrace ::
            (joinTokens
               (map (fun kv => TScalar (JStr (fst kv)) :: TColon
                                 :: tokensOf (snd kv)) members)
             ++ [TRBrace])%list).
    rewrite !append_assoc.
    match goal with
    | |- lex LexNormal ("{" +:+ ?body +:+ "}" +:+ tail) = _ =>
        change ("{" +:+ body +:+ "}" +:+ tail)
          with (String "{" (body +:+ String "}" tail))
    end.
    rewrite (lex_punctuation "{" TLBrace) by reflexivity.
    rewrite (lex_joined _
               (map (fun kv => TScalar (JStr (fst kv)) :: TColon
                                 :: tokensOf (snd kv)) members));
      [|clear tail Htail|reflexivity].
    + rewrite (lex_punctuation "}" TRBrace) by reflexivity.
      by rewrite fmap_app_cons, fmap_cons_app.
    + induction members as [|[k x] l IHl]; [constructor|].
      rewrite !map_cons. cbv beta. cbn [fst snd]. constructor.
      * intros tail Htail. rewrite !append_assoc, lex_quote.
        change (":" +:+ JSON_stringify x +:+ tail)
          with (String ":" (JSON_stringify x +:+ tail)).
        rewrite (lex_punctuation ":" TColon) by reflexivity.
        pose proof (Forall_inv IH (Forall_inv Hwf) tail Htail) as Hx.
        cbn [snd] in Hx. rewrite Hx.
        by rewrite !fmap_cons_app.
      * apply IHl; [exact (Forall_inv_tail IH) | exact (Forall_inv_tail Hwf)].
Qed.

(** ** The parser *)

Lemma setMember_fresh (members : list (string * json)) (k : string)
    (v : json) :
  k ∉ map fst members -> setMember members k v = (members ++ [(k, v)])%list.
Proof.
  induction members as [|[k' v'] l IH]; simpl; [done|].
  rewrite not_elem_of_cons. intros [Hne Hnotin].
  destruct (String.eqb_spec k' k) as [->|_]; [done|]. by rewrite IH.
Qed.

(** The first token of a value opens it: after [[] it is taken as the
    first element. *)
Lemma run_first_element (v : json) (stk : list frame) (rest : list token) :
  run (ExpValueOrClose stk) (tokensOf v ++ rest)%list
  = run (ExpValue (FArr [] :: stk)) (tokensOf v ++ rest)%list.
Proof. destruct v; reflexivity. Qed.

Lemma joinTokens_map_more {A} (f : A -> list token) (x : list token) (y : A)
    (l : list A) :
  joinTokens (x :: map f (y :: l))
  = (x ++ TComma :: joinTokens (map f (y :: l)))%list.
Proof. reflexivity. Qed.

Lemma joinTokens_one (x : list token) : joinTokens [x] = x.
Proof. simpl. apply app_nil_r. Qed.

Lemma run_elements (elems : list json) :
  Forall parsesBack elems ->
  elems <> [] ->
  forall done stk rest,
    run (ExpValue (FArr done :: stk))
      (joinTokens (map tokensOf elems) ++ TRBracket :: rest)%list
    = run (pushValue (JArr (done ++ elems)%list) stk) rest.
Proof.
  induction 1 as [|x l Hx Hl IH]; [done|]. intros _ done stk rest.
  destruct l as [|y l].
  - change (map tokensOf [x]) with [tokensOf x].
    rewrite joinTokens_one, Hx. reflexivity.
  - rewrite (map_cons _ x), joinTokens_map_more, <- app_assoc, Hx.
    etrans; [apply (IH ltac:(done) (done ++ [x])%list stk rest)|].
    by rewrite <- app_assoc.
Qed.

Lemma run_key (done : list (string * json)) (stk : list frame) (k : string)
    (toks : list token) :
  run (ExpKey done stk) (TScalar (JStr k) :: TColon :: toks)
  = run (ExpValue (FObj done k :: stk)) toks.
Proof. reflexivity. Qed.

Lemma run_members (members : list (string * json)) :
  Forall (fun kv => parsesBack (snd kv)) members ->
  members <> [] ->
  forall done stk rest,
    NoDup (map fst (done ++ members)%list) ->
    run (ExpKey done stk)
      (joinTokens
         (map (fun kv => TScalar (JStr (fst kv)) :: TColon :: tokensOf (snd kv))
            members) ++ TRBrace :: rest)%list
    = run (pushValue (JObj (done ++ members)%list) stk) rest.
Proof.
  induction 1 as [|[k x] l Hx Hl IH]; [done|]. intros _ done stk rest Hnodup.
  assert (Hfresh : setMember done k x = (done ++ [(k, x)])%list).
  { apply setMember_fresh.
    rewrite map_app, NoDup_app in Hnodup. destruct Hnodup as (_ & H & _).
    intros Hin. apply (H k Hin). simpl. apply list_elem_of_here. }
  cbn [snd] in Hx.
  destruct l as [|y l].
  - change (map _ [(k, x)]) with [TScalar (JStr k) :: TColon :: tokensOf x].
    rewrite joinTokens_one, <- !app_comm_cons, run_key, Hx.
    cbn [pushValue]. rewrite Hfresh. reflexivity.
  - rewrite (map_cons _ (k, x)), joinTokens_map_more, <- app_assoc.
    cbn [fst snd].
    rewrite <- !app_comm_cons, run_key, Hx.
    cbn [pushValue]. rewrite Hfresh.
    etrans; [apply (IH ltac:(done) (done ++ [(k, x)])%list stk rest)|].
    + by rewrite <- app_assoc.
    + by rewrite <- app_assoc.
Qed.

Lemma tokens_parse_back (v : json) : wellFormed v -> parsesBack v.
Proof.
  induction v as [|b|literal|s|elems IH|members IH] using json_nested_ind;
    intros Hwf stk rest; try reflexivity.
  - simpl in Hwf. rewrite allOf_Forall in Hwf.
    assert (Hall : Forall parsesBack elems).
    { clear -IH Hwf. induction IH as [|y l' Hy Hl' IHl];
        constructor; [apply Hy, (Forall_inv Hwf)|].
      apply IHl, (Forall_inv_tail Hwf). }
    change (tokensOf (JArr elems))
      with (TLBracket :: (joinTokens (map tokensOf elems) ++ [TRBracket])%list).
    rewrite <- app_comm_cons, <- app_assoc.
    destruct elems as [|x l]; [reflexivity|].
    etrans; [|apply (run_elements (x :: l) Hall ltac:(done) [] stk rest)].
    destruct l as [|y l].
    + change (map tokensOf [x]) with [tokensOf x].
      rewrite joinTokens_one.
      apply (run_first_element x stk ([TRBracket] ++ rest)).
    + rewrite (map_cons _ x), joinTokens_map_more, <- !app_assoc.
      apply (run_first_element x stk).
  - simpl in Hwf. destruct Hwf as [Hnodup Hwf]. rewrite allOf_Forall in Hwf.
    assert (Hall : Forall (fun kv => parsesBack (snd kv)) members).
    { clear -IH Hwf. induction IH as [|y l' Hy Hl' IHl];
        constructor; [apply Hy, (Forall_inv Hwf)|].
      apply IHl, (Forall_inv_tail Hwf). }
    change (tokensOf (JObj members))
      with (TLBrace ::
            (joinTokens
               (map (fun kv => TScalar (JStr (fst kv)) :: TColon
                                 :: tokensOf (snd kv)) members)
             ++ [TRBrace])%list).
    rewrite <- app_comm_cons, <- app_assoc.
    destruct members as [|[k x] l]; [reflexivity|].
    etrans; [|apply (run_members ((k, x) :: l) Hall ltac:(done) [] stk rest
                       Hnodup)].
    destruct l; reflexivity.
Qed.

(** [JSON.parse] reads back what [JSON.stringify] wrote. *)
Lemma parse_stringify (v : json) :
  wellFormed v -> JSON_parse (JSON_stringify v) = Returns v.
Proof.
  intros Hwf. unfold JSON_parse.
  pose proof (stringify_lexes_back v Hwf EmptyString eq_refl) as Hlex.
  rewrite append_empty_r in Hlex. rewrite Hlex. simpl.
  by rewrite (tokens_parse_back v Hwf [] []).
Qed.

End JsonFacts.

(* ================================================================== *)
(** * Base64 text read back *)
(* ================================================================== *)

Module Base64Facts.
Import JS StringFacts.

Lemma base64Value_base64Char (x : sextet) :
  base64Value (base64Char x) = Some x.
Proof. destruct x as [[] [] [] [] [] []]; reflexivity. Qed.

Lemma base64Char_not_equal_sign (x : sextet) :
  Ascii.eqb (base64Char x) "=" = false.
Proof. destruct x as [[] [] [] [] [] []]; reflexivity. Qed.

Lemma base64Char_in_alphabet (x : sextet) :
  VavooRev.isBase64Char (base64Char x) = true.
Proof. destruct x as [[] [] [] [] [] []]; reflexivity. Qed.

Lemma base64Text_cons (x : sextet) (l : list sextet) :
  base64Text (x :: l) = String (base64Char x) (base64Text l).
Proof. reflexivity. Qed.

(** Reading stops at the padding. *)
Lemma readSextets_text (l : list sextet) (pad : string) :
  VavooRev.allEqualSigns pad = true ->
  readSextets (base64Text l +:+ pad) = l.
Proof.
  intros Hpad. induction l as [|x l IH].
  - destruct pad as [|c pad]; [reflexivity|].
    simpl in *. apply andb_prop in Hpad as [-> _]. reflexivity.
  - rewrite base64Text_cons. simpl.
    by rewrite base64Char_not_equal_sign, base64Value_base64Char, IH.
Qed.

Lemma stripTrailingEq_text (l : list sextet) (pad : string) :
  VavooRev.allEqualSigns pad = true ->
  VavooRev.stripTrailingEq (base64Text l +:+ pad) = base64Text l.
Proof.
  intros Hpad. induction l as [|x l IH].
  - destruct pad as [|c pad]; [reflexivity|].
    change (base64Text [] +:+ String c pad) with (String c pad).
    unfold VavooRev.stripTrailingEq. by rewrite Hpad.
  - rewrite base64Text_cons.
    change (String (base64Char x) (base64Text l) +:+ pad)
      with (String (base64Char x) (base64Text l +:+ pad)).
    simpl. by rewrite base64Char_not_equal_sign, IH.
Qed.

Lemma replacePct3D_text (s : string) :
  VavooRev.allBase64Chars s = true -> VavooRev.replacePct3D s = s.
Proof.
  induction s as [|c s IH]; [reflexivity|].
  simpl VavooRev.allBase64Chars. intros [Hc Hs]%andb_prop.
  assert (Hne : Ascii.eqb c "%" = false).
  { destruct (Ascii.eqb_spec c "%") as [->|]; [discriminate Hc | reflexivity]. }
  rewrite <- (IH Hs) at 2.
  destruct c as [[] [] [] [] [] [] [] []]; try reflexivity; discriminate Hne.
Qed.

Lemma includes_percent_text (s : string) :
  VavooRev.allBase64Chars s = true -> includes s "%" = false.
Proof.
  induction s as [|c s IH]; [reflexivity|].
  simpl VavooRev.allBase64Chars. intros [Hc Hs]%andb_prop.
  simpl. rewrite (IH Hs).
  destruct (Ascii.eqb_spec "%" c) as [<-|]; [discriminate Hc | reflexivity].
Qed.

Lemma allBase64Chars_app (a b : string) :
  VavooRev.allBase64Chars a = true -> VavooRev.allBase64Chars b = true ->
  VavooRev.allBase64Chars (a +:+ b) = true.
Proof.
  intros Ha Hb. induction a as [|c a IH]; [exact Hb|].
  simpl in *. apply andb_prop in Ha as [-> Ha]. by apply IH.
Qed.

Lemma allBase64Chars_text (l : list sextet) :
  VavooRev.allBase64Chars (base64Text l) = true.
Proof.
  induction l as [|x l IH]; [reflexivity|].
  rewrite base64Text_cons. simpl. by rewrite base64Char_in_alphabet, IH.
Qed.

Lemma allBase64Chars_encode (s : string) :
  VavooRev.allBase64Chars (base64_encode s) = true.
Proof.
  unfold base64_encode. apply allBase64Chars_app.
  - apply allBase64Chars_text.
  - unfold base64Padding.
    destruct (length (base64Sextets s) mod 4) as [|[|[|[|n]]]]; reflexivity.
Qed.

Lemma allEqualSigns_padding (n : nat) :
  VavooRev.allEqualSigns (base64Padding n) = true.
Proof.
  unfold base64Padding. destruct (n mod 4) as [|[|[|[|m]]]]; reflexivity.
Qed.

(** The padding loop only adds equal signs. *)
Lemma padLoop_adds_padding (fuel : nat) (s : string) :
  exists pad, VavooRev.padLoop fuel s = s +:+ pad
              /\ VavooRev.allEqualSigns pad = true.
Proof.
  revert s. induction fuel as [|fuel IH]; intros s; cbn [VavooRev.padLoop].
  - exists EmptyString. rewrite append_empty_r. split; reflexivity.
  - destruct (Nat.eqb (String.length s mod 4) 0).
    + exists EmptyString. rewrite append_empty_r. split; reflexivity.
    + destruct (IH (s +:+ "=")) as (pad & -> & Hpad).
      exists ("=" +:+ pad). rewrite append_assoc. split; [reflexivity|].
      exact Hpad.
Qed.

(** The bytes of the sextets of a byte string. *)
Lemma sextetsToBytes_base64Sextets (s : string) :
  sextetsToBytes (base64Sextets s) = s.
Proof.
  assert (H : forall s,
             sextetsToBytes (base64Sextets s) = s
             /\ (forall a, sextetsToBytes (base64Sextets (String a s))
                           = String a s)
             /\ (forall a b,
                   sextetsToBytes (base64Sextets (String a (String b s)))
                   = String a (String b s))).
  { clear s. induction s as [|c s (IH0 & IH1 & IH2)].
    - split; [reflexivity|]. split.
      + intros [a0 a1 a2 a3 a4 a5 a6 a7]. reflexivity.
      + intros [a0 a1 a2 a3 a4 a5 a6 a7] [b0 b1 b2 b3 b4 b5 b6 b7].
        reflexivity.
    - split; [apply IH1|]. split; [intros a; apply IH2|].
      intros [a0 a1 a2 a3 a4 a5 a6 a7] [b0 b1 b2 b3 b4 b5 b6 b7].
      destruct c as [c0 c1 c2 c3 c4 c5 c6 c7].
      change (base64Sextets (String _ (String _ (String _ s))))
        with (sextets3 (Ascii a0 a1 a2 a3 a4 a5 a6 a7)
                (Ascii b0 b1 b2 b3 b4 b5 b6 b7)
                (Ascii c0 c1 c2 c3 c4 c5 c6 c7) ++ base64Sextets s)%list.
      simpl. by rewrite IH0. }
  apply H.
Qed.

(** What the Base64 step decodes from the encoding of a text is the
    text. *)
Lemma decode_encode (s : string) :
  Buffer_from_base64
    (VavooRev.padBase64
       (VavooRev.stripTrailingEq (VavooRev.replacePct3D (base64_encode s))))
  = s.
Proof.
  rewrite replacePct3D_text by apply allBase64Chars_encode.
  unfold base64_encode.
  rewrite stripTrailingEq_text by apply allEqualSigns_padding.
  unfold VavooRev.padBase64.
  destruct (padLoop_adds_padding 3 (base64Text (base64Sextets s)))
    as (pad & -> & Hpad).
  unfold Buffer_from_base64.
  by rewrite readSextets_text, sextetsToBytes_base64Sextets.
Qed.

(** The encoding of a text that starts with an opening brace starts with
    the letter e. *)
Lemma encode_brace (r : string) :
  exists t, base64_encode (String "{" r) = String "e" t.
Proof.
  unfold base64_encode.
  destruct r as [|[b0 b1 b2 b3 b4 b5 b6 b7] [|[c0 c1 c2 c3 c4 c5 c6 c7] r]];
    simpl base64Sextets; rewrite ?base64Text_cons; simpl; eauto.
Qed.

End Base64Facts.

(* ================================================================== *)
(** * Settings sent as Base64 *)
(* ================================================================== *)

Module RoundTripFacts.
Import JS Properties StringFacts JsonFacts Base64Facts.

Lemma includes_suffix (a p : string) : includes (a +:+ p) p = true.
Proof.
  induction a as [|c a IH]; simpl.
  - destruct p as [|c p]; [reflexivity|]. simpl.
    rewrite Ascii.eqb_refl. simpl.
    assert (H : forall q, startsWith q q = true).
    { induction q as [|d q IHq]; [reflexivity|].
      simpl. by rewrite Ascii.eqb_refl. }
    by rewrite H.
  - rewrite IH. apply orb_true_r.
Qed.

Lemma startsWith_empty (s : string) : startsWith s EmptyString = true.
Proof. by destruct s. Qed.

Lemma includes_first (c : ascii) (r : string) :
  includes (String c r) (String c EmptyString) = true.
Proof. simpl. by rewrite Ascii.eqb_refl, startsWith_empty. Qed.

(** The text of an object is between braces. *)
Lemma stringify_object (members : list (string * json)) :
  exists body, JSON_stringify (JObj members) = String "{" (body +:+ "}").
Proof. eexists. reflexivity. Qed.

(** C4. The Base64 encoding of the JSON text of a settings object is
    decoded by the Base64 step, the two steps before it having failed, and
    [parseConfigFromArgs] returns the settings; in particular
    [eyJ0bWRiQXBpS2V5IjoiWCJ9] gives the settings with the one key
    [tmdbApiKey] and the value [X]. *)
Theorem base64_settings_round_trip :
  (forall members,
     wellFormed (JObj members) ->
     wellFormedUtf8 (JSON_stringify (JObj members)) ->
     let args := base64_encode (JSON_stringify (JObj members)) in
     VavooRev.directJson args = None /\
     VavooRev.urlDecodedJson args = (None, args) /\
     VavooRev.base64Json args = Returns (Some (JObj members)) /\
     VavooRev.parseConfigFromArgs (Some (JStr args))
     = Returns (JObj members)) /\
  VavooRev.parseConfigFromArgs (Some (JStr "eyJ0bWRiQXBpS2V5IjoiWCJ9"))
  = Returns (JObj [("tmdbApiKey", JStr "X")]).
Proof.
  split; [|reflexivity].
  intros members Hwf Hutf8 args.
  destruct (stringify_object members) as [body Hbody].
  assert (Hchars : VavooRev.allBase64Chars args = true)
    by apply allBase64Chars_encode.
  assert (Hargs : exists t, args = String "e" t).
  { subst args. rewrite Hbody. apply encode_brace. }
  destruct Hargs as [t Ht].
  assert (H1 : VavooRev.directJson args = None) by (by rewrite Ht).
  assert (H2 : VavooRev.urlDecodedJson args = (None, args)).
  { unfold VavooRev.urlDecodedJson.
    by rewrite (includes_percent_text args Hchars). }
  assert (Hdecoded :
    VavooRev.base64Decoded args = JSON_stringify (JObj members)).
  { unfold VavooRev.base64Decoded. subst args. by rewrite decode_encode. }
  assert (H3 : VavooRev.base64Json args = Returns (Some (JObj members))).
  { unfold VavooRev.base64Json.
    replace (VavooRev.looksBase64 args) with true
      by (unfold VavooRev.looksBase64; by rewrite Hchars, Ht).
    rewrite orb_true_r, Hdecoded.
    rewrite (parse_stringify _ Hwf).
    rewrite Hbody at 1 2.
    rewrite includes_first.
    change (String "{" (body +:+ "}")) with (("{" +:+ body) +:+ "}").
    rewrite includes_suffix. reflexivity. }
  repeat split; try done.
  unfold VavooRev.parseConfigFromArgs, VavooRev.parseConfigString.
  rewrite H1, H2, H3. by rewrite Ht.
Qed.

Lemma base64_settings_round_trip_witness :
  VavooRev.base64Json
    (base64_encode (JSON_stringify (JObj [("tmdbApiKey", JStr "X")])))
  = Returns (Some (JObj [("tmdbApiKey", JStr "X")])).
Proof.
  apply (proj1 base64_settings_round_trip [("tmdbApiKey", JStr "X")]).
  - split; [apply NoDup_singleton | split; constructor].
  - reflexivity.
Defined.

End RoundTripFacts.

(* ================================================================== *)
(** * Percent-encoding *)
(* ================================================================== *)

Module PercentFacts.
Import JS Providers Properties Notions.

Ltac every_char c := destruct c as [[] [] [] [] [] [] [] []].

Lemma hexByte_hexChar (c : ascii) :
  hexByte (hexChar (code c / 16)) (hexChar (code c mod 16)) = Some c.
Proof. every_char c; reflexivity. Qed.

Lemma unreserved_plain (c : ascii) :
  uriUnreserved c = true -> Ascii.eqb c "%" = false.
Proof. every_char c; vm_compute; congruence. Qed.

Lemma high_byte_escaped (c : ascii) :
  (128 <=? code c)%N = true -> uriUnreserved c = false.
Proof. every_char c; vm_compute; congruence. Qed.

(** What the first byte of a character says, for the decoder and for the
    encoder. *)
Lemma classify_first_byte (b : ascii) :
  match utf8_classify (code b) with
  | Lead1 => pctSeqLength b = Some 1
  | Lead more lo hi =>
      (more = 1 \/ more = 2 \/ more = 3) /\
      pctSeqLength b = Some (S more) /\
      uriUnreserved b = false /\ (128 <= lo)%N
  | LeadBad => b <> "239"%char
  end.
Proof.
  every_char b; vm_compute; try (intuition congruence); try congruence.
Qed.

Lemma encode_unreserved (c : ascii) (r : string) :
  uriUnreserved c = true ->
  encodeURIComponent (String c r) = String c (encodeURIComponent r).
Proof. intros H. cbn [encodeURIComponent]. now rewrite H. Qed.

Lemma encode_escaped (c : ascii) (r : string) :
  uriUnreserved c = false ->
  encodeURIComponent (String c r) = escaped c (encodeURIComponent r).
Proof. intros H. cbn [encodeURIComponent]. now rewrite H. Qed.

Lemma decode_plain_char (c : ascii) (r : string) :
  Ascii.eqb c "%" = false ->
  decodeURI_loop PctPlain (String c r)
  = match decodeURI_loop PctPlain r with
    | Returns t => Returns (String c t)
    | Throws e => Throws e
    end.
Proof. intros H. cbn [decodeURI_loop]. now rewrite H. Qed.

Lemma decode_escaped_one (b : ascii) (r : string) :
  pctSeqLength b = Some 1 ->
  decodeURI_loop PctPlain (escaped b r)
  = match decodeURI_loop PctPlain r with
    | Returns t => Returns (String b t)
    | Throws e => Throws e
    end.
Proof.
  intros H. unfold escaped. cbn [decodeURI_loop].
  change (Ascii.eqb "%" "%") with true. cbv iota.
  now rewrite hexByte_hexChar, H.
Qed.

Lemma decode_escaped_first (b : ascii) (n : nat) (r : string) :
  pctSeqLength b = Some (S (S n)) ->
  decodeURI_loop PctPlain (escaped b r)
  = decodeURI_loop (PctSeq [b] (S n)) r.
Proof.
  intros H. unfold escaped. cbn [decodeURI_loop].
  change (Ascii.eqb "%" "%") with true. cbv iota.
  now rewrite hexByte_hexChar, H.
Qed.

Lemma decode_escaped_next (pending : list ascii) (n : nat) (b : ascii)
    (r : string) :
  decodeURI_loop (PctSeq pending (S (S n))) (escaped b r)
  = decodeURI_loop (PctSeq (pending ++ [b]) (S n)) r.
Proof.
  unfold escaped. cbn [decodeURI_loop].
  change (Ascii.eqb "%" "%") with true. cbv iota.
  now rewrite hexByte_hexChar.
Qed.

Lemma decode_escaped_last (pending : list ascii) (b : ascii) (r : string) :
  utf8_valid_seq (pending ++ [b]) = true ->
  decodeURI_loop (PctSeq pending 1) (escaped b r)
  = match decodeURI_loop PctPlain r with
    | Returns t => Returns (string_of_list_ascii (pending ++ [b]) +:+ t)
    | Throws e => Throws e
    end.
Proof.
  intros H. unfold escaped. cbn [decodeURI_loop].
  change (Ascii.eqb "%" "%") with true. cbv iota.
  now rewrite hexByte_hexChar, H.
Qed.

Lemma in_range_high (lo hi : N) (c : ascii) :
  (128 <= lo)%N -> in_range lo hi c = true -> uriUnreserved c = false.
Proof.
  intros Hlo H. apply high_byte_escaped. unfold in_range in H.
  apply andb_true_iff in H as [H _]. apply N.leb_le in H. apply N.leb_le. lia.
Qed.

Lemma isCont_high (c : ascii) : isCont c = true -> uriUnreserved c = false.
Proof. apply in_range_high. lia. Qed.

(** Decoding undoes encoding on every well-formed text. *)
Lemma decode_encode_bounded (n : nat) :
  forall s, String.length s <= n -> wellFormedUtf8 s ->
    decodeURIComponent (encodeURIComponent s) = Returns s.
Proof.
  unfold wellFormedUtf8, decodeURIComponent.
  induction n as [|n IH]; intros s Hlen Hwf.
  { destruct s; [reflexivity | simpl in Hlen; lia]. }
  destruct s as [|b0 r0]; [reflexivity|].
  cbn [toString_utf8] in Hwf. unfold REPLACEMENT in Hwf.
  pose proof (classify_first_byte b0) as Hb0.
  destruct (utf8_classify (code b0)) as [|more lo hi|] eqn:Hcl.
  - (* one byte *)
    injection Hwf as Hwf.
    assert (Hrec : decodeURI_loop PctPlain (encodeURIComponent r0) = Returns r0)
      by (apply IH; [simpl in Hlen; lia | exact Hwf]).
    destruct (uriUnreserved b0) eqn:Hun.
    + rewrite (encode_unreserved _ _ Hun).
      rewrite (decode_plain_char _ _ (unreserved_plain _ Hun)).
      now rewrite Hrec.
    + rewrite (encode_escaped _ _ Hun), (decode_escaped_one _ _ Hb0).
      now rewrite Hrec.
  - destruct Hb0 as (Hmore & Hpct & Hun0 & Hlo).
    destruct r0 as [|b1 r1]; [discriminate Hwf|].
    destruct (in_range lo hi b1) eqn:Hr1; cbn [negb] in Hwf.
    2:{ exfalso. injection Hwf as E0 E1 _. subst b0 b1.
        vm_compute in Hcl. injection Hcl as _ E2 E3. subst lo hi.
        discriminate Hr1. }
    pose proof (in_range_high _ _ _ Hlo Hr1) as Hun1.
    rewrite (encode_escaped _ _ Hun0), (encode_escaped _ _ Hun1).
    destruct Hmore as [-> | [-> | ->]];
      rewrite (decode_escaped_first _ _ _ Hpct).
    + (* two bytes *)
      injection Hwf as Hwf.
      rewrite decode_escaped_last.
      2:{ cbn. rewrite Hcl. cbn. now rewrite Hr1. }
      rewrite IH; [reflexivity | simpl in Hlen; lia | exact Hwf].
    + (* three bytes *)
      destruct r1 as [|b2 r2]; [discriminate Hwf|].
      destruct (isCont b2) eqn:Hc2; cbn [negb] in Hwf.
      2:{ exfalso. cbn [String.append] in Hwf.
          injection Hwf as _ _ E2 _. subst b2. discriminate Hc2. }
      injection Hwf as Hwf.
      rewrite (encode_escaped _ _ (isCont_high _ Hc2)).
      rewrite decode_escaped_next, decode_escaped_last.
      2:{ cbn. rewrite Hcl. cbn. now rewrite Hr1, Hc2. }
      rewrite IH; [reflexivity | simpl in Hlen; lia | exact Hwf].
    + (* four bytes *)
      destruct r1 as [|b2 r2]; [discriminate Hwf|].
      destruct (isCont b2) eqn:Hc2; cbn [negb] in Hwf.
      2:{ exfalso. injection Hwf as E0 _ _. subst b0. discriminate Hcl. }
      destruct r2 as [|b3 r3].
      { exfalso. injection Hwf as E0 _ _. subst b0. discriminate Hcl. }
      destruct (isCont b3) eqn:Hc3; cbn [negb] in Hwf.
      2:{ exfalso. injection Hwf as E0 _ _. subst b0. discriminate Hcl. }
      injection Hwf as Hwf.
      rewrite (encode_escaped _ _ (isCont_high _ Hc2)).
      rewrite (encode_escaped _ _ (isCont_high _ Hc3)).
      rewrite !decode_escaped_next, decode_escaped_last.
      2:{ cbn. rewrite Hcl. cbn. now rewrite Hr1, Hc2, Hc3. }
      rewrite IH; [reflexivity | simpl in Hlen; lia | exact Hwf].
  - exfalso. injection Hwf as E0 _. now apply Hb0.
Qed.

Lemma decode_encode_text (s : string) :
  wellFormedUtf8 s -> decodeURIComponent (encodeURIComponent s) = Returns s.
Proof. apply (decode_encode_bounded (String.length s)). lia. Qed.

End PercentFacts.

(* ================================================================== *)
(** * Settings in their other encodings *)
(* ================================================================== *)

Module SettingsFacts.
Import JS Providers Properties Notions.
Import StringFacts JsonFacts Base64Facts RoundTripFacts PercentFacts.

Lemma decode_without_percent (s : string) :
  includes s "%" = false -> decodeURIComponent s = Returns s.
Proof.
  unfold decodeURIComponent.
  induction s as [|c r IH]; [reflexivity|]. intros H.
  cbn [includes startsWith] in H.
  apply orb_false_iff in H as [Hc Hr].
  rewrite startsWith_empty, andb_true_r in Hc.
  rewrite decode_plain_char by (by rewrite Ascii.eqb_sym).
  by rewrite IH.
Qed.

Lemma decode_app (a b : string) :
  includes a "%" = false ->
  decodeURI_loop PctPlain (a +:+ b)
  = match decodeURI_loop PctPlain b with
    | Returns t => Returns (a +:+ t)
    | Throws e => Throws e
    end.
Proof.
  induction a as [|c r IH]; intros H.
  - simpl. by destruct (decodeURI_loop PctPlain b).
  - cbn [includes startsWith] in H.
    apply orb_false_iff in H as [Hc Hr].
    rewrite startsWith_empty, andb_true_r in Hc.
    cbn [String.append].
    rewrite decode_plain_char by (by rewrite Ascii.eqb_sym).
    rewrite (IH Hr). by destruct (decodeURI_loop PctPlain b).
Qed.

Lemma includes_inside (a : string) (c : ascii) (b : string) :
  includes (a +:+ String c b) (String c EmptyString) = true.
Proof.
  induction a as [|d a IH].
  - apply includes_first.
  - cbn [String.append includes]. rewrite IH. apply orb_true_r.
Qed.

Lemma decode_escaped_padding (k : nat) :
  decodeURI_loop PctPlain (copies k "%3D") = Returns (copies k "=").
Proof.
  induction k as [|k IH]; [reflexivity|].
  change (copies (S k) "%3D") with (escaped "=" (copies k "%3D")).
  rewrite decode_escaped_one by reflexivity. by rewrite IH.
Qed.

Lemma allEqualSigns_copies (k : nat) :
  VavooRev.allEqualSigns (copies k "=") = true.
Proof. induction k as [|k IH]; [reflexivity|]. simpl. by rewrite IH. Qed.

Lemma allEqualSigns_base64 (pad : string) :
  VavooRev.allEqualSigns pad = true -> VavooRev.allBase64Chars pad = true.
Proof.
  induction pad as [|c r IH]; [reflexivity|]. cbn.
  intros H. apply andb_true_iff in H as [Hc Hr].
  apply Ascii.eqb_eq in Hc. subst c. by rewrite (IH Hr).
Qed.

Lemma body_brace (r : string) :
  exists t, base64Body (String "{" r) = String "e" t.
Proof.
  unfold base64Body.
  destruct r as [|[b0 b1 b2 b3 b4 b5 b6 b7] [|[c0 c1 c2 c3 c4 c5 c6 c7] r]];
    simpl base64Sextets; rewrite ?base64Text_cons; simpl; eauto.
Qed.

(** What the Base64 step decodes from the Base64 characters of a text,
    whatever the padding after them. *)
Lemma decode_body (s pad : string) :
  VavooRev.allEqualSigns pad = true ->
  Buffer_from_base64
    (VavooRev.padBase64
       (VavooRev.stripTrailingEq (VavooRev.replacePct3D (base64Body s +:+ pad))))
  = s.
Proof.
  intros Hpad. unfold base64Body.
  rewrite replacePct3D_text
    by (apply allBase64Chars_app;
        [apply allBase64Chars_text | by apply allEqualSigns_base64]).
  rewrite stripTrailingEq_text by done.
  unfold VavooRev.padBase64.
  destruct (padLoop_adds_padding 3 (base64Text (base64Sextets s)))
    as (pad' & -> & Hpad').
  unfold Buffer_from_base64.
  by rewrite readSextets_text, sextetsToBytes_base64Sextets.
Qed.

(** The Base64 step on the Base64 characters of the text of a settings
    object, whatever the padding. *)
Lemma base64Json_body (members : list (string * json)) (pad : string) :
  wellFormed (JObj members) ->
  wellFormedUtf8 (JSON_stringify (JObj members)) ->
  VavooRev.allEqualSigns pad = true ->
  VavooRev.base64Json (base64Body (JSON_stringify (JObj members)) +:+ pad)
  = Returns (Some (JObj members)).
Proof.
  intros Hwf Hutf8 Hpad.
  destruct (stringify_object members) as [body Hbody].
  set (args := base64Body (JSON_stringify (JObj members)) +:+ pad).
  assert (Hchars : VavooRev.allBase64Chars args = true).
  { apply allBase64Chars_app;
      [apply allBase64Chars_text | by apply allEqualSigns_base64]. }
  assert (Hargs : exists t, args = String "e" t).
  { subst args. rewrite Hbody.
    destruct (body_brace (body +:+ "}")) as [t ->]. by exists (t +:+ pad). }
  destruct Hargs as [t Ht].
  assert (Hdecoded :
    VavooRev.base64Decoded args = JSON_stringify (JObj members)).
  { unfold VavooRev.base64Decoded. subst args. by rewrite decode_body. }
  unfold VavooRev.base64Json.
  replace (VavooRev.looksBase64 args) with true
    by (unfold VavooRev.looksBase64; by rewrite Hchars, Ht).
  rewrite orb_true_r, Hdecoded.
  rewrite (parse_stringify _ Hwf).
  rewrite Hbody at 1 2.
  rewrite includes_first.
  change (String "{" (body +:+ "}")) with (("{" +:+ body) +:+ "}").
  rewrite includes_suffix. reflexivity.
Qed.

Lemma parse_base64_body (members : list (string * json)) (pad : string) :
  wellFormed (JObj members) ->
  wellFormedUtf8 (JSON_stringify (JObj members)) ->
  VavooRev.allEqualSigns pad = true ->
  VavooRev.parseConfigFromArgs
    (Some (JStr (base64Body (JSON_stringify (JObj members)) +:+ pad)))
  = Returns (JObj members).
Proof.
  intros Hwf Hutf8 Hpad.
  pose proof (base64Json_body members pad Hwf Hutf8 Hpad) as H3.
  destruct (stringify_object members) as [body Hbody].
  set (args := base64Body (JSON_stringify (JObj members)) +:+ pad) in *.
  assert (Hchars : VavooRev.allBase64Chars args = true).
  { apply allBase64Chars_app;
      [apply allBase64Chars_text | by apply allEqualSigns_base64]. }
  assert (Hargs : exists t, args = String "e" t).
  { subst args. rewrite Hbody.
    destruct (body_brace (body +:+ "}")) as [t ->]. by exists (t +:+ pad). }
  destruct Hargs as [t Ht].
  assert (H1 : VavooRev.directJson args = None) by (by rewrite Ht).
  assert (H2 : VavooRev.urlDecodedJson args = (None, args)).
  { unfold VavooRev.urlDecodedJson.
    by rewrite (includes_percent_text args Hchars). }
  unfold VavooRev.parseConfigFromArgs, VavooRev.parseConfigString.
  rewrite H1, H2, H3. by rewrite Ht.
Qed.

(** X1. The JSON text of a settings object, given as it is, is read back
    by the first step of [parseConfigFromArgs]. *)
Theorem plain_json_settings_round_trip (members : list (string * json)) :
  wellFormed (JObj members) ->
  VavooRev.directJson (JSON_stringify (JObj members)) = Some (JObj members) /\
  VavooRev.parseConfigFromArgs (Some (JStr (JSON_stringify (JObj members))))
  = Returns (JObj members).
Proof.
  intros Hwf.
  assert (H1 : VavooRev.directJson (JSON_stringify (JObj members))
               = Some (JObj members)).
  { unfold VavooRev.directJson. by rewrite (parse_stringify _ Hwf). }
  split; [exact H1|].
  unfold VavooRev.parseConfigFromArgs, VavooRev.parseConfigString.
  rewrite H1.
  destruct (stringify_object members) as [body ->]. reflexivity.
Qed.

Lemma plain_json_settings_round_trip_witness :
  VavooRev.parseConfigFromArgs
    (Some (JStr (JSON_stringify (JObj [("bothLinks", JStr "on")]))))
  = Returns (JObj [("bothLinks", JStr "on")]).
Proof.
  apply (plain_json_settings_round_trip [("bothLinks", JStr "on")]).
  split; [apply NoDup_singleton | split; constructor].
Defined.

Lemma encoded_object (members : list (string * json)) :
  exists t, encodeURIComponent (JSON_stringify (JObj members)) = String "%" t.
Proof.
  destruct (stringify_object members) as [body ->].
  rewrite encode_escaped by reflexivity. unfold escaped. eauto.
Qed.

(** X2. The percent-encoded JSON text of a settings object is read back in
    both revisions: by the second step of the cascade in the cache
    revision, by the only step of the EPG revision. *)
Theorem percent_encoded_settings_round_trip
    (members : list (string * json)) :
  wellFormed (JObj members) ->
  wellFormedUtf8 (JSON_stringify (JObj members)) ->
  let args := encodeURIComponent (JSON_stringify (JObj members)) in
  VavooRev.directJson args = None /\
  fst (VavooRev.urlDecodedJson args) = Some (JObj members) /\
  VavooRev.parseConfigFromArgs (Some (JStr args)) = Returns (JObj members) /\
  EpgRev.parseConfigFromArgs (Some (JStr args)) = Returns (JObj members).
Proof.
  intros Hwf Hutf8 args.
  destruct (encoded_object members) as [t Ht].
  assert (H1 : VavooRev.directJson args = None) by (subst args; by rewrite Ht).
  assert (H2 : VavooRev.urlDecodedJson args
               = (Some (JObj members), JSON_stringify (JObj members))).
  { unfold VavooRev.urlDecodedJson. subst args.
    rewrite (decode_encode_text _ Hutf8), (parse_stringify _ Hwf).
    rewrite Ht. by rewrite includes_first. }
  split; [exact H1|]. split; [by rewrite H2|]. split.
  - unfold VavooRev.parseConfigFromArgs, VavooRev.parseConfigString.
    rewrite H1, H2. subst args. by rewrite Ht.
  - unfold EpgRev.parseConfigFromArgs. subst args.
    rewrite (decode_encode_text _ Hutf8). cbn [bind].
    by rewrite (parse_stringify _ Hwf).
Qed.

Lemma percent_encoded_settings_round_trip_witness :
  EpgRev.parseConfigFromArgs
    (Some (JStr (encodeURIComponent
                   (JSON_stringify (JObj [("tmdbApiKey", JStr "né")])))))
  = Returns (JObj [("tmdbApiKey", JStr "né")]).
Proof.
  apply (percent_encoded_settings_round_trip [("tmdbApiKey", JStr "né")]).
  - split; [apply NoDup_singleton | split; constructor].
  - reflexivity.
Defined.

(** X3. The EPG revision has no Base64 step: the Base64 encoding of the
    text of any settings object gives the empty settings. *)
Theorem epg_ignores_base64_settings (members : list (string * json)) :
  EpgRev.parseConfigFromArgs
    (Some (JStr (base64_encode (JSON_stringify (JObj members)))))
  = Returns emptyObject.
Proof.
  destruct (stringify_object members) as [body ->].
  unfold EpgRev.parseConfigFromArgs.
  rewrite decode_without_percent
    by (apply includes_percent_text, allBase64Chars_encode).
  destruct (encode_brace (body +:+ "}")) as [t ->]. reflexivity.
Qed.

(** X4. In the cache revision the padding of Base64 settings may be
    missing, longer than needed, or escaped as [%3D]: the settings read are
    the same. *)
Theorem base64_padding_is_optional (members : list (string * json))
    (k : nat) :
  wellFormed (JObj members) ->
  wellFormedUtf8 (JSON_stringify (JObj members)) ->
  let body := base64Body (JSON_stringify (JObj members)) in
  VavooRev.parseConfigFromArgs (Some (JStr (body +:+ copies k "=")))
  = Returns (JObj members) /\
  VavooRev.parseConfigFromArgs (Some (JStr (body +:+ copies k "%3D")))
  = Returns (JObj members).
Proof.
  intros Hwf Hutf8 body.
  split; [apply parse_base64_body; auto using allEqualSigns_copies|].
  destruct k as [|k].
  { apply (parse_base64_body members ""); auto. }
  destruct (stringify_object members) as [text Htext].
  assert (Hbody : exists t, body = String "e" t).
  { subst body. rewrite Htext. apply body_brace. }
  destruct Hbody as [t Ht].
  assert (Hchars : VavooRev.allBase64Chars body = true)
    by apply allBase64Chars_text.
  set (args := body +:+ copies (S k) "%3D").
  assert (H1 : VavooRev.directJson args = None)
    by (subst args; by rewrite Ht).
  assert (Hdec : decodeURIComponent args
                 = Returns (body +:+ copies (S k) "=")).
  { unfold decodeURIComponent. subst args.
    rewrite decode_app by (by apply includes_percent_text).
    by rewrite decode_escaped_padding. }
  assert (H2 : VavooRev.urlDecodedJson args
               = (None, body +:+ copies (S k) "=")).
  { unfold VavooRev.urlDecodedJson. rewrite Hdec.
    replace (includes args "%") with true.
    - by rewrite Ht.
    - symmetry. subst args. apply (includes_inside body "%"). }
  unfold VavooRev.parseConfigFromArgs, VavooRev.parseConfigString.
  rewrite H1, H2.
  rewrite (base64Json_body members _ Hwf Hutf8 (allEqualSigns_copies _)).
  subst args. by rewrite Ht.
Qed.

Lemma base64_padding_is_optional_witness :
  VavooRev.parseConfigFromArgs (Some (JStr "eyJ0bWRiQXBpS2V5IjoiWFkifQ"))
  = Returns (JObj [("tmdbApiKey", JStr "XY")]) /\
  VavooRev.parseConfigFromArgs
    (Some (JStr "eyJ0bWRiQXBpS2V5IjoiWFkifQ%3D%3D"))
  = Returns (JObj [("tmdbApiKey", JStr "XY")]).
Proof.
  split.
  - apply (proj1 (base64_padding_is_optional
                    [("tmdbApiKey", JStr "XY")] 0
                    ltac:(split; [apply NoDup_singleton | split; constructor])
                    ltac:(reflexivity))).
  - apply (proj2 (base64_padding_is_optional
                    [("tmdbApiKey", JStr "XY")] 2
                    ltac:(split; [apply NoDup_singleton | split; constructor])
                    ltac:(reflexivity))).
Defined.

End SettingsFacts.

(* ================================================================== *)
(** * The settings merged by the middleware *)
(* ================================================================== *)

Module MiddlewareFacts.
Import JS Providers Properties Notions WebApp Examples.
Import StringFacts JsonFacts Base64Facts RoundTripFacts PercentFacts.
Import SettingsFacts.

Lemma getMember_setMember (l : list (string * json)) (k k' : string)
    (v : json) :
  getMember (setMember l k v) k'
  = if String.eqb k k' then Some v else getMember l k'.
Proof.
  induction l as [|[k0 v0] l IH]; [reflexivity|].
  cbn [setMember getMember].
  destruct (String.eqb_spec k0 k) as [->|Hne]; cbn [getMember].
  - by destruct (String.eqb k k').
  - rewrite IH. destruct (String.eqb_spec k0 k') as [->|Hne'].
    + destruct (String.eqb_spec k k') as [->|_]; [done|reflexivity].
    + reflexivity.
Qed.

Lemma own_assignEntry (c : ConfigCache) (kv : string * json) (k : string) :
  k <> "__proto__" ->
  getMember (own (assignEntry c kv)) k
  = if String.eqb (fst kv) k then Some (snd kv) else getMember (own c) k.
Proof.
  intros Hk. unfold assignEntry.
  destruct (String.eqb_spec (fst kv) "__proto__") as [Hp|Hp]; cbn [andb].
  - rewrite Hp.
    destruct (String.eqb_spec "__proto__" k) as [<-|_]; [done|].
    destruct (reachesProtoSetter c).
    + by destruct (snd kv).
    + cbn [own]. rewrite getMember_setMember.
      by destruct (String.eqb_spec "__proto__" k) as [<-|_].
  - cbn [own]. apply getMember_setMember.
Qed.

(** Reading a key other than [__proto__] after [Object.assign]: the last
    entry of the source with that key decides, the target otherwise. *)
Lemma own_assign (entries : list (string * json)) :
  forall (c : ConfigCache) (k : string),
    k <> "__proto__" ->
    getMember (own (Object_assign c entries)) k
    = match lastValue entries k with
      | Some v => Some v
      | None => getMember (own c) k
      end.
Proof.
  induction entries as [|[k0 v0] entries IH]; intros c k Hk; [done|].
  change (Object_assign c ((k0, v0) :: entries))
    with (Object_assign (assignEntry c (k0, v0)) entries).
  rewrite (IH _ _ Hk), (own_assignEntry _ _ _ Hk). cbn [fst snd lastValue].
  destruct (lastValue entries k); [done|]. by destruct (String.eqb k0 k).
Qed.

Lemma lastValue_getMember (entries : list (string * json)) (k : string) :
  NoDup (map fst entries) -> lastValue entries k = getMember entries k.
Proof.
  induction entries as [|[k0 v0] entries IH]; [done|].
  intros Hnd. apply NoDup_cons in Hnd as [Hnot Hnd].
  cbn [lastValue getMember]. rewrite (IH Hnd).
  destruct (String.eqb_spec k0 k) as [->|Hne]; [|by destruct (getMember _ _)].
  assert (Hnone : getMember entries k = None).
  { clear -Hnot. induction entries as [|[k1 v1] entries IH]; [done|].
    cbn [getMember]. cbn in Hnot.
    apply not_elem_of_cons in Hnot as [Hne Hnot].
    destruct (String.eqb_spec k1 k); [by subst|]. by apply IH. }
  by rewrite Hnone.
Qed.

Lemma assign_twice (entries : list (string * json)) (c : ConfigCache) :
  sameSettings (Object_assign c entries)
    (Object_assign (Object_assign c entries) entries).
Proof.
  intros k Hk.
  rewrite (own_assign entries (Object_assign c entries) k Hk).
  rewrite (own_assign entries c k Hk).
  by destruct (lastValue entries k).
Qed.

Lemma sameSettings_refl (c : ConfigCache) : sameSettings c c.
Proof. by intros k _. Qed.

(** One block after the other: the second finds no setting to change. *)
Lemma mergeSegment_twice (configString : option string)
    (c c1 : ConfigCache) :
  mergeSegment configString c = Returns c1 ->
  exists c2, mergeSegment configString c1 = Returns c2 /\ sameSettings c1 c2.
Proof.
  unfold mergeSegment.
  destruct (isConfigSegment configString);
    [|intros [= <-]; eexists; split; [done | apply sameSettings_refl]].
  destruct (VavooRev.parseConfigFromArgs (JStr <$> configString))
    as [parsedConfig|e]; [|done].
  cbn [bind]. destruct (ownEntries parsedConfig) as [keys|e]; [|done].
  cbn [bind]. destruct (0 <? length keys)%nat.
  - intros [= <-]. eexists. split; [done | apply assign_twice].
  - intros [= <-]. eexists. split; [done | apply sameSettings_refl].
Qed.

Lemma sameSettings_trans (a b c : ConfigCache) :
  sameSettings a b -> sameSettings b c -> sameSettings a c.
Proof. intros H1 H2 k Hk. rewrite (H1 k Hk). by apply H2. Qed.

(** The key [__proto__] is another matter: sent with [null], it takes the
    prototype away in the first block, and the second block, which finds no
    setter any more, makes a property of that name. *)
Lemma proto_key_is_written_by_second_block :
  let segment := encodeURIComponent (JSON_stringify (JObj protoSettings)) in
  let configCache := {| own := []; prototype := None |} in
  mergeSegment (Some segment) configCache
  = Returns {| own := [("k", JStr "v")]; prototype := Some JNull |} /\
  configMiddleware (String "/" (segment +:+ "/manifest.json")) configCache
  = Returns {| own := [("k", JStr "v"); ("__proto__", JNull)];
               prototype := Some JNull |}.
Proof. split; reflexivity. Qed.

(** X5. The block that reads the settings off the path is written twice
    in the middleware, and a client asks the same path again and again:
    both repetitions leave every setting as it is.  What the middleware
    leaves gives each key other than [__proto__] the value that one block
    gives it, and going through the middleware again with the same path
    does not change these values. *)
Theorem repeated_merge_is_idle (path : string) (c c2 : ConfigCache) :
  configMiddleware path c = Returns c2 ->
  (exists c1, mergeSegment (split "/" path !! 1) c = Returns c1
              /\ sameSettings c1 c2) /\
  (exists c3, configMiddleware path c2 = Returns c3 /\ sameSettings c2 c3).
Proof.
  unfold configMiddleware. intros H.
  destruct (mergeSegment (split "/" path !! 1) c) as [c1|e] eqn:H1; [|done].
  cbn [bind] in H.
  destruct (mergeSegment_twice _ _ _ H1) as (c2' & H2 & Hsame).
  assert (c2' = c2) by congruence. subst c2'.
  split; [by exists c1|].
  destruct (mergeSegment_twice _ _ _ H) as (c3 & H3 & Hsame3).
  rewrite H3. cbn [bind].
  destruct (mergeSegment_twice _ _ _ H3) as (c4 & H4 & Hsame4).
  exists c4. split; [done|]. by apply (sameSettings_trans _ c3).
Qed.

Lemma repeated_merge_is_idle_witness :
  exists c3,
    configMiddleware "/eyJ0bWRiQXBpS2V5IjoiWCJ9/manifest.json"
      {| own := [("bothLinks", JStr "on"); ("tmdbApiKey", JStr "X")];
         prototype := None |}
    = Returns c3 /\
    sameSettings
      {| own := [("bothLinks", JStr "on"); ("tmdbApiKey", JStr "X")];
         prototype := None |} c3.
Proof.
  apply (repeated_merge_is_idle "/eyJ0bWRiQXBpS2V5IjoiWCJ9/manifest.json"
           {| own := [("bothLinks", JStr "on")]; prototype := None |}).
  reflexivity.
Defined.

Lemma split_segment (seg rest : string) :
  includes seg "/" = false ->
  split "/" (seg +:+ String "/" rest) = seg :: split "/" rest.
Proof.
  induction seg as [|c seg IH]; intros H.
  - cbn [String.append split]. by rewrite Ascii.eqb_refl.
  - cbn [includes startsWith] in H.
    apply orb_false_iff in H as [Hc Hr].
    rewrite startsWith_empty, andb_true_r in Hc.
    cbn [String.append split]. rewrite Ascii.eqb_sym, Hc. by rewrite (IH Hr).
Qed.

Lemma first_segment (seg rest : string) :
  includes seg "/" = false ->
  split "/" (String "/" (seg +:+ String "/" rest)) !! 1 = Some seg.
Proof.
  intros H. cbn [split]. rewrite Ascii.eqb_refl.
  by rewrite (split_segment _ _ H).
Qed.

Lemma base64Char_one_unit (c : ascii) :
  VavooRev.isBase64Char c = true -> utf8_classify (code c) = Lead1.
Proof. every_char c; vm_compute; congruence. Qed.

Lemma jsLength_base64 (s : string) :
  VavooRev.allBase64Chars s = true -> jsLength s = String.length s.
Proof.
  unfold jsLength. induction s as [|c r IH]; [reflexivity|].
  cbn [VavooRev.allBase64Chars]. intros H.
  apply andb_true_iff in H as [Hc Hr].
  cbn [codeUnits]. rewrite (base64Char_one_unit _ Hc).
  cbn. by rewrite (IH Hr).
Qed.

Lemma mergeSegment_base64 (members : list (string * json))
    (c : ConfigCache) :
  wellFormed (JObj members) ->
  wellFormedUtf8 (JSON_stringify (JObj members)) ->
  let seg := base64_encode (JSON_stringify (JObj members)) in
  10 < String.length seg ->
  mergeSegment (Some seg) c
  = Returns (if (0 <? length members)%nat then Object_assign c members
             else c).
Proof.
  intros Hwf Hutf8 seg Hlen.
  assert (Hparse : VavooRev.parseConfigFromArgs (Some (JStr seg))
                   = Returns (JObj members)).
  { apply (parse_base64_body members _ Hwf Hutf8).
    apply allEqualSigns_padding. }
  assert (Hseg : exists t, seg = String "e" t).
  { subst seg. destruct (stringify_object members) as [body ->].
    apply encode_brace. }
  destruct Hseg as [t Ht].
  assert (Hgate : isConfigSegment (Some seg) = true).
  { unfold isConfigSegment.
    rewrite (jsLength_base64 seg) by apply allBase64Chars_encode.
    apply Nat.ltb_lt in Hlen. rewrite Hlen. by rewrite Ht. }
  unfold mergeSegment. rewrite Hgate.
  change (JStr <$> Some seg) with (Some (JStr seg)).
  rewrite Hparse. cbn [bind ownEntries].
  by destruct (0 <? length members)%nat.
Qed.

(** X6. A path whose first segment is the Base64 encoding of a settings
    object merges the settings into the ones kept: a key of the object
    takes the value sent, every other key keeps the value it had.  The
    segment is found when the encoding has no slash, and read when it has
    more than ten characters. *)
Theorem settings_segment_merges (members : list (string * json))
    (rest : string) (c : ConfigCache) :
  wellFormed (JObj members) ->
  wellFormedUtf8 (JSON_stringify (JObj members)) ->
  let seg := base64_encode (JSON_stringify (JObj members)) in
  includes seg "/" = false ->
  10 < String.length seg ->
  exists c',
    configMiddleware (String "/" (seg +:+ String "/" rest)) c = Returns c' /\
    forall k, k <> "__proto__" ->
      getMember (own c') k
      = match getMember members k with
        | Some v => Some v
        | None => getMember (own c) k
        end.
Proof.
  intros Hwf Hutf8 seg Hslash Hlen.
  unfold configMiddleware. rewrite (first_segment _ _ Hslash).
  subst seg. rewrite (mergeSegment_base64 members c Hwf Hutf8 Hlen).
  cbn [bind]. rewrite (mergeSegment_base64 members _ Hwf Hutf8 Hlen).
  eexists. split; [reflexivity|].
  intros k Hk.
  assert (Hnd : NoDup (map fst members)) by apply Hwf.
  destruct (0 <? length members)%nat eqn:Hn.
  - rewrite !own_assign by done.
    rewrite (lastValue_getMember _ _ Hnd).
    by destruct (getMember members k).
  - destruct members; [done | discriminate Hn].
Qed.

Lemma settings_segment_merges_witness :
  exists c',
    configMiddleware "/eyJ0bWRiQXBpS2V5IjoiWCJ9/manifest.json"
      {| own := [("bothLinks", JStr "on"); ("tmdbApiKey", JStr "old")];
         prototype := None |}
    = Returns c' /\
    forall k, k <> "__proto__" ->
      getMember (own c') k
      = match getMember [("tmdbApiKey", JStr "X")] k with
        | Some v => Some v
        | None =>
            getMember [("bothLinks", JStr "on"); ("tmdbApiKey", JStr "old")] k
        end.
Proof.
  apply (settings_segment_merges [("tmdbApiKey", JStr "X")] "manifest.json"
           {| own := [("bothLinks", JStr "on"); ("tmdbApiKey", JStr "old")];
              prototype := None |}).
  - split; [apply NoDup_singleton | split; constructor].
  - reflexivity.
  - reflexivity.
  - vm_compute. lia.
Defined.

(** X7. A segment that decodes to the JSON value [null] stops the
    middleware: [Object.keys] throws, the router is not reached and the
    settings are not touched. *)
Theorem null_settings_stop_the_request (seg rest : string)
    (c : ConfigCache) :
  includes seg "/" = false ->
  isConfigSegment (Some seg) = true ->
  VavooRev.parseConfigFromArgs (Some (JStr seg)) = Returns JNull ->
  configMiddleware (String "/" (seg +:+ String "/" rest)) c
  = Throws TypeError.
Proof.
  intros Hslash Hgate Hnull.
  unfold configMiddleware. rewrite (first_segment _ _ Hslash).
  unfold mergeSegment at 1. rewrite Hgate.
  change (JStr <$> Some seg) with (Some (JStr seg)).
  by rewrite Hnull.
Qed.

Lemma null_settings_stop_the_request_witness :
  configMiddleware "/%20%20%20null/manifest.json"
    {| own := []; prototype := None |}
  = Throws TypeError.
Proof.
  apply (null_settings_stop_the_request "%20%20%20null" "manifest.json");
    reflexivity.
Defined.

End MiddlewareFacts.

(* ================================================================== *)
(** * Channels resolved from the link cache *)
(* ================================================================== *)

Module CacheLookupFacts.
Import JS Providers VavooRev Properties Notions Scenarios Examples.
Import CacheFacts.

Lemma sameKey_eq (a b : json) : sameKey a b = true -> a = b.
Proof.
  destruct a, b; try discriminate; cbn; intros H; try reflexivity.
  - by apply Bool.eqb_prop in H; subst.
  - by apply String.eqb_eq in H; subst.
  - by apply String.eqb_eq in H; subst.
Qed.

(** [m.get(q)] after [m.set(k, v)]. *)
Lemma mapGet_mapSet (m : list (json * json)) (k v q : json) :
  mapGet (mapSet m k v) q = if sameKey k q then Some v else mapGet m q.
Proof.
  induction m as [|[k' v'] m IH]; [reflexivity|].
  cbn [mapSet]. destruct (sameKey k' k) eqn:Hk'; cbn [mapGet].
  - apply sameKey_eq in Hk'. subst k'. by destruct (sameKey k q).
  - rewrite IH. destruct (sameKey k' q) eqn:Hq; [|done].
    destruct (sameKey k q) eqn:Hkq; [|done].
    pose proof (sameKey_eq _ _ Hq). pose proof (sameKey_eq _ _ Hkq).
    subst. congruence.
Qed.

Lemma mapGet_nonempty (m : list (json * json)) (k v : json) :
  mapGet m k = Some v -> Nat.eqb (length m) 0 = false.
Proof. by destruct m. Qed.

Lemma callUpdate_effect (s : System) :
  links (cache (snd (callUpdate s))) = links (cache s) /\
  timestamp (cache (snd (callUpdate s))) = timestamp (cache s) /\
  lookups (snd (callUpdate s)) = lookups s /\
  updating (cache (snd (callUpdate s))) = true /\
  dumps (snd (callUpdate s))
  = if updating (cache s) then dumps s else S (dumps s).
Proof.
  unfold callUpdate, updateVavooCache_enter.
  by destruct (updating (cache s)) eqn:H.
Qed.

Lemma settleCached_answers (cachedUrl : option json) :
  answersCached (settleCached cachedUrl) cachedUrl.
Proof.
  unfold answersCached. destruct cachedUrl as [v|].
  - split; [done|]. split.
    + by intros u [= ->].
    + intros v' [= <-] Hv. destruct v as [| | | u | |]; try reflexivity.
      by destruct (Hv u).
  - split; [done|]. split; [done|]. by intros v.
Qed.

Lemma resolve_hit (channelName : string) (now : Z) (s : System)
    (cachedUrlRaw : json) :
  channelName <> EmptyString ->
  mapGet (links (cache s)) (JStr channelName) = Some cachedUrlRaw ->
  fst (resolveVavooChannelByName channelName now s)
  = settleCached (cachedUrlOf cachedUrlRaw).
Proof.
  intros Hname Hget. unfold resolveVavooChannelByName.
  destruct (callUpdate_effect s) as (Hl & _).
  destruct channelName; [done|]. cbn [nonEmpty].
  destruct ((CACHE_MAX_AGE <? now - timestamp (cache s))%Z
            || Nat.eqb (length (links (cache s))) 0).
  - by rewrite Hl, Hget.
  - by rewrite Hget.
Qed.

(** X8. A channel that the cache holds is answered from the cache whatever
    the age of the cache: with its link when the entry is a string or an
    array that starts with a non-empty string, with [null] when the entry
    gives no link, and with a rejection when the array starts with a truthy
    value that is no string.  In every case the resolver is not asked for
    the channel, the links stay as they are, and a dump is started only
    when the cache is stale and no dump is running. *)
Theorem cached_channel_served (channelName : string) (now : Z) (s : System)
    (cachedUrlRaw : json) :
  channelName <> EmptyString ->
  mapGet (links (cache s)) (JStr channelName) = Some cachedUrlRaw ->
  let s' := snd (resolveVavooChannelByName channelName now s) in
  answersCached (fst (resolveVavooChannelByName channelName now s))
    (cachedUrlOf cachedUrlRaw) /\
  links (cache s') = links (cache s) /\
  timestamp (cache s') = timestamp (cache s) /\
  lookups s' = lookups s /\
  dumps s' = (if stale now (cache s) && negb (updating (cache s))
              then S (dumps s) else dumps s) /\
  (stale now (cache s) = false -> s' = s).
Proof.
  intros Hname Hget.
  split.
  { rewrite (resolve_hit _ now s _ Hname Hget). apply settleCached_answers. }
  unfold resolveVavooChannelByName, stale.
  rewrite (mapGet_nonempty _ _ _ Hget), orb_false_r.
  destruct (CACHE_MAX_AGE <? now - timestamp (cache s))%Z eqn:Hstale.
  - destruct (callUpdate_effect s) as (Hl & Ht & Hlk & Hu & Hd).
    rewrite Hl. destruct channelName; [done|]. cbn [nonEmpty].
    rewrite Hget. cbn [fst snd].
    repeat split; try done. rewrite Hd. by destruct (updating (cache s)).
  - destruct channelName; [done|]. cbn [nonEmpty].
    rewrite Hget. by cbn.
Qed.

Lemma cached_channel_served_witness :
  fst (resolveVavooChannelByName "Rai 1" 1700000600000
         {| cache := warmCache; refreshing := 0; dumps := 0; lookups := [] |})
  = Resolved (Some (JStr "https://vavoo.example/rai1")) /\
  fst (resolveVavooChannelByName "Rai 3" 1700000600000
         {| cache := oddCache; refreshing := 0; dumps := 0; lookups := [] |})
  = Rejects TypeError.
Proof.
  split.
  - apply (proj1 (proj2 (proj1
             (cached_channel_served "Rai 1" 1700000600000
                {| cache := warmCache; refreshing := 0; dumps := 0;
                   lookups := [] |}
                (JStr "https://vavoo.example/rai1")
                ltac:(done) ltac:(reflexivity))))).
    reflexivity.
  - apply (proj2 (proj2 (proj1
             (cached_channel_served "Rai 3" 1700000600000
                {| cache := oddCache; refreshing := 0; dumps := 0;
                   lookups := [] |}
                (JArr [JNum "5"])
                ltac:(done) ltac:(reflexivity)))) (JNum "5")).
    + reflexivity.
    + done.
Defined.

(** X9. A channel that a filled cache does not hold resolves to [null] at
    once: the resolver is not asked for that one channel; a dump is running
    afterwards, and it was started by this call only when none was
    running. *)
Theorem missing_channel_on_filled_cache (channelName : string) (now : Z)
    (s : System) :
  mapGet (links (cache s)) (JStr channelName) = None ->
  (0 < timestamp (cache s))%Z ->
  let s' := snd (resolveVavooChannelByName channelName now s) in
  fst (resolveVavooChannelByName channelName now s) = Resolved None /\
  links (cache s') = links (cache s) /\
  timestamp (cache s') = timestamp (cache s) /\
  lookups s' = lookups s /\
  updating (cache s') = true /\
  dumps s' = (if updating (cache s) then dumps s else S (dumps s)).
Proof.
  intros Hget Hts. unfold resolveVavooChannelByName.
  destruct (callUpdate_effect s) as (Hl & Ht & Hlk & Hu & Hd).
  destruct ((CACHE_MAX_AGE <? now - timestamp (cache s))%Z
            || Nat.eqb (length (links (cache s))) 0).
  - rewrite Hl, Hget, Ht.
    replace (if nonEmpty channelName then None else None)
      with (@None json) by (by destruct (nonEmpty channelName)).
    apply Z.ltb_lt in Hts. rewrite Hts, Hu. cbn [negb fst snd].
    by repeat split.
  - rewrite Hget.
    replace (if nonEmpty channelName then None else None)
      with (@None json) by (by destruct (nonEmpty channelName)).
    apply Z.ltb_lt in Hts. rewrite Hts. cbn [fst snd].
    destruct (updating (cache s)) eqn:Hup; cbn [negb]; [by repeat split|].
    by repeat split.
Qed.

Lemma missing_channel_on_filled_cache_witness :
  fst (resolveVavooChannelByName "Rai 2" 1700000600000
         {| cache := warmCache; refreshing := 0; dumps := 0; lookups := [] |})
  = Resolved None.
Proof.
  apply (missing_channel_on_filled_cache "Rai 2" 1700000600000
           {| cache := warmCache; refreshing := 0; dumps := 0;
              lookups := [] |}); [reflexivity | reflexivity].
Defined.

(** X10. As long as no dump has ever filled the cache, a channel that is
    not in it is looked up on its own: the call waits for the resolver and
    the links stay as they are. *)
Theorem cold_cache_asks_the_resolver (channelName : string) (now : Z)
    (s : System) :
  mapGet (links (cache s)) (JStr channelName) = None ->
  (timestamp (cache s) <= 0)%Z ->
  let s' := snd (resolveVavooChannelByName channelName now s) in
  fst (resolveVavooChannelByName channelName now s) = Waiting /\
  lookups s' = channelName :: lookups s /\
  links (cache s') = links (cache s) /\
  timestamp (cache s') = timestamp (cache s).
Proof.
  intros Hget Hts. unfold resolveVavooChannelByName.
  destruct (callUpdate_effect s) as (Hl & Ht & Hlk & Hu & Hd).
  assert (H0 : (0 <? timestamp (cache s))%Z = false) by (apply Z.ltb_ge; lia).
  destruct ((CACHE_MAX_AGE <? now - timestamp (cache s))%Z
            || Nat.eqb (length (links (cache s))) 0).
  - rewrite Hl, Hget, Ht, H0.
    replace (if nonEmpty channelName then None else None)
      with (@None json) by (by destruct (nonEmpty channelName)).
    cbn [fst snd lookups cache]. by rewrite Hlk.
  - rewrite Hget, H0.
    replace (if nonEmpty channelName then None else None)
      with (@None json) by (by destruct (nonEmpty channelName)).
    by cbn.
Qed.

Lemma cold_cache_asks_the_resolver_witness :
  fst (resolveVavooChannelByName "Rai 1" 1700000600000 coldSystem) = Waiting.
Proof.
  apply (cold_cache_asks_the_resolver "Rai 1" 1700000600000 coldSystem);
    [reflexivity | vm_compute; discriminate].
Defined.

(** X11. The link that a look-up of one channel prints is kept under the
    name of the channel, trimmed: the next call for that name is answered
    with it from the cache.  The other names keep their links and the time
    of the last dump is not moved. *)
Theorem single_lookup_is_remembered (channelName stdout : string) (now : Z)
    (s : System) :
  channelName <> EmptyString ->
  trim stdout <> EmptyString ->
  let c' := snd (lookupCallback channelName (Returns stdout) (cache s)) in
  fst (lookupCallback channelName (Returns stdout) (cache s))
  = Some (trim stdout) /\
  fst (resolveVavooChannelByName channelName now (withCache c' s))
  = Resolved (Some (JStr (trim stdout))) /\
  (forall other, other <> channelName ->
     mapGet (links c') (JStr other) = mapGet (links (cache s)) (JStr other)) /\
  timestamp c' = timestamp (cache s).
Proof.
  intros Hname Hout c'.
  assert (Hcb : lookupCallback channelName (Returns stdout) (cache s)
                = (Some (trim stdout),
                   setLinks (mapSet (links (cache s)) (JStr channelName)
                               (JStr (trim stdout))) (cache s))).
  { unfold lookupCallback. by destruct (trim stdout). }
  subst c'. rewrite Hcb. cbn [fst snd].
  split; [done|]. split; [|split; [|done]].
  - rewrite (resolve_hit channelName now _ (JStr (trim stdout)));
      [reflexivity | done |].
    cbn. rewrite mapGet_mapSet. cbn. by rewrite String.eqb_refl.
  - intros other Hother. cbn. rewrite mapGet_mapSet. cbn.
    by destruct (String.eqb_spec channelName other).
Qed.

Lemma single_lookup_is_remembered_witness :
  fst (resolveVavooChannelByName "Rai 1" 1700000600000
         (withCache
            (snd (lookupCallback "Rai 1"
                    (Returns "  https://vavoo.example/live/1  ")
                    (cache coldSystem)))
            coldSystem))
  = Resolved (Some (JStr "https://vavoo.example/live/1")).
Proof.
  apply (single_lookup_is_remembered "Rai 1"
           "  https://vavoo.example/live/1  " 1700000600000 coldSystem);
    [done | vm_compute; discriminate].
Defined.

(** What the loop does with an entry that is not [null]. *)
Lemma addChannel_entry (updatedLinks : list (json * json)) (ch : json) :
  ch <> JNull ->
  addChannel updatedLinks ch
  = Returns
      match getProperty ch "name", getProperty ch "url" with
      | Some name, Some url =>
          if jsTruthy (Some name) && jsTruthy (Some url)
          then mapSet updatedLinks name url else updatedLinks
      | _, _ => updatedLinks
      end.
Proof.
  intros Hch. unfold addChannel.
  destruct ch; try done; cbn [getProperty].
  destruct (getMember members "name") as [nm|]; [|done].
  destruct (getMember members "url") as [u|].
  - by destruct (jsTruthy (Some nm) && jsTruthy (Some u)).
  - by destruct (jsTruthy (Some nm) && jsTruthy None).
Qed.

Lemma forEachChannel_lookup (elems : list json) :
  forall updatedLinks,
    JNull ∉ elems ->
    exists m,
      forEachChannel elems updatedLinks = Returns m /\
      forall name,
        mapGet m (JStr name)
        = match lastLink elems name with
          | Some u => Some u
          | None => mapGet updatedLinks (JStr name)
          end.
Proof.
  induction elems as [|ch elems IH]; intros updatedLinks Hnull.
  { exists updatedLinks. by split. }
  apply not_elem_of_cons in Hnull as [Hch Hnull].
  cbn [forEachChannel].
  rewrite (addChannel_entry updatedLinks ch) by done. cbn [bind].
  destruct (IH (match getProperty ch "name", getProperty ch "url" with
                | Some name, Some url =>
                    if jsTruthy (Some name) && jsTruthy (Some url)
                    then mapSet updatedLinks name url else updatedLinks
                | _, _ => updatedLinks
                end) Hnull) as (m & Hm & Hget).
  exists m. split; [exact Hm|].
  intros name. rewrite Hget. cbn [lastLink].
  destruct (lastLink elems name); [done|].
  destruct (getProperty ch "name") as [nm|]; [|done].
  destruct (getProperty ch "url") as [u|]; [|by destruct nm].
  destruct (jsTruthy (Some nm) && jsTruthy (Some u)) eqn:Hok.
  - rewrite mapGet_mapSet.
    apply andb_true_iff in Hok as [Hnm Hu].
    destruct nm as [| | |n| |]; cbn [sameKey]; try done.
    rewrite Hu, andb_true_r.
    destruct n; [done|]. cbn [nonEmpty]. rewrite andb_true_r.
    by destruct (String.eqb _ name).
  - destruct nm as [| | |n| |]; try done.
    replace (String.eqb n name && nonEmpty n && jsTruthy (Some u))
      with false; [done|].
    symmetry. apply andb_false_iff in Hok as [Hnm | Hu].
    + destruct n; [by rewrite andb_false_r | done].
    + by rewrite Hu, andb_false_r.
Qed.

Lemma forEachChannel_null (elems : list json) :
  forall updatedLinks,
    JNull ∈ elems -> forEachChannel elems updatedLinks = Throws TypeError.
Proof.
  induction elems as [|ch elems IH]; intros updatedLinks Hnull.
  { by apply elem_of_nil in Hnull. }
  cbn [forEachChannel].
  assert (Hch : ch = JNull \/ ch <> JNull) by (destruct ch; auto).
  destruct Hch as [->|Hch]; [reflexivity|].
  rewrite (addChannel_entry updatedLinks ch) by done. cbn [bind].
  apply IH. apply elem_of_cons in Hnull as [?|?]; [congruence | done].
Qed.

Lemma parse_nonempty (stdout : string) (v : json) :
  JSON_parse stdout = Returns v -> nonEmpty stdout = true.
Proof. by destruct stdout. Qed.

(** X12. After a dump that is an array without [null] entries, the links
    are those of the dump and nothing else: a name resolves to the link of
    the last entry that has this name and a truthy link, the time of the
    cache is the time of the dump and the flag is cleared. *)
Theorem dump_last_entry_wins (stdout : string) (elems : list json)
    (now : Z) (c : VavooCache) :
  updating c = false ->
  JSON_parse stdout = Returns (JArr elems) ->
  JNull ∉ elems ->
  exists c',
    updateVavooCache (Returns stdout) now c = (true, c') /\
    timestamp c' = now /\
    updating c' = false /\
    forall name, mapGet (links c') (JStr name) = lastLink elems name.
Proof.
  intros Hup Hparse Hnull.
  destruct (forEachChannel_lookup elems [] Hnull) as (m & Hm & Hget).
  exists {| timestamp := now; links := m; updating := false |}.
  unfold updateVavooCache, updateVavooCache_enter. rewrite Hup.
  unfold updateVavooCache_resume, parseChannels.
  rewrite (parse_nonempty _ _ Hparse), Hparse. cbn [bind channelsOf].
  rewrite Hm. cbn. repeat split.
  intros name. rewrite Hget. by destruct (lastLink elems name).
Qed.

Lemma dump_last_entry_wins_witness :
  exists c',
    updateVavooCache (Returns (JSON_stringify (JArr dump))) 1700000600000
      warmCache = (true, c') /\
    timestamp c' = 1700000600000%Z /\
    updating c' = false /\
    forall name, mapGet (links c') (JStr name) = lastLink dump name.
Proof.
  apply (dump_last_entry_wins (JSON_stringify (JArr dump)) dump
           1700000600000 warmCache).
  - reflexivity.
  - reflexivity.
  - unfold dump. rewrite !not_elem_of_cons.
    repeat split; try discriminate. apply not_elem_of_nil.
Defined.

(** X13. One [null] among the entries of a dump makes the whole dump
    useless: the update answers [false] and the links and the time of the
    cache stay as they were, the entries before the [null] included. *)
Theorem dump_with_null_entry_rejected (stdout : string) (elems : list json)
    (now : Z) (c : VavooCache) :
  JSON_parse stdout = Returns (JArr elems) ->
  JNull ∈ elems ->
  parseChannels stdout = Throws TypeError /\
  fst (updateVavooCache (Returns stdout) now c) = false /\
  links (snd (updateVavooCache (Returns stdout) now c)) = links c /\
  timestamp (snd (updateVavooCache (Returns stdout) now c)) = timestamp c.
Proof.
  intros Hparse Hnull.
  assert (Hthrows : parseChannels stdout = Throws TypeError).
  { unfold parseChannels. rewrite Hparse. cbn [bind channelsOf].
    by apply forEachChannel_null. }
  split; [exact Hthrows|].
  unfold updateVavooCache, updateVavooCache_enter.
  destruct (updating c); [done|].
  unfold updateVavooCache_resume.
  rewrite (parse_nonempty _ _ Hparse), Hthrows. by cbn.
Qed.

Lemma dump_with_null_entry_rejected_witness :
  links (snd (updateVavooCache (Returns (JSON_stringify (JArr brokenDump)))
                1700000600000 warmCache))
  = links warmCache.
Proof.
  apply (dump_with_null_entry_rejected
           (JSON_stringify (JArr brokenDump)) brokenDump
           1700000600000 warmCache).
  - reflexivity.
  - unfold brokenDump, dump. cbn [app]. rewrite !elem_of_cons. auto 10.
Defined.

(** X14. For twelve hours after a successful update, a channel that the
    update brought is answered from the cache and nothing else happens: no
    dump is started, no look-up, and the cache is not changed.  The answer
    is the link when the update brought a string or an array that starts
    with a non-empty string, [null] when it brought no link, and a rejection
    when it brought an array that starts with a truthy value that is no
    string. *)
Theorem refreshed_cache_answers_quietly (result : outcome string)
    (now later : Z) (c : VavooCache) (s : System) (channelName : string)
    (cachedUrlRaw : json) :
  fst (updateVavooCache result now c) = true ->
  let c' := snd (updateVavooCache result now c) in
  channelName <> EmptyString ->
  mapGet (links c') (JStr channelName) = Some cachedUrlRaw ->
  (later - now <= CACHE_MAX_AGE)%Z ->
  answersCached
    (fst (resolveVavooChannelByName channelName later (withCache c' s)))
    (cachedUrlOf cachedUrlRaw) /\
  snd (resolveVavooChannelByName channelName later (withCache c' s))
  = withCache c' s.
Proof.
  unfold updateVavooCache, updateVavooCache_enter.
  destruct (updating c); [discriminate|].
  destruct (resume_spec result now (setUpdating true c))
    as [(stdout & updatedLinks & _ & _ & _ & ->) | [-> _]]; [|discriminate].
  cbn [fst snd]. intros _ Hname Hget Hage.
  split.
  { rewrite (resolve_hit channelName later
               (withCache {| timestamp := now; links := updatedLinks;
                             updating := false |} s)
               cachedUrlRaw Hname Hget).
    apply settleCached_answers. }
  unfold resolveVavooChannelByName. cbn [cache withCache timestamp links].
  cbn [links] in Hget.
  rewrite (mapGet_nonempty _ _ _ Hget), orb_false_r.
  replace (CACHE_MAX_AGE <? later - now)%Z with false
    by (symmetry; apply Z.ltb_ge; lia).
  destruct channelName; [done|].
  cbn [nonEmpty cache withCache links]. by rewrite Hget.
Qed.

Lemma refreshed_cache_answers_quietly_witness :
  fst (resolveVavooChannelByName "Rai 1" 1700000900000
         (withCache
            (snd (updateVavooCache (Returns (JSON_stringify (JArr dump)))
                    1700000600000 warmCache))
            coldSystem))
  = Resolved (Some (JStr "https://vavoo.example/c")) /\
  fst (resolveVavooChannelByName "Rai 3" 1700000900000
         (withCache
            (snd (updateVavooCache (Returns (JSON_stringify (JArr oddDump)))
                    1700000600000 warmCache))
            coldSystem))
  = Rejects TypeError.
Proof.
  split.
  - apply (proj1 (proj2 (proj1
             (refreshed_cache_answers_quietly
                (Returns (JSON_stringify (JArr dump))) 1700000600000
                1700000900000 warmCache coldSystem "Rai 1"
                (JStr "https://vavoo.example/c")
                ltac:(reflexivity) ltac:(done) ltac:(reflexivity)
                ltac:(vm_compute; discriminate))))).
    reflexivity.
  - apply (proj2 (proj2 (proj1
             (refreshed_cache_answers_quietly
                (Returns (JSON_stringify (JArr oddDump))) 1700000600000
                1700000900000 warmCache coldSystem "Rai 3"
                (JArr [JNum "5"])
                ltac:(reflexivity) ltac:(done) ltac:(reflexivity)
                ltac:(vm_compute; discriminate)))) (JNum "5")).
    + reflexivity.
    + done.
Defined.

End CacheLookupFacts.

(* ================================================================== *)
(** * Which provider is asked for which id *)
(* ================================================================== *)

Module ProviderFacts.
Import JS Providers Properties Notions Scenarios.
Import OrchestratorFacts.

Lemma anime_id_is_no_movie_id (id : string) :
  startsWith id "kitsu:" || startsWith id "mal:" = true ->
  startsWith id "tt" = false /\ startsWith id "tmdb:" = false
  /\ startsWith id "tv:" = false.
Proof.
  destruct id as [|c id]; [done|]. cbn [startsWith].
  destruct (Ascii.eqb_spec "k" c) as [<-|Hk]; [done|].
  destruct (Ascii.eqb_spec "m" c) as [<-|Hm]; [done|].
  done.
Qed.

(** X15. An id of Kitsu or MyAnimeList never reaches VixSrc, in either
    revision: the calls made are those to the anime providers that are
    switched on, AnimeUnity before AnimeSaturn, and the handler returns.
    The cache revision asks with the Kitsu request for both kinds of id. *)
Theorem anime_ids_skip_vixsrc (w : World) (config : gmap string string)
    (tvChannels : list Channel) (id type : string) :
  type <> "tv" ->
  startsWith id "kitsu:" || startsWith id "mal:" = true ->
  let unity :=
    isOn config "animeunityEnabled" || envFlag w "ANIMEUNITY_ENABLED" in
  let saturn :=
    isOn config "animesaturnEnabled" || envFlag w "ANIMESATURN_ENABLED" in
  (exists l,
     handle (VavooRev.defineStreamHandler w config tvChannels id type)
     = (Returns l, animeCalls unity saturn (KitsuRequest id))) /\
  (exists l,
     handle (EpgRev.defineStreamHandler w config tvChannels id type)
     = (Returns l,
        animeCalls unity saturn
          (if startsWith id "kitsu:" then KitsuRequest id
           else MalRequest id))).
Proof.
  intros Htype Hid unity saturn.
  destruct (anime_id_is_no_movie_id id Hid) as (Htt & Htmdb & Htv).
  apply String.eqb_neq in Htype.
  split.
  - unfold VavooRev.defineStreamHandler, handle. rewrite Htype, Hid.
    fold unity saturn. cbn [andb].
    destruct unity, saturn; cbn [orb andb];
      unfold bindM, ret, animeCalls;
      rewrite ?askProvider_answer, ?Htt, ?Htmdb; cbn [orb];
      try rewrite askProvider_answer; eauto.
  - unfold EpgRev.defineStreamHandler, handle, tryM, bindM.
    rewrite Htype. fold unity saturn.
    unfold EpgRev.askAnimeProviders.
    assert (Hreq : EpgRev.animeRequestFor id
                   = Some (if startsWith id "kitsu:" then KitsuRequest id
                           else MalRequest id)).
    { unfold EpgRev.animeRequestFor. rewrite Htt, Htmdb. cbn [orb].
      apply orb_true_iff in Hid as [-> | Hmal]; [done|].
      rewrite Hmal. by destruct (startsWith id "kitsu:"). }
    rewrite Hreq.
    replace (startsWith id "kitsu:" || startsWith id "mal:"
             || startsWith id "tt" || startsWith id "tmdb:") with true
      by (by rewrite Hid).
    replace (negb (startsWith id "kitsu:") && negb (startsWith id "mal:")
             && negb (startsWith id "tv:")) with false
      by (apply orb_true_iff in Hid as [-> | H]; [done|];
          rewrite H; by rewrite andb_false_r).
    destruct unity, saturn; cbn [orb andb];
      unfold bindM, ret, animeCalls;
      rewrite ?askProvider_answer; eauto.
Qed.

Lemma anime_ids_skip_vixsrc_witness :
  exists l,
    handle (EpgRev.defineStreamHandler busyWorld animeOn [] "mal:21" "series")
    = (Returns l,
       [AnimeCall AnimeUnity (MalRequest "mal:21");
        AnimeCall AnimeSaturn (MalRequest "mal:21")]).
Proof.
  apply (anime_ids_skip_vixsrc busyWorld animeOn [] "mal:21" "series");
    [done | reflexivity].
Defined.




Lemma vixStreams_labelled (res : option (list VixCloudStreamInfo)) :
  Forall labelled (vixStreamsOf res).
Proof.
  destruct res as [l|]; [|constructor]. cbn.
  induction l as [|st l IH]; [constructor|]. cbn.
  apply Forall_app. split; [|exact IH].
  unfold vixStream. destruct (streamUrl st); repeat constructor.
Qed.

Lemma answer_labelled (w : World) (p : provider) (cfg : AnimeConfig)
    (q : request) :
  Forall labelled (answerOf w p cfg q).
Proof.
  unfold answerOf. destruct (animeRequest w p cfg q) as [result|];
    [|constructor].
  destruct result as [[[l|]]|]; try constructor. cbn.
  induction l as [|s l IH]; constructor; [|exact IH].
  unfold labelled. cbn. destruct p; auto.
Qed.

Lemma askProvider_labelled (w : World) (p : provider) (cfg : AnimeConfig)
    (r : option request) (allStreams : list Stream) (log : list call) :
  Forall labelled allStreams ->
  exists l log',
    askProvider w p cfg r allStreams log = (Returns l, log')
    /\ Forall labelled l.
Proof.
  intros Hall. destruct r as [q|].
  - rewrite askProvider_answer. eexists _, _. split; [done|].
    apply Forall_app. split; [done | apply answer_labelled].
  - by eexists _, _.
Qed.

Lemma askBoth_labelled (w : World) (unity saturn : bool)
    (unityConfig saturnConfig : AnimeConfig) (r : option request)
    (log : list call) :
  exists l calls,
    (let! allStreams :=
       (if unity then askProvider w AnimeUnity unityConfig r [] else ret []) in
     let! allStreams :=
       (if saturn then askProvider w AnimeSaturn saturnConfig r allStreams
        else ret allStreams) in
     ret allStreams) log
    = (Returns l, calls) /\ Forall labelled l.
Proof.
  unfold bindM at 1.
  assert (H1 : exists l1 log1,
             (if unity then askProvider w AnimeUnity unityConfig r []
              else ret []) log = (Returns l1, log1) /\ Forall labelled l1).
  { destruct unity; [by apply askProvider_labelled|].
    by eexists _, _. }
  destruct H1 as (l1 & log1 & -> & Hl1).
  unfold bindM.
  assert (H2 : exists l2 log2,
             (if saturn then askProvider w AnimeSaturn saturnConfig r l1
              else ret l1) log1 = (Returns l2, log2) /\ Forall labelled l2).
  { destruct saturn; [by apply askProvider_labelled|].
    by eexists _, _. }
  destruct H2 as (l2 & log2 & -> & Hl2).
  by eexists _, _.
Qed.

(** X17. Every stream that either handler returns for a film, a series or
    an anime carries the label of the provider it came from: [StreamViX Vx],
    [StreamViX AU] or [StreamViX AS], whatever name the provider gave it. *)
Theorem streams_carry_provider_label (w : World)
    (config : gmap string string) (tvChannels : list Channel)
    (id type : string) (l : list Stream) (calls : list call) :
  type <> "tv" ->
  (handle (VavooRev.defineStreamHandler w config tvChannels id type)
   = (Returns l, calls) -> Forall labelled l) /\
  (handle (EpgRev.defineStreamHandler w config tvChannels id type)
   = (Returns l, calls) -> Forall labelled l).
Proof.
  intros Htype. apply String.eqb_neq in Htype. split.
  - unfold VavooRev.defineStreamHandler, handle. rewrite Htype.
    destruct ((startsWith id "kitsu:" || startsWith id "mal:")
              && (_ || _ || (_ || _))).
    + destruct (askBoth_labelled w
                  (isOn config "animeunityEnabled"
                   || envFlag w "ANIMEUNITY_ENABLED")
                  (isOn config "animesaturnEnabled"
                   || envFlag w "ANIMESATURN_ENABLED")
                  (VavooRev.animeUnityConfig w config
                     (isOn config "animeunityEnabled"
                      || envFlag w "ANIMEUNITY_ENABLED")
                     (isOn config "bothLinks"))
                  (VavooRev.animeSaturnConfig w config
                     (isOn config "animesaturnEnabled"
                      || envFlag w "ANIMESATURN_ENABLED")
                     (isOn config "bothLinks"))
                  (Some (KitsuRequest id)) [])
        as (l' & calls' & -> & Hl'). by intros [= <- _].
    + destruct (startsWith id "tt" || startsWith id "tmdb:");
        [|by intros [= <- _]].
      unfold bindM at 1. unfold invoke at 1.
      destruct (getStreamContent w id type _) as [res|e]; [|done].
      destruct (negb (Nat.eqb (length (vixStreamsOf res)) 0)).
      { intros [= <- _]. apply vixStreams_labelled. }
      destruct (_ || _ || (_ || _)); [|by intros [= <- _]].
      destruct (askBoth_labelled w
                  (isOn config "animeunityEnabled"
                   || envFlag w "ANIMEUNITY_ENABLED")
                  (isOn config "animesaturnEnabled"
                   || envFlag w "ANIMESATURN_ENABLED")
                  (VavooRev.animeUnityConfig w config
                     (isOn config "animeunityEnabled"
                      || envFlag w "ANIMEUNITY_ENABLED")
                     (isOn config "bothLinks"))
                  (VavooRev.animeSaturnConfig w config
                     (isOn config "animesaturnEnabled"
                      || envFlag w "ANIMESATURN_ENABLED")
                     (isOn config "bothLinks"))
                  (VavooRev.imdbOrTmdbRequest id) ([] ++ [VixSrcCall id type]))
        as (l' & calls' & -> & Hl'). by intros [= <- _].
  - unfold EpgRev.defineStreamHandler, handle, tryM. rewrite Htype.
    unfold bindM at 1.
    assert (Hanime : exists l1 log1,
               EpgRev.askAnimeProviders w config
                 (isOn config "animeunityEnabled"
                  || envFlag w "ANIMEUNITY_ENABLED")
                 (isOn config "animesaturnEnabled"
                  || envFlag w "ANIMESATURN_ENABLED") id []
               = (Returns l1, log1) /\ Forall labelled l1).
    { unfold EpgRev.askAnimeProviders.
      destruct ((_ || _ || _ || _) && _); [|by eexists _, _].
      unfold bindM.
      set (unity := isOn config "animeunityEnabled"
                    || envFlag w "ANIMEUNITY_ENABLED").
      set (saturn := isOn config "animesaturnEnabled"
                     || envFlag w "ANIMESATURN_ENABLED").
      assert (H1 : exists l1 log1,
                 (if unity
                  then askProvider w AnimeUnity
                         (EpgRev.animeConfig w config unity
                            (isOn config "bothLinks"))
                         (EpgRev.animeRequestFor id) []
                  else ret []) [] = (Returns l1, log1)
                 /\ Forall labelled l1).
      { destruct unity; [by apply askProvider_labelled|].
        by eexists _, _. }
      destruct H1 as (l1 & log1 & -> & Hl1).
      destruct saturn; [by apply askProvider_labelled|].
      by eexists _, _. }
    destruct Hanime as (l1 & log1 & -> & Hl1).
    destruct (negb (startsWith id "kitsu:") && _ && _).
    + unfold bindM, invoke, ret.
      destruct (getStreamContent w id type _) as [res|e].
      * intros [= <- _]. apply Forall_app. split; [done|].
        apply vixStreams_labelled.
      * intros [= <- _]. constructor.
    + unfold ret. by intros [= <- _].
Qed.

Lemma streams_carry_provider_label_witness :
  Forall labelled (vixStreamsOf (Some [vixCandidate])).
Proof.
  apply (proj1 (streams_carry_provider_label busyWorld animeOn []
                  "tt0111161" "movie" (vixStreamsOf (Some [vixCandidate]))
                  [VixSrcCall "tt0111161" "movie"]
                  ltac:(done))).
  reflexivity.
Defined.

(** X18. An id that is none of the four known kinds is answered with the
    empty list and without a call in the cache revision, and is passed to
    VixSrc alone in the EPG revision, which answers with what VixSrc gave,
    or with the empty list when VixSrc throws. *)
Theorem ids_of_no_known_kind (w : World) (config : gmap string string)
    (tvChannels : list Channel) (id type : string) :
  type <> "tv" ->
  startsWith id "kitsu:" = false -> startsWith id "mal:" = false ->
  startsWith id "tt" = false -> startsWith id "tmdb:" = false ->
  handle (VavooRev.defineStreamHandler w config tvChannels id type)
  = (Returns [], []) /\
  (startsWith id "tv:" = false ->
   handle (EpgRev.defineStreamHandler w config tvChannels id type)
   = (Returns
        (vixAnswer (getStreamContent w id type
                      (EpgRev.extractorConfig w config))),
      [VixSrcCall id type])).
Proof.
  intros Htype Hkitsu Hmal Htt Htmdb. apply String.eqb_neq in Htype.
  split.
  - unfold VavooRev.defineStreamHandler, handle.
    by rewrite Htype, Hkitsu, Hmal, Htt, Htmdb.
  - intros Htv.
    unfold EpgRev.defineStreamHandler, handle, tryM, bindM,
      EpgRev.askAnimeProviders.
    rewrite Htype, Hkitsu, Hmal, Htt, Htmdb, Htv. cbn [orb andb negb].
    unfold ret, invoke, vixAnswer. cbn [app].
    by destruct (getStreamContent w id type _).
Qed.

Lemma ids_of_no_known_kind_witness :
  handle (VavooRev.defineStreamHandler busyWorld animeOn []
            "imdb0111161" "movie")
  = (Returns [], []).
Proof.
  apply (ids_of_no_known_kind busyWorld animeOn [] "imdb0111161" "movie");
    [done | reflexivity..].
Defined.

(** X19. When the stream handlers reject.  The EPG revision never does:
    whatever goes wrong inside, it answers.  The cache revision rejects in
    two cases and no other: for a live-TV id with an escape that cannot be
    decoded, and for an IMDB or TMDB id when the call of VixSrc throws. *)
Theorem handlers_reject_exactly_when (w : World)
    (config : gmap string string) (tvChannels : list Channel)
    (id type : string) :
  (exists l calls,
     handle (EpgRev.defineStreamHandler w config tvChannels id type)
     = (Returns l, calls)) /\
  ((exists e calls,
      handle (VavooRev.defineStreamHandler w config tvChannels id type)
      = (Throws e, calls)) <->
   (type = "tv" /\ exists e, VavooRev.cleanTvId id = Throws e)
   \/ (type <> "tv" /\ movieOrSeriesId id = true
       /\ exists e,
            getStreamContent w id type
              (VavooRev.extractorConfig w config (isOn config "bothLinks"))
            = Throws e)).
Proof.
  split; [apply epg_handler_returns|].
  unfold VavooRev.defineStreamHandler, handle.
  destruct (String.eqb_spec type "tv") as [->|Htype].
  - unfold bindM, lift.
    destruct (VavooRev.cleanTvId id) as [cleanId|e].
    + split.
      * intros (e & calls & H).
        by destruct (findChannel tvChannels cleanId).
      * intros [[_ [e ?]] | [? _]]; done.
    + split; [|by eauto]. intros _. left. eauto.
  - destruct ((startsWith id "kitsu:" || startsWith id "mal:")
              && (_ || _ || (_ || _))) eqn:Hanime.
    + destruct (askBoth_returns w
                  (isOn config "animeunityEnabled"
                   || envFlag w "ANIMEUNITY_ENABLED")
                  (isOn config "animesaturnEnabled"
                   || envFlag w "ANIMESATURN_ENABLED")
                  (VavooRev.animeUnityConfig w config
                     (isOn config "animeunityEnabled"
                      || envFlag w "ANIMEUNITY_ENABLED")
                     (isOn config "bothLinks"))
                  (VavooRev.animeSaturnConfig w config
                     (isOn config "animesaturnEnabled"
                      || envFlag w "ANIMESATURN_ENABLED")
                     (isOn config "bothLinks"))
                  (Some (KitsuRequest id)) []) as (l & calls & ->).
      split; [by intros (e & calls' & ?)|].
      intros [[? _] | (_ & Hid & _)]; [done|].
      destruct (movie_id_other_prefixes id Hid) as (Hk & Hm & _).
      by rewrite Hk, Hm in Hanime.
    + unfold movieOrSeriesId.
      destruct (startsWith id "tt" || startsWith id "tmdb:").
      2:{ split; [by intros (e & calls & ?)|].
          by intros [[? _] | (_ & ? & _)]. }
      unfold bindM at 1. unfold invoke at 1.
      destruct (getStreamContent w id type _) as [res|e].
      2:{ split; [|by eauto]. intros _. right. eauto. }
      split; [|by intros [[? _] | (_ & _ & e & ?)]].
      intros (e & calls & H). exfalso.
      destruct (negb (Nat.eqb (length (vixStreamsOf res)) 0)); [done|].
      destruct (_ || _ || (_ || _)); [|done].
      destruct (askBoth_returns w
                  (isOn config "animeunityEnabled"
                   || envFlag w "ANIMEUNITY_ENABLED")
                  (isOn config "animesaturnEnabled"
                   || envFlag w "ANIMESATURN_ENABLED")
                  (VavooRev.animeUnityConfig w config
                     (isOn config "animeunityEnabled"
                      || envFlag w "ANIMEUNITY_ENABLED")
                     (isOn config "bothLinks"))
                  (VavooRev.animeSaturnConfig w config
                     (isOn config "animesaturnEnabled"
                      || envFlag w "ANIMESATURN_ENABLED")
                     (isOn config "bothLinks"))
                  (VavooRev.imdbOrTmdbRequest id) ([] ++ [VixSrcCall id type]))
        as (l & calls' & Hl).
      rewrite Hl in H. done.
Qed.

Lemma handlers_reject_exactly_when_witness :
  exists e calls,
    handle (VavooRev.defineStreamHandler quietWorld ∅ [rai1] "rai1%3A%" "tv")
    = (Throws e, calls).
Proof.
  apply (proj2 (handlers_reject_exactly_when quietWorld ∅ [rai1]
                  "rai1%3A%" "tv")).
  left. split; [reflexivity|]. by exists URIError.
Defined.

End ProviderFacts.

(* ================================================================== *)
(** * The live-TV answer of the EPG revision, step by step *)
(* ================================================================== *)

Module TvStepFacts.
Import JS Providers Properties Notions Scenarios Examples.
Import StringFacts TvFacts PercentFacts.

(** The look-up of the Vavoo link: at most one stream, and the one call
    when the channel has a name and the TV proxy is set. *)
Lemma vavooStream_calls (w : World) (tvProxyUrl : string)
    (channelName : option string) (log : list call) :
  exists l,
    EpgRev.vavooStream w tvProxyUrl channelName log
    = (Returns l,
       (log ++ if truthy channelName && nonEmpty tvProxyUrl
               then [VavooCall (or_empty channelName)] else [])%list)
    /\ length l <= 1
    /\ ((forall link, vavooResolver w (or_empty channelName)
                      <> Returns (Some link)) -> l = []).
Proof.
  unfold EpgRev.vavooStream.
  destruct (truthy channelName && nonEmpty tvProxyUrl).
  - unfold tryM, bindM, invoke, ret.
    destruct (vavooResolver w (or_empty channelName)) as [[link|]|e].
    + destruct (truthy (Some link)); eexists; (split; [done|]);
        (split; [cbn; lia|]); intros H; by destruct (H link).
    + eexists. split; [done|]. split; [cbn; lia | done].
    + eexists. split; [done|]. split; [cbn; lia | done].
  - unfold ret. exists []. rewrite app_nil_r. split; [done|].
    split; [cbn; lia | done].
Qed.

Lemma staticStream_length (isFreeToAir : bool) (mfpUrl mfpPsw : string)
    (channelName : option string) (mark directTag proxyTag : string)
    (link : option string) :
  length (EpgRev.staticStream isFreeToAir mfpUrl mfpPsw channelName mark
            directTag proxyTag link) <= 1.
Proof.
  unfold EpgRev.staticStream.
  destruct link as [[|c r]|]; cbn; try lia.
  destruct isFreeToAir; [cbn; lia|].
  destruct (nonEmpty mfpUrl && nonEmpty mfpPsw); cbn; lia.
Qed.

Lemma daddyStream_length (tvProxyUrl : string) (channelName : option string)
    (link : option string) :
  length (EpgRev.daddyStream tvProxyUrl channelName link) <= 1.
Proof. unfold EpgRev.daddyStream. destruct link as [[|c r]|]; cbn; lia. Qed.

(** The live-TV branch for the channel found, with the calls it makes. *)
Lemma tvStreams_calls (w : World) (config : gmap string string)
    (cleanId : string) (channel : Channel) (log : list call) :
  exists streams4,
    EpgRev.tvStreams w config cleanId channel log
    = (Returns
         (map EpgRev.toTvStream
            (EpgRev.staticStream (EpgRev.isFreeToAirChannel cleanId)
               (EpgRev.mfpUrlOf config) (EpgRev.mfpPswOf config)
               (channelName channel) "🔴" " (Direct)" " (Proxy)"
               (staticUrl channel)
             ++ EpgRev.staticStream (EpgRev.isFreeToAirChannel cleanId)
                  (EpgRev.mfpUrlOf config) (EpgRev.mfpPswOf config)
                  (channelName channel) "🎬" " (HD)" " (HD)"
                  (staticUrl2 channel)
             ++ EpgRev.daddyStream (EpgRev.tvProxyUrlOf config)
                  (channelName channel) (staticUrlD channel)
             ++ streams4)%list),
       (log ++ if truthy (channelName channel)
                  && nonEmpty (EpgRev.tvProxyUrlOf config)
               then [VavooCall (or_empty (channelName channel))]
               else [])%list)
    /\ length streams4 <= 1
    /\ ((forall link, vavooResolver w (or_empty (channelName channel))
                      <> Returns (Some link)) -> streams4 = []).
Proof.
  unfold EpgRev.tvStreams, bindM.
  destruct (vavooStream_calls w (EpgRev.tvProxyUrlOf config)
              (channelName channel) log) as (l & -> & Hlen & Hnone).
  by exists l.
Qed.

(** X20. In the EPG revision the Vavoo resolver is called for a live
    channel only when the channel has a name and a TV proxy is set, and then
    once, with the name of the channel; an unknown channel is answered with
    the empty list and without a call.  The proxy password and the third
    link are texts that [encodeURIComponent] takes. *)
Theorem vavoo_lookup_needs_name_and_proxy (w : World)
    (config : gmap string string) (tvChannels : list Channel) (id : string) :
  (findChannel tvChannels (epgCleanId id) = None ->
   handle (EpgRev.defineStreamHandler w config tvChannels id "tv")
   = (Returns [], [])) /\
  (forall channel,
     findChannel tvChannels (epgCleanId id) = Some channel ->
     wellFormedUtf8 (EpgRev.mfpPswOf config) ->
     encodable (staticUrlD channel) ->
     snd (handle (EpgRev.defineStreamHandler w config tvChannels id "tv"))
     = if truthy (channelName channel)
          && nonEmpty (EpgRev.tvProxyUrlOf config)
       then [VavooCall (or_empty (channelName channel))] else []).
Proof.
  unfold EpgRev.defineStreamHandler, handle, tryM, epgCleanId.
  change (String.eqb "tv" "tv") with true. cbv iota.
  split.
  - by intros ->.
  - intros channel -> _ _.
    destruct (tvStreams_calls w config
                (if startsWith id "tv:" then replace id "tv:" "" else id)
                channel []) as (streams4 & -> & _).
    done.
Qed.

Lemma vavoo_lookup_needs_name_and_proxy_witness :
  snd (handle (EpgRev.defineStreamHandler quietWorld tvProxyOn [sportChannel]
                 "tv:skysport" "tv"))
  = [VavooCall "Sky Sport"].
Proof.
  apply (proj2 (vavoo_lookup_needs_name_and_proxy quietWorld tvProxyOn
                  [sportChannel] "tv:skysport") sportChannel).
  - reflexivity.
  - reflexivity.
  - intros s [= <-]. reflexivity.
Defined.

(** X21. A Vavoo resolver that throws costs the live-TV answer of the EPG
    revision nothing but the Vavoo link: the answer is the one given when
    the resolver finds no channel. *)
Theorem vavoo_failure_keeps_static_links (w : World)
    (config : gmap string string) (tvChannels : list Channel) (id : string)
    (channel : Channel) (e : exn) :
  findChannel tvChannels (epgCleanId id) = Some channel ->
  vavooResolver w (or_empty (channelName channel)) = Throws e ->
  handle (EpgRev.defineStreamHandler w config tvChannels id "tv")
  = handle (EpgRev.defineStreamHandler (withoutVavoo w) config tvChannels id
              "tv").
Proof.
  intros Hfind Hthrows.
  unfold EpgRev.defineStreamHandler, handle, tryM.
  change (String.eqb "tv" "tv") with true. cbv iota.
  unfold epgCleanId in Hfind. rewrite Hfind.
  unfold EpgRev.tvStreams, bindM, EpgRev.vavooStream, tryM, invoke, ret.
  destruct (truthy (channelName channel)
            && nonEmpty (EpgRev.tvProxyUrlOf config)); [|done].
  rewrite Hthrows. reflexivity.
Qed.

Lemma vavoo_failure_keeps_static_links_witness :
  handle (EpgRev.defineStreamHandler vavooDownWorld tvProxyOn [sportChannel]
            "tv:skysport" "tv")
  = handle (EpgRev.defineStreamHandler (withoutVavoo vavooDownWorld)
              tvProxyOn [sportChannel] "tv:skysport" "tv").
Proof.
  apply (vavoo_failure_keeps_static_links vavooDownWorld tvProxyOn
           [sportChannel] "tv:skysport" sportChannel
           (Rejected "resolver timed out")); reflexivity.
Defined.

Lemma toTvStream_shape (l : list (string * string)) :
  Forall tvStream (map EpgRev.toTvStream l).
Proof.
  induction l as [|s l IH]; constructor; [|exact IH].
  unfold tvStream, EpgRev.toTvStream. cbn. by repeat split; eauto.
Qed.

(** X22. The live-TV answer of the EPG revision always comes, with at most
    four streams, one for each step; each of them is named [StreamViX TV]
    and has a title and a link. *)
Theorem tv_answer_shape (w : World) (config : gmap string string)
    (tvChannels : list Channel) (id : string) :
  exists l calls,
    handle (EpgRev.defineStreamHandler w config tvChannels id "tv")
    = (Returns l, calls)
    /\ Forall tvStream l /\ length l <= 4.
Proof.
  unfold EpgRev.defineStreamHandler, handle, tryM.
  change (String.eqb "tv" "tv") with true. cbv iota.
  destruct (findChannel tvChannels _) as [channel|].
  - destruct (tvStreams_calls w config
                (if startsWith id "tv:" then replace id "tv:" "" else id)
                channel []) as (streams4 & -> & Hlen & _).
    eexists _, _. split; [done|]. split; [apply toTvStream_shape|].
    rewrite length_map, !length_app.
    pose proof (staticStream_length
                  (EpgRev.isFreeToAirChannel
                     (if startsWith id "tv:" then replace id "tv:" ""
                      else id))
                  (EpgRev.mfpUrlOf config) (EpgRev.mfpPswOf config)
                  (channelName channel) "🔴" " (Direct)" " (Proxy)"
                  (staticUrl channel)).
    pose proof (staticStream_length
                  (EpgRev.isFreeToAirChannel
                     (if startsWith id "tv:" then replace id "tv:" ""
                      else id))
                  (EpgRev.mfpUrlOf config) (EpgRev.mfpPswOf config)
                  (channelName channel) "🎬" " (HD)" " (HD)"
                  (staticUrl2 channel)).
    pose proof (daddyStream_length (EpgRev.tvProxyUrlOf config)
                  (channelName channel) (staticUrlD channel)).
    lia.
  - exists [], []. split; [done|]. split; [constructor | cbn; lia].
Qed.

(** X23. The third link of a channel is sent through the TV proxy when one
    is set and given as it is otherwise, free to air or not; the proxy gets
    the link as one query value that decodes back to the link.  The link
    and the proxy password are texts that [encodeURIComponent] takes. *)
Theorem tertiary_link_through_tv_proxy (w : World)
    (config : gmap string string) (tvChannels : list Channel) (id : string)
    (channel : Channel) (link : string) :
  findChannel tvChannels (epgCleanId id) = Some channel ->
  staticUrlD channel = Some link ->
  link <> EmptyString ->
  wellFormedUtf8 link ->
  wellFormedUtf8 (EpgRev.mfpPswOf config) ->
  let tvProxyUrl := EpgRev.tvProxyUrlOf config in
  exists l calls shownTitle payload,
    handle (EpgRev.defineStreamHandler w config tvChannels id "tv")
    = (Returns l, calls) /\
    {| name := Some "StreamViX TV"; title := Some shownTitle;
       url := Some (if nonEmpty tvProxyUrl
                    then tvProxyUrl +:+ "/proxy/m3u?url=" +:+ payload
                    else link);
       behaviorHints := None |} ∈ l /\
    decodeURIComponent payload = Returns link.
Proof.
  intros Hfind Hlink Hne Hutf8 _ tvProxyUrl.
  unfold EpgRev.defineStreamHandler, handle, tryM.
  change (String.eqb "tv" "tv") with true. cbv iota.
  unfold epgCleanId in Hfind. rewrite Hfind.
  destruct (tvStreams_calls w config
              (if startsWith id "tv:" then replace id "tv:" "" else id)
              channel []) as (streams4 & -> & _).
  eexists _, _, _, (encodeURIComponent link).
  split; [reflexivity|]. split; [|by apply decode_encode_text].
  rewrite Hlink. destruct link as [|c r]; [done|].
  cbn [EpgRev.daddyStream].
  apply list_elem_of_In, in_map_iff.
  eexists (_, _).
  split; [|apply list_elem_of_In; rewrite !elem_of_app, elem_of_cons; eauto].
  unfold EpgRev.toTvStream, EpgRev.tvProxied. cbn [fst snd]. fold tvProxyUrl.
  by destruct (nonEmpty tvProxyUrl).
Qed.

Lemma tertiary_link_through_tv_proxy_witness :
  exists l calls shownTitle payload,
    handle (EpgRev.defineStreamHandler quietWorld tvProxyOn [sportChannel]
              "tv:skysport" "tv")
    = (Returns l, calls) /\
    {| name := Some "StreamViX TV"; title := Some shownTitle;
       url := Some ("http://tvproxy" +:+ "/proxy/m3u?url=" +:+ payload);
       behaviorHints := None |} ∈ l /\
    decodeURIComponent payload = Returns "https://example.org/d?id=7&q=a b".
Proof.
  apply (tertiary_link_through_tv_proxy quietWorld tvProxyOn [sportChannel]
           "tv:skysport" sportChannel "https://example.org/d?id=7&q=a b");
    [reflexivity | reflexivity | done | reflexivity | reflexivity].
Defined.

End TvStepFacts.

(* ================================================================== *)
(** * The catalog, the meta handler and the channels between them *)
(* ================================================================== *)

Module CatalogFacts.
Import JS Providers Properties Notions WebApp Scenarios Examples.
Import RoundTripFacts.

Lemma cleanTvId_prefixed (cid : string) :
  VavooRev.cleanTvId ("tv:" +:+ cid) = Returns cid.
Proof.
  unfold VavooRev.cleanTvId. cbn [String.append startsWith replace].
  rewrite !Ascii.eqb_refl, startsWith_empty. reflexivity.
Qed.

Lemma find_by_id {A} (key : A -> string) (l : list A) (x : A) :
  x ∈ l ->
  exists y, List.find (fun c => String.eqb (key c) (key x)) l = Some y
            /\ y ∈ l /\ key y = key x.
Proof.
  induction l as [|a l IH]; intros Hx; [by apply elem_of_nil in Hx|].
  cbn [List.find]. destruct (String.eqb_spec (key a) (key x)) as [Ha|Ha].
  - exists a. split; [done|]. split; [apply list_elem_of_here | done].
  - apply elem_of_cons in Hx as [-> | Hx]; [done|].
    destruct (IH Hx) as (y & Hy & Hin & Hkey).
    exists y. split; [done|]. split; [by apply list_elem_of_further | done].
Qed.

Lemma filterChannels_filter (target : genreTarget) (l k : list TvChannel) :
  filterChannels target l = Returns k ->
  k = List.filter
        (fun ch => match getChannelCategories ch with
                   | Returns categories => inCategory target categories
                   | Throws _ => false
                   end) l.
Proof.
  revert k. induction l as [|ch l IH]; intros k; [by intros [= <-]|].
  cbn [filterChannels List.filter].
  destruct (getChannelCategories ch) as [categories|e]; [|done].
  cbn [bind]. destruct (filterChannels target l) as [kept|e]; [|done].
  cbn [bind]. intros [= <-]. rewrite <- (IH kept eq_refl).
  by destruct (inCategory target categories).
Qed.

Lemma catalog_from_channels (tvChannels : list TvChannel)
    (genre : option string) (metas : list Meta) (m : Meta) :
  defineCatalogHandler tvChannels "tv" genre = Returns metas ->
  m ∈ metas ->
  exists ch, ch ∈ tvChannels /\ m = toMeta ch.
Proof.
  unfold defineCatalogHandler. change (String.eqb "tv" "tv") with true.
  cbv iota. intros H Hm.
  assert (Hsub : exists filtered,
             metas = map toMeta filtered
             /\ forall ch, ch ∈ filtered -> ch ∈ tvChannels).
  { destruct (truthy genre).
    - destruct (genreMap (or_empty genre)) as [|c|] eqn:Hg.
      + injection H as <-. by exists tvChannels.
      + destruct (filterChannels (Category c) tvChannels) as [kept|e] eqn:Hf;
          [|done].
        injection H as <-. exists kept. split; [done|].
        intros ch Hch. rewrite (filterChannels_filter _ _ _ Hf) in Hch.
        apply list_elem_of_In, filter_In in Hch as [Hch _].
        by apply list_elem_of_In.
      + destruct (filterChannels Inherited tvChannels) as [kept|e] eqn:Hf;
          [|done].
        injection H as <-. exists kept. split; [done|].
        intros ch Hch. rewrite (filterChannels_filter _ _ _ Hf) in Hch.
        apply list_elem_of_In, filter_In in Hch as [Hch _].
        by apply list_elem_of_In.
    - injection H as <-. by exists tvChannels. }
  destruct Hsub as (filtered & -> & Hsub).
  apply list_elem_of_In, in_map_iff in Hm as (ch & <- & Hch).
  exists ch. split; [|done]. by apply Hsub, list_elem_of_In.
Qed.

(** X24. Every id that the catalog hands out is known to the meta handler:
    asked for it, the meta handler answers with an entry that has the same
    id and is made from a channel of the list with the id of the channel
    that the catalog entry came from. *)
Theorem catalog_ids_resolve (tvChannels : list TvChannel)
    (genre : option string) (thisYear : string) (metas : list Meta)
    (m : Meta) :
  defineCatalogHandler tvChannels "tv" genre = Returns metas ->
  m ∈ metas ->
  exists d,
    defineMetaHandler tvChannels thisYear "tv" (metaId m) = Returns (Some d)
    /\ metaId (summary d) = metaId m
    /\ source (summary d) ∈ tvChannels
    /\ channelId (channel (source (summary d)))
       = channelId (channel (source m)).
Proof.
  intros Hcat Hm.
  destruct (catalog_from_channels _ _ _ _ Hcat Hm) as (ch & Hch & ->).
  destruct (find_by_id (fun c => channelId (channel c)) tvChannels ch Hch)
    as (ch' & Hfind & Hin & Hkey).
  unfold defineMetaHandler. change (String.eqb "tv" "tv") with true.
  cbv iota. cbn [toMeta metaId]. rewrite cleanTvId_prefixed. cbn [bind].
  rewrite Hfind. eexists. split; [reflexivity|].
  cbn [summary toMeta metaId source]. by rewrite Hkey.
Qed.

Lemma catalog_ids_resolve_witness :
  exists d,
    defineMetaHandler [rai1Entry; sportEntry] "2025" "tv" "tv:skysport"
    = Returns (Some d)
    /\ metaId (summary d) = "tv:skysport"
    /\ source (summary d) ∈ [rai1Entry; sportEntry]
    /\ channelId (channel (source (summary d))) = "skysport".
Proof.
  apply (catalog_ids_resolve [rai1Entry; sportEntry] (Some "Sport") "2025"
           [toMeta sportEntry] (toMeta sportEntry)).
  - reflexivity.
  - apply list_elem_of_here.
Defined.

(** X25. Every id that the catalog hands out is played by the stream
    handler of the cache revision from the first link of a channel with
    that id, as it is in the list: no proxy is put before it and no
    provider is called. *)
Theorem catalog_ids_play_unproxied (w : World) (config : gmap string string)
    (tvChannels : list TvChannel) (genre : option string)
    (metas : list Meta) (m : Meta) :
  defineCatalogHandler tvChannels "tv" genre = Returns metas ->
  m ∈ metas ->
  exists ch,
    ch ∈ tvChannels /\
    channelId (channel ch) = channelId (channel (source m)) /\
    handle (VavooRev.defineStreamHandler w config (map channel tvChannels)
              (metaId m) "tv")
    = (Returns (plainStream (channel ch)), []).
Proof.
  intros Hcat Hm.
  destruct (catalog_from_channels _ _ _ _ Hcat Hm) as (ch & Hch & ->).
  assert (Hin : channel ch ∈ map channel tvChannels)
    by (apply list_elem_of_In, in_map; by apply list_elem_of_In).
  destruct (find_by_id channelId (map channel tvChannels) (channel ch) Hin)
    as (c' & Hfind & Hin' & Hkey).
  apply list_elem_of_In, in_map_iff in Hin' as (ch' & <- & Hch').
  exists ch'. split; [by apply list_elem_of_In|]. split; [done|].
  unfold VavooRev.defineStreamHandler, handle, bindM, lift.
  change (String.eqb "tv" "tv") with true. cbv iota.
  cbn [toMeta metaId]. rewrite cleanTvId_prefixed.
  unfold findChannel. by rewrite Hfind.
Qed.

Lemma catalog_ids_play_unproxied_witness :
  exists ch,
    ch ∈ [rai1Entry; sportEntry] /\
    channelId (channel ch) = "rai1" /\
    handle (VavooRev.defineStreamHandler quietWorld
              (<["mfpProxyUrl" := "http://mfp"]>
                 (<["mfpProxyPassword" := "secret"]> ∅))
              (map channel [rai1Entry; sportEntry]) "tv:rai1" "tv")
    = (Returns (plainStream (channel ch)), []).
Proof.
  apply (catalog_ids_play_unproxied quietWorld
           (<["mfpProxyUrl" := "http://mfp"]>
              (<["mfpProxyPassword" := "secret"]> ∅))
           [rai1Entry; sportEntry] None
           [toMeta rai1Entry; toMeta sportEntry] (toMeta rai1Entry)).
  - reflexivity.
  - apply list_elem_of_here.
Defined.

Lemma keywordCategories_tags (name description : string) (c : string) :
  c ∈ keywordCategories name description ->
  c ∈ ["rai"; "mediaset"; "sky"; "kids"; "news"; "sport"; "movies"].
Proof.
  unfold keywordCategories, tagIf.
  repeat match goal with
         | |- context [if ?b then _ else _] => destruct b
         end;
    cbn [app]; rewrite ?elem_of_cons; rewrite ?elem_of_nil; intuition.
Qed.

(** X26. A channel always has at least one category when its categories
    can be read: the declared ones when there are any, and otherwise the
    ones read off its name and description, or [general] when no word is
    found.  They cannot be read exactly when none is declared and the name
    or the description is missing. *)
Theorem categories_of_a_channel (ch : TvChannel) :
  (forall l, getChannelCategories ch = Returns l -> l <> []) /\
  (declaredCategories ch <> [] ->
   getChannelCategories ch = Returns (declaredCategories ch)) /\
  (forall l, declaredCategories ch = [] ->
     getChannelCategories ch = Returns l ->
     l = ["general"]
     \/ forall c, c ∈ l ->
          c ∈ ["rai"; "mediaset"; "sky"; "kids"; "news"; "sport"; "movies"]) /\
  ((exists e, getChannelCategories ch = Throws e) <->
   declaredCategories ch = []
   /\ (channelName (channel ch) = None \/ description ch = None)).
Proof.
  unfold getChannelCategories.
  destruct (declaredCategories ch) as [|c0 declared] eqn:Hdecl;
    cbn [length Nat.eqb].
  - destruct (channelName (channel ch)) as [name|];
      destruct (description ch) as [description|];
      (split; [|split; [|split; [|split]]]); try done;
      try (by intros [e ?]); try (by intros [_ [?|?]]); eauto.
    + intros l [= <-]. by destruct (keywordCategories _ _).
    + intros l _ [= <-].
      destruct (keywordCategories _ _) as [|c l'] eqn:Hk; [by left|].
      right. cbn [length Nat.eqb]. intros c' Hc'.
      apply (keywordCategories_tags (WebApp.toLowerCase name)
               (WebApp.toLowerCase description)). by rewrite Hk.
  - split; [|split; [|split; [|split]]]; try done;
      try (by intros [e ?]); try (by intros [? _]).
    by intros l [= <-].
Qed.

Lemma categories_of_a_channel_witness :
  getChannelCategories sportEntry = Returns ["sport"; "sky"].
Proof.
  apply (proj1 (proj2 (categories_of_a_channel sportEntry))). done.
Defined.

Lemma filter_inherited (l k : list TvChannel) :
  filterChannels Inherited l = Returns k -> k = [].
Proof.
  intros H. rewrite (filterChannels_filter _ _ _ H).
  clear. induction l as [|ch l IH]; [done|]. cbn [List.filter].
  by destruct (getChannelCategories ch).
Qed.

(** X27. What a genre does to the catalog.  A genre that is not one of the
    nine of the table filters nothing: all channels are listed, in their
    order.  A genre of the table keeps the channels that have its category,
    in their order.  The name of a property that every object inherits,
    such as [constructor], is taken for a category that no channel has: the
    catalog is then empty. *)
Theorem catalog_by_genre (tvChannels : list TvChannel) (genre : string) :
  (genreMap genre = NoTarget ->
   defineCatalogHandler tvChannels "tv" (Some genre)
   = Returns (map toMeta tvChannels)) /\
  (forall c metas,
     genreMap genre = Category c ->
     defineCatalogHandler tvChannels "tv" (Some genre) = Returns metas ->
     metas = map toMeta (List.filter (hasCategory c) tvChannels)) /\
  (forall metas,
     genreMap genre = Inherited ->
     defineCatalogHandler tvChannels "tv" (Some genre) = Returns metas ->
     metas = []).
Proof.
  unfold defineCatalogHandler. change (String.eqb "tv" "tv") with true.
  cbv iota. cbn [or_empty].
  split; [|split].
  - intros Hg. rewrite Hg. by destruct (truthy (Some genre)).
  - intros c metas Hg. rewrite Hg.
    destruct genre as [|a genre]; [discriminate Hg|]. cbn [truthy].
    destruct (filterChannels (Category c) tvChannels) as [kept|e] eqn:Hf;
      [|done].
    intros [= <-]. by rewrite (filterChannels_filter _ _ _ Hf).
  - intros metas Hg. rewrite Hg.
    destruct genre as [|a genre]; [discriminate Hg|]. cbn [truthy].
    destruct (filterChannels Inherited tvChannels) as [kept|e] eqn:Hf;
      [|done].
    intros [= <-]. by rewrite (filter_inherited _ _ Hf).
Qed.

Lemma catalog_by_genre_witness :
  defineCatalogHandler [rai1Entry; sportEntry] "tv" (Some "Sports")
  = Returns (map toMeta [rai1Entry; sportEntry]).
Proof.
  apply (proj1 (catalog_by_genre [rai1Entry; sportEntry] "Sports")).
  reflexivity.
Defined.

End CatalogFacts.
